(** * spreadsheet-manager: A1 notation, colour and command helpers

    A shallow embedding of the Go sources of [spreadsheet-manager]
    ([internal/helpers], [internal/auth], [internal/cli]; the older
    single-package copies under [src/] carry the same function bodies under
    lower-case names) together with the properties the specification states
    about them.

    Conventions.
    - A Go [string] is a sequence of bytes: [String.string], whose
      characters are the 8-bit [Ascii.ascii].
    - A Go [int] is a 64-bit two's complement integer: a [Z] on which every
      arithmetic result goes through [intWrap].
    - A Go [float64] is an IEEE 754 binary64 number: [PrimFloat.float].
    - A function returning [(v, error)] returns a [result]; a function of the
      Go standard library whose error is only tested against [nil] returns an
      [option]. *)

From Stdlib Require Import ZArith Ascii String List Bool Lia.
From Stdlib Require Import Floats.PrimFloat Numbers.Cyclic.Int63.Uint63.
From stdpp Require Import base option list strings gmap.

Local Open Scope Z_scope.

(** ** Results and errors *)

Inductive result (A : Type) : Type :=
| Ok (a : A)
| Err (msg : string).
Arguments Ok {A} a.
Arguments Err {A} msg.

#[global] Instance result_ret : MRet result := fun A a => Ok a.
#[global] Instance result_bind : MBind result := fun A B f m =>
  match m with
  | Ok a => f a
  | Err e => Err e
  end.

Definition is_err {A} (r : result A) : bool :=
  match r with
  | Ok _ => false
  | Err _ => true
  end.

(** ** Machine integers and bytes *)

Definition intMin : Z := - 9223372036854775808.
Definition intMax : Z := 9223372036854775807.

(** The value a 64-bit signed [int] holds after an operation whose
    mathematical result is [z]. *)
Definition intWrap (z : Z) : Z :=
  (z + 9223372036854775808) mod 18446744073709551616 - 9223372036854775808.

(** The numeric value of a byte of a string. *)
Definition byte (c : ascii) : Z := Z.of_N (N_of_ascii c).

(** [uint8] arithmetic wraps modulo 256. *)
Definition byteWrap (z : Z) : Z := z mod 256.

(** ** The parts of the Go standard library the helpers call *)

Module strconv.

(** [lower] of strconv: [c | ('x' - 'X')]. *)
Definition lower (b : Z) : Z := Z.lor b 32.

(** The digit value of a character in [ParseUint]'s loop: ['0'..'9'] are
    0..9, letters of either case are 10..35, anything else is a syntax
    error. *)
Definition digitVal (c : ascii) : option Z :=
  let b := byte c in
  if (48 <=? b) && (b <=? 57) then Some (b - 48)
  else if (97 <=? lower b) && (lower b <=? 122) then Some (lower b - 97 + 10)
  else None.

(** The digit loop of [ParseUint], with the accumulated value unbounded;
    the range test is made once at the end, by the caller. *)
Fixpoint parseDigits (base : Z) (s : string) (n : Z) : option Z :=
  match s with
  | EmptyString => Some n
  | String c rest =>
      match digitVal c with
      | Some d => if d <? base then parseDigits base rest (n * base + d) else None
      | None => None
      end
  end.

(** [strconv.ParseUint(s, base, bitSize)] for an explicit base between 2
    and 36 (no base prefix, no underscores): [None] for a syntax error or
    a value of [2^bitSize] or more. *)
Definition ParseUint (s : string) (base bitSize : Z) : option Z :=
  match s with
  | EmptyString => None
  | _ =>
      n ← parseDigits base s 0;
      if n <? 2 ^ bitSize then Some n else None
  end.

(** [strconv.ParseInt(s, base, bitSize)]: an optional sign, then
    [ParseUint]; [None] for a syntax error or a value outside the signed
    [bitSize]-bit range. *)
Definition ParseInt (s : string) (base bitSize : Z) : option Z :=
  match s with
  | EmptyString => None
  | String c rest =>
      let '(neg, body) :=
        if Ascii.eqb c "+" then (false, rest)
        else if Ascii.eqb c "-" then (true, rest)
        else (false, s) in
      un ← ParseUint body base bitSize;
      let cutoff := 2 ^ (bitSize - 1) in
      if negb neg && (cutoff <=? un) then None
      else if neg && (cutoff <? un) then None
      else Some (if neg then - un else un)
  end.

(** [strconv.Atoi(s)] is [ParseInt(s, 10, 0)] converted to [int]; bit size
    0 stands for the size of [int], 64. *)
Definition Atoi (s : string) : option Z := ParseInt s 10 64.

End strconv.

Module strings.

(** [strings.TrimPrefix(s, prefix)]. *)
Definition TrimPrefix (s prefix : string) : string :=
  if String.prefix prefix s
  then String.substring (String.length prefix) (String.length s - String.length prefix) s
  else s.

(** [strings.Split(s, sep)] for a one-byte separator: the fields between
    the occurrences of [sep]; always at least one field. *)
Fixpoint Split (s : string) (sep : ascii) : list string :=
  match s with
  | EmptyString => [EmptyString]
  | String c rest =>
      if Ascii.eqb c sep then EmptyString :: Split rest sep
      else match Split rest sep with
           | field :: fields => String c field :: fields
           | [] => [String c EmptyString]
           end
  end.

(** [strings.Join(elems, sep)]. *)
Fixpoint Join (elems : list string) (sep : string) : string :=
  match elems with
  | [] => EmptyString
  | [e] => e
  | e :: rest => e +:+ sep +:+ Join rest sep
  end.

End strings.

(** The slice expression [s[lo:hi]] on a string. *)
Definition slice (s : string) (lo hi : nat) : string :=
  String.substring lo (hi - lo) s.

(** ** The outside world of a command

    Each command is one process talking to the file system, to the OAuth
    token endpoint, to the spreadsheet service and to the user's browser.
    Their answers are inputs of the model ([Env]); what the process does to
    them is recorded, in order, in the event log of the [World]. *)

(** A value of type [interface{}] as encoding/json and the CSV import
    produce it; a nested array or object is kept as its JSON text. *)
Inductive iface : Type :=
| VNil
| VString (s : string)
| VInt (n : Z)
| VNumber (x : float)
| VBool (b : bool)
| VNested (json : string).

Definition Token : Type := string.
Definition Config : Type := string.

(** [sheets.NumberFormat], [sheets.GridRange] and the [RepeatCell] request of
    the format command. *)
Record NumberFormat : Type := mkNumberFormat { Type_ : string; Pattern : string }.

Record GridRange : Type := mkGridRange {
  SheetId : Z;
  StartRowIndex : Z;
  EndRowIndex : Z;
  StartColumnIndex : Z;
  EndColumnIndex : Z }.

Record RepeatCellRequest : Type := mkRepeatCell {
  Range : GridRange;
  CellNumberFormat : NumberFormat;
  Fields : string }.

(** An outgoing network request. *)
Inductive NetCall : Type :=
| TokenExchange (code : string)
| SpreadsheetsGet (spreadsheetID : string)
| ValuesUpdate (spreadsheetID range : string) (values : list (list iface))
    (valueInputOption : string)
| BatchUpdate (spreadsheetID : string) (requests : list RepeatCellRequest).

Inductive Event : Type :=
| EvListen (addr : string)
| EvClose (addr : string)
| EvNet (call : NetCall)
| EvStdout (text : string)
| EvStderr (text : string)
| EvPrintJSON (fields : list (string * iface)).

(** What can happen while the authorization flow runs: the calling goroutine
    or the listener goroutine runs its next statement, the [select] takes one
    of its ready cases, the browser is redirected to the callback URL with
    the given [code] query parameter, or the context is cancelled. *)
Inductive Action : Type :=
| Main
| SelectCode
| SelectErr
| SelectDone
| Listener
| Callback (code : string)
| Cancel.

Record Env : Type := mkEnv {
  UserHomeDir : result string;
  ConfigFromJSON : string -> result Config;
  AuthCodeURL : Config -> string;
  decodeToken : string -> result Token;
  encodeToken : Token -> string;
  writable : string -> result unit;
  listenError : option string;
  schedule : list Action;
  Exchange : string -> result Token;
  NewService : result unit;
  spreadsheetsGet : string -> result (list (string * Z));
  valuesUpdate : string -> string -> list (list iface) -> string -> result unit;
  batchUpdate : string -> list RepeatCellRequest -> result unit;
  jsonUnmarshal : string -> result (list (list iface));
  csvReadAll : string -> result (list (list string)) }.

Record World : Type := mkWorld {
  files : gmap string string;
  events : list Event }.

(** A command either returns a value, returns an error, waits for ever, or
    stops in a run-time panic. *)
Inductive run (A : Type) : Type :=
| Ret (a : A)
| Fail (err : string)
| Hang
| Panic.
Arguments Ret {A} a.
Arguments Fail {A} err.
Arguments Hang {A}.
Arguments Panic {A}.

Definition M (A : Type) : Type := World -> run A * World.

#[global] Instance M_ret : MRet M := fun A a w => (Ret a, w).
#[global] Instance M_bind : MBind M := fun A B f m w =>
  match m w with
  | (Ret a, w') => f a w'
  | (Fail e, w') => (Fail e, w')
  | (Hang, w') => (Hang, w')
  | (Panic, w') => (Panic, w')
  end.

(** [v, err := f()] followed by [if err != nil { return err }]. *)
Definition lift {A} (r : result A) : M A := fun w =>
  match r with
  | Ok a => (Ret a, w)
  | Err e => (Fail e, w)
  end.

(** Running [m] and keeping its error as a value, for the callers that do
    something else than return it. *)
Definition try {A} (m : M A) : M (result A) := fun w =>
  match m w with
  | (Ret a, w') => (Ret (Ok a), w')
  | (Fail e, w') => (Ret (Err e), w')
  | (Hang, w') => (Hang, w')
  | (Panic, w') => (Panic, w')
  end.

(** The error of [m] rewritten by [f], as [fmt.Errorf] does around [%w]. *)
Definition mapErr {A} (f : string -> string) (m : M A) : M A := fun w =>
  match m w with
  | (Fail e, w') => (Fail (f e), w')
  | other => other
  end.

(** [fmt.Errorf(prefix + ": %w", err)] on the error of [m]. *)
Definition wrapErr {A} (prefix : string) (m : M A) : M A :=
  mapErr (fun e => prefix +:+ ": " +:+ e) m.

(** The line feed of a Go string literal. *)
Definition nl : string := String (ascii_of_nat 10) EmptyString.

Definition emit (e : Event) : M unit := fun w =>
  (Ret tt, {| files := files w; events := events w ++ [e] |}).

(** [os.ReadFile] and [os.Open] followed by reading the file. *)
Definition readFile (path : string) : M string := fun w =>
  match files w !! path with
  | Some content => (Ret content, w)
  | None => (Fail ("open " +:+ path +:+ ": no such file or directory"), w)
  end.

Definition writeFile (env : Env) (path content : string) : M unit := fun w =>
  match writable env path with
  | Ok _ => (Ret tt, {| files := <[path := content]> (files w); events := events w |})
  | Err e => (Fail e, w)
  end.

(** *** path/filepath

    [filepath.Clean] and [filepath.Join] as the Go library defines them on
    a system whose separator is the slash and whose paths have no volume
    name; the buffer [out] of [Clean] is the text written so far. *)

Module filepath.

Definition Separator : ascii := "/".

Definition IsPathSeparator (c : ascii) : bool := Ascii.eqb c Separator.

(** [r == n || os.IsPathSeparator(path[r])], on the text from [r] on. *)
Definition endsElement (path : string) : bool :=
  match path with
  | EmptyString => true
  | String c _ => IsPathSeparator c
  end.

(** The copy loop of [Clean],
    [for ; r < n && !os.IsPathSeparator(path[r]); r++ { out.append(path[r]) }]:
    the bytes copied and the text from the final [r] on. *)
Fixpoint element (path : string) : string * string :=
  match path with
  | EmptyString => (EmptyString, EmptyString)
  | String c rest =>
      if IsPathSeparator c then (EmptyString, path)
      else let '(copied, rest') := element rest in (String c copied, rest')
  end.

(** The backtracking loop of [Clean] on the bytes written so far,
    [for out.w > dotdot && !os.IsPathSeparator(out.index(out.w)) { out.w-- }]:
    the final [out.w]. *)
Fixpoint backtrack (out : string) (dotdot w : nat) : nat :=
  match w with
  | O => O
  | S w' =>
      if (dotdot <? w)%nat
         && negb (match String.get w out with
                  | Some c => IsPathSeparator c
                  | None => false
                  end)
      then backtrack out dotdot w'
      else w
  end.

(** The main loop of [Clean], [for r < n { switch ... }], on the text from
    [r] on; [out] holds the [out.w] bytes written so far.  Every turn
    reads at least one byte, so [len(path)] turns are enough. *)
Fixpoint cleanLoop (turns : nat) (rooted : bool) (path out : string) (dotdot : nat) : string :=
  match turns, path with
  | O, _ | _, EmptyString => out
  | S turns, String c rest =>
      if IsPathSeparator c then
        (* empty path element *)
        cleanLoop turns rooted rest out dotdot
      else if Ascii.eqb c "." && endsElement rest then
        (* . element *)
        cleanLoop turns rooted rest out dotdot
      else if Ascii.eqb c "."
              && match rest with
                 | String c' rest' => Ascii.eqb c' "." && endsElement rest'
                 | EmptyString => false
                 end then
        (* .. element: remove to last separator *)
        (* r += 2 *)
        let rest := match rest with String _ rest' => rest' | EmptyString => EmptyString end in
        if (dotdot <? String.length out)%nat then
          let w := backtrack out dotdot (String.length out - 1) in
          cleanLoop turns rooted rest (String.substring 0 w out) dotdot
        else if negb rooted then
          let out := if (0 <? String.length out)%nat then out +:+ "/" else out in
          let out := out +:+ ".." in
          cleanLoop turns rooted rest out (String.length out)
        else cleanLoop turns rooted rest out dotdot
      else
        (* real path element: add slash if needed, copy element *)
        let out :=
          if rooted && negb (String.length out =? 1)%nat
             || negb rooted && negb (String.length out =? 0)%nat
          then out +:+ "/" else out in
        let '(copied, rest') := element path in
        cleanLoop turns rooted rest' (out +:+ copied) dotdot
  end.

(** [filepath.Clean] on a system whose separator is the slash and whose
    paths have no volume name. *)
Definition Clean (path : string) : string :=
  match path with
  | EmptyString => "."
  | String c rest =>
      let rooted := IsPathSeparator c in
      let out :=
        if rooted then cleanLoop (String.length path) rooted rest "/" 1
        else cleanLoop (String.length path) rooted path "" 0 in
      if (String.length out =? 0)%nat then "." else out
  end.

(** [filepath.Join(dir, name)]: the elements from the first non-empty one
    on, joined with the separator and cleaned. *)
Definition Join (dir name : string) : string :=
  if negb (String.eqb dir "") then Clean (dir +:+ "/" +:+ name)
  else if negb (String.eqb name "") then Clean name
  else "".

End filepath.

(** A request sent to a remote service, answered by the environment. *)
Definition netCall {A} (call : NetCall) (answer : result A) : M A :=
  emit (EvNet call);;
  lift answer.

(** ** internal/helpers *)

Module helpers.

(** *** A1 notation *)

(** The column loop of [A1ToGrid]:
    [for i < len(cell) && cell[i] >= 'A' && cell[i] <= 'Z'
       { col = col*26 + int(cell[i]-'A'+1); i++ }].
    Returns the final [col] and the unread suffix [cell[i:]]. *)
Fixpoint scanColumn (cell : string) (col : Z) : Z * string :=
  match cell with
  | EmptyString => (col, cell)
  | String c rest =>
      if (65 <=? byte c) && (byte c <=? 90)
      then scanColumn rest (intWrap (col * 26 + byteWrap (byte c - 65 + 1)))
      else (col, cell)
  end.

(** [A1ToGrid] converts A1 notation (e.g., "B5") to 0-indexed grid
    coordinates. *)
Definition A1ToGrid (cell : string) : result (Z * Z) :=
  let '(col, rest) := scanColumn cell 0 in
  row ← (if (0 <? String.length rest)%nat
         then match strconv.Atoi rest with
              | Some rowNum => Ok rowNum
              | None => Err ("invalid cell reference: " +:+ cell)
              end
         else Ok 0);
  Ok (intWrap (col - 1), intWrap (row - 1)).

(** [ParseRange] parses A1 notation range (e.g., "A1:B10") into 0-indexed
    grid coordinates [(startCol, startRow, endCol, endRow)].  [parts[0]] and
    [parts[1]] are read with list lookups; an index out of range is a
    run-time panic, which is the outer [None]. *)
Definition ParseRange (rangeA1 : string) : option (result (Z * Z * Z * Z)) :=
  let parts := strings.Split rangeA1 ":" in
  part0 ← parts !! 0%nat;
  match A1ToGrid part0 with
  | Err e => Some (Err e)
  | Ok (startCol, startRow) =>
      if (1 <? length parts)%nat
      then part1 ← parts !! 1%nat;
           match A1ToGrid part1 with
           | Err e => Some (Err e)
           | Ok (endCol, endRow) => Some (Ok (startCol, startRow, endCol, endRow))
           end
      else Some (Ok (startCol, startRow, startCol, startRow))
  end.

(** *** color.go *)

Definition HexColorLength : nat := 6.
Definition RGBMaxValue : float := 255%float.

(** [sheets.Color], the fields [ParseColor] sets. *)
Record Color : Type := mkColor { Red : float; Green : float; Blue : float }.

(** The conversion [float64(n)] of an integer to a binary64 number (exact
    below [2^53] in magnitude). *)
Definition float64 (n : Z) : float :=
  if n <? 0 then PrimFloat.opp (PrimFloat.of_uint63 (Uint63.of_Z (- n)))
  else PrimFloat.of_uint63 (Uint63.of_Z n).

(** [ParseColor] converts hex color string (e.g., "#ff0000") to a Color
    whose values are normalized to the 0.0-1.0 range; [None] is the [nil]
    pointer. *)
Definition ParseColor (hexColor : string) : option Color :=
  let hexColor := strings.TrimPrefix hexColor "#" in
  if negb (String.length hexColor =? HexColorLength)%nat then None
  else
    match strconv.ParseInt (slice hexColor 0 2) 16 64,
          strconv.ParseInt (slice hexColor 2 4) 16 64,
          strconv.ParseInt (slice hexColor 4 6) 16 64 with
    | Some r, Some g, Some b =>
        Some {| Red := PrimFloat.div (float64 r) RGBMaxValue;
                Green := PrimFloat.div (float64 g) RGBMaxValue;
                Blue := PrimFloat.div (float64 b) RGBMaxValue |}
    | _, _, _ => None
    end.

(** *** format.go *)

Definition FormatTypeCurrency : string := "CURRENCY".
Definition FormatTypeDate : string := "DATE".
Definition FormatTypeNumber : string := "NUMBER".
Definition FormatTypePercent : string := "PERCENT".
Definition FormatTypeTime : string := "TIME".

(** Default format patterns for each format type. *)
Definition defaultFormatPatterns : gmap string string :=
  <[FormatTypeNumber := "#,##0.00"]>
  (<[FormatTypeCurrency := "$#,##0.00"]>
  (<[FormatTypeDate := "yyyy-mm-dd"]>
  (<[FormatTypePercent := "0.00%"]>
  (<[FormatTypeTime := "hh:mm:ss"]> ∅)))).

(** [GetDefaultFormatPattern] returns the default pattern for a given
    format type. *)
Definition GetDefaultFormatPattern (formatType : string) : string :=
  match defaultFormatPatterns !! formatType with
  | Some pattern => pattern
  | None => ""
  end.

(** *** json.go *)

(** [PrintJSON] marshals a value to indented JSON and prints it to stdout;
    the event keeps the fields of the map. *)
Definition PrintJSON (fields : list (string * iface)) : M unit :=
  emit (EvPrintJSON fields).

(** [GetSheetID] retrieves the numeric sheet ID for a given sheet
    name. *)
Definition GetSheetID (env : Env) (spreadsheetID sheetName : string) : M Z :=
  sheets ← wrapErr "unable to retrieve spreadsheet"
             (netCall (SpreadsheetsGet spreadsheetID) (spreadsheetsGet env spreadsheetID));
  match List.find (fun sheet => String.eqb (fst sheet) sheetName) sheets with
  | Some sheet => mret (snd sheet)
  | None => lift (Err ("sheet '" +:+ sheetName +:+ "' not found"))
  end.

End helpers.

(** ** internal/auth *)

Module auth.

Definition CallbackServerPort : string := ":8080".
Definition CredentialsDir : string := ".gdrive".
Definition CredentialsFile : string := "credentials.json".
Definition TokenFile : string := "token.json".

(** *** The callback server

    [http.Server] as net/http runs it.  [ListenAndServe] first tests whether
    the server is shutting down, and returns [ErrServerClosed] when it is;
    it then binds the address with [net.Listen]; then [Serve] registers the
    listener with the server ([trackListener]), unless the server is
    shutting down by then: in that case [Serve] returns [ErrServerClosed]
    and its deferred [l.Close()] closes the listener.  A registered listener
    accepts connections until it is closed.  [Shutdown] marks the server as
    shutting down and closes the listeners that are registered, and no
    others.

    [bound]: the socket of the address is open; [tracked]: the listener is
    registered with the server; [inShutdown]: [Shutdown] has been called. *)
Record Server : Type := mkServer { bound : bool; tracked : bool; inShutdown : bool }.

(** [Shutdown] then waits until the connections in use are idle or the
    context is done.  The state does not follow the connections, and the
    call returns whenever it is scheduled: the model returns wherever the
    code can return. *)
Definition Shutdown (srv : Server) : Server :=
  {| bound := if tracked srv then false else bound srv;
     tracked := false;
     inShutdown := true |}.

(** [context.Background()] is never cancelled; another context may be. *)
Inductive Context : Type :=
| Background
| WithCancel (done : bool).

Definition Done (ctx : Context) : bool :=
  match ctx with
  | Background => false
  | WithCancel done => done
  end.

(** *** requestTokenFromWeb as a transition system

    The function runs on the calling goroutine ([MainPC]) next to the
    goroutine it spawns for [server.ListenAndServe()] ([ListenerPC]) and to
    the handlers of the callback requests, which fill the two channels of
    capacity one. *)

(** What follows [server.Shutdown(ctx)]: the code after the [select], or the
    [return] of the case that called it. *)
Inductive Next : Type :=
| ThenExchange (authCode : string)
| ThenReturn (err : string).

Inductive MainPC : Type :=
| PcGo
| PcPrompt
| PcSelect
| PcShutdown (k : Next)
| PcExchange (authCode : string)
| PcReturned (r : result Token).

(** The goroutine of [server.ListenAndServe()]: not spawned yet, at the
    test of [ListenAndServe], at [net.Listen], at the registration of
    [Serve], in the accept loop, or returned. *)
Inductive ListenerPC : Type :=
| LNotStarted
| LReady
| LListen
| LTrack
| LServing
| LExited.

Record State : Type := mkState {
  pc : MainPC;
  lpc : ListenerPC;
  server : Server;
  codeChan : option string;
  errChan : option string;
  ctx : Context;
  log : list Event }.

Definition init (ctx : Context) : State :=
  {| pc := PcGo; lpc := LNotStarted;
     server := {| bound := false; tracked := false; inShutdown := false |};
     codeChan := None; errChan := None; ctx := ctx; log := [] |}.

(** The statements of the calling goroutine outside the [select]. *)
Definition stepMain (env : Env) (config : Config) (s : State) : option State :=
  match pc s with
  | PcGo =>
      (* go func() { server.ListenAndServe() ... }() *)
      Some (mkState PcPrompt LReady (server s) (codeChan s) (errChan s) (ctx s) (log s))
  | PcPrompt =>
      (* authURL := config.AuthCodeURL(...); the two prints *)
      Some (mkState PcSelect (lpc s) (server s) (codeChan s) (errChan s) (ctx s)
              (log s ++ [EvStdout ("Go to the following link in your browser:" +:+ nl
                                   +:+ AuthCodeURL env config +:+ nl +:+ nl);
                         EvStdout ("Waiting for authentication..." +:+ nl)]))
  | PcSelect => None
  | PcShutdown k =>
      (* server.Shutdown(ctx) *)
      Some (mkState (match k with
                     | ThenExchange authCode => PcExchange authCode
                     | ThenReturn err => PcReturned (Err err)
                     end)
              (lpc s) (Shutdown (server s)) (codeChan s) (errChan s) (ctx s)
              (log s ++ (if tracked (server s) then [EvClose CallbackServerPort] else [])))
  | PcExchange authCode =>
      (* token, err := config.Exchange(ctx, authCode) *)
      Some (mkState (PcReturned
                       match Exchange env authCode with
                       | Ok token => Ok token
                       | Err e => Err ("unable to retrieve token from web: " +:+ e)
                       end)
              (lpc s) (server s) (codeChan s) (errChan s) (ctx s)
              (log s ++ [EvNet (TokenExchange authCode)]))
  | PcReturned _ => None
  end.

(** The three cases of the [select]; a case can be taken when it is ready. *)
Definition stepSelect (a : Action) (s : State) : option State :=
  match pc s, a with
  | PcSelect, SelectCode =>
      authCode ← codeChan s;
      Some (mkState (PcShutdown (ThenExchange authCode)) (lpc s) (server s)
              None (errChan s) (ctx s) (log s))
  | PcSelect, SelectErr =>
      err ← errChan s;
      Some (mkState (PcShutdown (ThenReturn err)) (lpc s) (server s)
              (codeChan s) None (ctx s) (log s))
  | PcSelect, SelectDone =>
      if Done (ctx s)
      then Some (mkState (PcShutdown (ThenReturn "authentication cancelled"))
                   (lpc s) (server s) (codeChan s) (errChan s) (ctx s) (log s))
      else None
  | _, _ => None
  end.

(** The spawned goroutine:
    [if err := server.ListenAndServe(); err != nil && err != http.ErrServerClosed
       { errChan <- fmt.Errorf("failed to start server: %w", err) }],
    one step for each of the statements of [ListenAndServe] and [Serve] that
    reads or changes the server. *)
Definition stepListener (env : Env) (s : State) : option State :=
  match lpc s with
  | LReady =>
      (* if srv.shuttingDown() { return ErrServerClosed } *)
      Some (mkState (pc s) (if inShutdown (server s) then LExited else LListen)
              (server s) (codeChan s) (errChan s) (ctx s) (log s))
  | LListen =>
      (* ln, err := net.Listen("tcp", addr); if err != nil { return err } *)
      match listenError env with
      | None =>
          Some (mkState (pc s) LTrack
                  {| bound := true; tracked := tracked (server s);
                     inShutdown := inShutdown (server s) |}
                  (codeChan s) (errChan s) (ctx s)
                  (log s ++ [EvListen CallbackServerPort]))
      | Some e =>
          match errChan s with
          | None =>
              Some (mkState (pc s) LExited (server s) (codeChan s)
                      (Some ("failed to start server: " +:+ e)) (ctx s) (log s))
          | Some _ => None
          end
      end
  | LTrack =>
      (* srv.Serve(ln): defer l.Close();
         if !srv.trackListener(&l, true) { return ErrServerClosed } *)
      if inShutdown (server s)
      then Some (mkState (pc s) LExited
                   {| bound := false; tracked := tracked (server s);
                      inShutdown := inShutdown (server s) |}
                   (codeChan s) (errChan s) (ctx s)
                   (log s ++ [EvClose CallbackServerPort]))
      else Some (mkState (pc s) LServing
                   {| bound := bound (server s); tracked := true;
                      inShutdown := inShutdown (server s) |}
                   (codeChan s) (errChan s) (ctx s) (log s))
  | LServing =>
      (* l.Accept() blocks until the listener is closed; then
         if srv.shuttingDown() { return ErrServerClosed } *)
      if inShutdown (server s)
      then Some (mkState (pc s) LExited (server s) (codeChan s) (errChan s) (ctx s) (log s))
      else None
  | LNotStarted | LExited => None
  end.

(** The handler registered with [http.HandleFunc("/", ...)], run for a
    request that the registered listener accepts; a send on a full channel
    blocks the handler. *)
Definition stepCallback (code : string) (s : State) : option State :=
  if tracked (server s)
  then if String.eqb code ""
       then match errChan s with
            | None =>
                Some (mkState (pc s) (lpc s) (server s) (codeChan s)
                        (Some "no authorization code in callback") (ctx s) (log s))
            | Some _ => None
            end
       else match codeChan s with
            | None =>
                Some (mkState (pc s) (lpc s) (server s) (Some code)
                        (errChan s) (ctx s) (log s))
            | Some _ => None
            end
  else None.

Definition stepCancel (s : State) : option State :=
  match ctx s with
  | Background => None
  | WithCancel _ =>
      Some (mkState (pc s) (lpc s) (server s) (codeChan s) (errChan s)
              (WithCancel true) (log s))
  end.

Definition step (env : Env) (config : Config) (a : Action) (s : State) : option State :=
  match a with
  | Main => stepMain env config s
  | SelectCode | SelectErr | SelectDone => stepSelect a s
  | Listener => stepListener env s
  | Callback code => stepCallback code s
  | Cancel => stepCancel s
  end.

(** An action that is not enabled leaves the state as it is. *)
Definition exec (env : Env) (config : Config) (s : State) (a : Action) : State :=
  default s (step env config a s).

Definition execAll (env : Env) (config : Config) (sched : list Action) (s : State) : State :=
  foldl (exec env config) s sched.

(** [requestTokenFromWeb(ctx, config)] under the schedule of the
    environment: its result when the calling goroutine reaches a [return],
    [Hang] when it is still waiting. *)
Definition requestTokenFromWeb (env : Env) (ctx : Context) (config : Config) : M Token :=
  fun w =>
    let s := execAll env config (schedule env) (init ctx) in
    let w' := {| files := files w; events := events w ++ log s |} in
    match pc s with
    | PcReturned (Ok token) => (Ret token, w')
    | PcReturned (Err e) => (Fail e, w')
    | _ => (Hang, w')
    end.

(** *** Credentials and tokens *)

Definition getCredentialsPath (env : Env) : string :=
  match UserHomeDir env with
  | Err _ => ""
  | Ok home => filepath.Join home CredentialsDir
  end.

Definition loadToken (env : Env) (path : string) : M Token :=
  content ← readFile path;
  lift (decodeToken env content).

Definition saveToken (env : Env) (path : string) (token : Token) : M unit :=
  emit (EvStderr ("Saving credentials to: " +:+ path +:+ nl));;
  writeFile env path (encodeToken env token).

(** [GetClient] retrieves an OAuth2 HTTP client using stored credentials;
    the client is represented by the token it carries. *)
Definition GetClient (env : Env) (ctx : Context) : M Token :=
  let credPath := filepath.Join (getCredentialsPath env) CredentialsFile in
  let tokenPath := filepath.Join (getCredentialsPath env) TokenFile in
  credentials ← mapErr (fun e => "unable to read credentials file " +:+ credPath +:+ ": "
                                 +:+ e +:+ nl +:+ "See README.md for setup instructions")
                  (readFile credPath);
  config ← wrapErr "unable to parse credentials" (lift (ConfigFromJSON env credentials));
  loaded ← try (loadToken env tokenPath);
  match loaded with
  | Ok token => mret token
  | Err _ =>
      token ← requestTokenFromWeb env ctx config;
      saved ← try (saveToken env tokenPath token);
      match saved with
      | Ok _ => mret token
      | Err e =>
          emit (EvStderr ("Warning: unable to save token: " +:+ e +:+ nl));;
          mret token
      end
  end.

(** [GetSheetsService] creates an authenticated Google Sheets service. *)
Definition GetSheetsService (env : Env) (ctx : Context) : M Token :=
  client ← GetClient env ctx;
  wrapErr "unable to create Sheets service" (lift (NewService env));;
  mret client.

End auth.

(** ** internal/cli *)

Module cli.

(** *** constants.go and the CSV commands *)

Definition DefaultStartCell : string := "A1".
Definition ValueInputModeFormula : string := "USER_ENTERED".
Definition ValueInputModeRaw : string := "RAW".

(** [for i, x := range xs { body }] on a slice, threading the variables the
    body assigns. *)
Fixpoint forRange {A St : Type} (body : nat -> A -> St -> St) (i : nat) (xs : list A)
    (st : St) : St :=
  match xs with
  | [] => st
  | x :: rest => forRange body (S i) rest (body i x st)
  end.

(** [make([]T, n)]: [n] zero values. *)
Definition make {T : Type} (zero : T) (n : nat) : list T := replicate n zero.

(** The conversion loop of [readCSV]. *)
Definition csvValues (records : list (list string)) : list (list iface) :=
  let values := make ([] : list iface) (length records) in
  forRange (fun i record values =>
              let row := make VNil (length record) in
              let row := forRange (fun j v row => <[j := VString v]> row) 0 record row in
              <[i := row]> values)
    0 records values.

Definition readCSV (env : Env) (path : string) : M (list (list iface)) :=
  content ← wrapErr "unable to open CSV file" (readFile path);
  records ← wrapErr "unable to read CSV" (lift (csvReadAll env content));
  mret (csvValues records).

(** [runImportCSV], the handler of
    [import-csv <spreadsheet-id> <sheet-name> <csv-path>]. *)
Definition runImportCSV (env : Env) (importCSVStartCell : string)
    (spreadsheetID sheetName csvPath : string) : M unit :=
  values ← readCSV env csvPath;
  service ← auth.GetSheetsService env auth.Background;
  let target := sheetName +:+ "!" +:+ importCSVStartCell in
  wrapErr "unable to import CSV"
    (netCall (ValuesUpdate spreadsheetID target values ValueInputModeFormula)
       (valuesUpdate env spreadsheetID target values ValueInputModeFormula));;
  helpers.PrintJSON [("status", VString "success"); ("rows", VInt (Z.of_nat (length values)))].

(** *** data.go *)

(** [runAddData], the handler of
    [add-data <spreadsheet-id> <sheet-name> <range> <values-json>]; cobra has
    checked that there are four arguments. *)
Definition runAddData (env : Env) (addDataFormulaMode : bool)
    (spreadsheetID sheetName rangeA1 valuesJSON : string) : M unit :=
  service ← auth.GetSheetsService env auth.Background;
  values ← wrapErr "invalid JSON values" (lift (jsonUnmarshal env valuesJSON));
  let valueInputOption :=
    if negb addDataFormulaMode then ValueInputModeRaw else ValueInputModeFormula in
  let target := sheetName +:+ "!" +:+ rangeA1 in
  wrapErr "unable to update cells"
    (netCall (ValuesUpdate spreadsheetID target values valueInputOption)
       (valuesUpdate env spreadsheetID target values valueInputOption));;
  helpers.PrintJSON [("status", VString "success"); ("range", VString target)].

(** *** format.go *)

(** The number format and the request [runFormatCells] builds once the sheet
    and the range are known. *)
Definition formatRequest (formatCellsPattern formatType : string) (sheetID : Z)
    (rng : Z * Z * Z * Z) : RepeatCellRequest :=
  let '(startCol, startRow, endCol, endRow) := rng in
  let pattern := formatCellsPattern in
  let pattern :=
    if String.eqb pattern "" then helpers.GetDefaultFormatPattern formatType else pattern in
  let numFormat := {| Type_ := formatType; Pattern := pattern |} in
  {| Range := {| SheetId := sheetID;
                 StartRowIndex := startRow;
                 EndRowIndex := intWrap (endRow + 1);
                 StartColumnIndex := startCol;
                 EndColumnIndex := intWrap (endCol + 1) |};
     CellNumberFormat := numFormat;
     Fields := "userEnteredFormat.numberFormat" |}.

(** [runFormatCells], the handler of
    [format-cells <spreadsheet-id> <sheet-name> <range> <format-type>]. *)
Definition runFormatCells (env : Env) (formatCellsPattern : string)
    (spreadsheetID sheetName rangeA1 formatType : string) : M unit :=
  service ← auth.GetSheetsService env auth.Background;
  sheetID ← helpers.GetSheetID env spreadsheetID sheetName;
  rng ← match helpers.ParseRange rangeA1 with
        | Some r => lift r
        | None => (fun w => (Panic, w))
        end;
  let req := formatRequest formatCellsPattern formatType sheetID rng in
  wrapErr "unable to format cells"
    (netCall (BatchUpdate spreadsheetID [req]) (batchUpdate env spreadsheetID [req]));;
  helpers.PrintJSON [("status", VString "success"); ("format", VString formatType)].

(** *** The export conversion of the CSV commands *)

(** The conversion loop of [writeCSV]: the records handed to
    [writer.Write], in order, one per row, each made with
    [make([]string, len(row))] and filled with [fmt.Sprintf("%v", cell)];
    [Sprintv] is that formatting of a cell. *)
Definition csvRecords (Sprintv : iface -> string) (values : list (list iface))
    : list (list string) :=
  forRange (fun _ row written =>
              let record := make EmptyString (length row) in
              let record := forRange (fun i cell record => <[i := Sprintv cell]> record)
                              0 row record in
              written ++ [record])
    0 values [].

(** *** style.go *)

(** [sheets.TextFormat] and [sheets.CellFormat], the fields [buildCellFormat]
    sets; a [nil] colour or text format is [None]. *)
Record TextFormat : Type := mkTextFormat {
  ForegroundColor : option helpers.Color;
  FontSize : Z;
  Bold : bool;
  Italic : bool }.

Record CellFormat : Type := mkCellFormat {
  BackgroundColor : option helpers.Color;
  CellTextFormat : option TextFormat }.

(** The flag variables of the style-cells command. *)
Record StyleFlags : Type := mkStyleFlags {
  styleCellsBgColor : string;
  styleCellsFontColor : string;
  styleCellsFontSize : Z;
  styleCellsBold : bool;
  styleCellsItalic : bool }.

(** [buildCellFormat]: the cell format of the flags that are set, and the
    names of the fields to update. *)
Definition buildCellFormat (flags : StyleFlags) : CellFormat * list string :=
  let cellFormat := {| BackgroundColor := None; CellTextFormat := None |} in
  let fields : list string := [] in
  let '(cellFormat, fields) :=
    if negb (String.eqb (styleCellsBgColor flags) "")
    then ({| BackgroundColor := helpers.ParseColor (styleCellsBgColor flags);
             CellTextFormat := CellTextFormat cellFormat |},
          fields ++ ["userEnteredFormat.backgroundColor"])
    else (cellFormat, fields) in
  if negb (String.eqb (styleCellsFontColor flags) "") || (0 <? styleCellsFontSize flags)
     || styleCellsBold flags || styleCellsItalic flags
  then
    let textFormat :=
      {| ForegroundColor := None; FontSize := 0; Bold := false; Italic := false |} in
    let textFormat :=
      if negb (String.eqb (styleCellsFontColor flags) "")
      then {| ForegroundColor := helpers.ParseColor (styleCellsFontColor flags);
              FontSize := FontSize textFormat; Bold := Bold textFormat;
              Italic := Italic textFormat |}
      else textFormat in
    let textFormat :=
      if 0 <? styleCellsFontSize flags
      then {| ForegroundColor := ForegroundColor textFormat;
              FontSize := styleCellsFontSize flags; Bold := Bold textFormat;
              Italic := Italic textFormat |}
      else textFormat in
    let textFormat :=
      if styleCellsBold flags
      then {| ForegroundColor := ForegroundColor textFormat;
              FontSize := FontSize textFormat; Bold := true;
              Italic := Italic textFormat |}
      else textFormat in
    let textFormat :=
      if styleCellsItalic flags
      then {| ForegroundColor := ForegroundColor textFormat;
              FontSize := FontSize textFormat; Bold := Bold textFormat;
              Italic := true |}
      else textFormat in
    ({| BackgroundColor := BackgroundColor cellFormat; CellTextFormat := Some textFormat |},
     fields ++ ["userEnteredFormat.textFormat"])
  else (cellFormat, fields).

(** The [RepeatCell] request of [runStyleCells]: the range, the cell format
    and the field mask [strings.Join(fields, ",")]. *)
Record StyleRequest : Type := mkStyleRequest {
  StyleRange : GridRange;
  UserEnteredFormat : CellFormat;
  StyleFields : string }.

Definition styleRequest (flags : StyleFlags) (sheetID : Z) (rng : Z * Z * Z * Z)
    : StyleRequest :=
  let '(startCol, startRow, endCol, endRow) := rng in
  let '(cellFormat, fields) := buildCellFormat flags in
  {| StyleRange := {| SheetId := sheetID;
                      StartRowIndex := startRow;
                      EndRowIndex := intWrap (endRow + 1);
                      StartColumnIndex := startCol;
                      EndColumnIndex := intWrap (endCol + 1) |};
     UserEnteredFormat := cellFormat;
     StyleFields := strings.Join fields "," |}.

(** *** sheet.go *)

(** The grid range of the [UpdateCells] request of [runAddNote], from the
    cell [A1ToGrid] reads, or its error. *)
Definition noteRange (sheetID : Z) (cell : string) : result GridRange :=
  match helpers.A1ToGrid cell with
  | Err e => Err e
  | Ok (col, row) =>
      Ok {| SheetId := sheetID;
            StartRowIndex := row;
            EndRowIndex := intWrap (row + 1);
            StartColumnIndex := col;
            EndColumnIndex := intWrap (col + 1) |}
  end.

(** *** The main package *)

(** [RootCmd.Execute()] for the command whose [RunE] is [cmd], once cobra
    has found the command and checked its arguments.  Nothing sets
    [SilenceErrors] or [SilenceUsage], so when the handler returns an error
    cobra prints ["Error:"] and the error, then the usage text of the
    command, both on standard error ([PrintErrln] and [Println]), and
    returns the error.  [usage] is cobra's [UsageString()] of the
    command. *)
Definition Execute (usage : string) (cmd : M unit) : M unit := fun w =>
  match cmd w with
  | (Fail e, w') =>
      (Fail e,
       {| files := files w';
          events := events w' ++ [EvStderr ("Error: " +:+ e +:+ nl);
                                  EvStderr (usage +:+ nl)] |})
  | other => other
  end.

(** [main]: the exit status of the process, [None] while it waits for ever;
    the error [Execute] returns is printed on standard error once more, and
    a panic ends the process with the status of the Go run time. *)
Definition main (usage : string) (cmd : M unit) (w : World) : option Z * World :=
  match Execute usage cmd w with
  | (Ret _, w') => (Some 0, w')
  | (Fail e, w') =>
      (Some 1, {| files := files w'; events := events w' ++ [EvStderr (e +:+ nl)] |})
  | (Hang, w') => (None, w')
  | (Panic, w') => (Some 2, w')
  end.

End cli.

(** ** Definitions of the specification *)

(** The character classes of the pattern [[A-Z]+[0-9]+] and of a hex
    colour. *)
Definition isUpper (c : ascii) : bool := (65 <=? byte c) && (byte c <=? 90).
Definition isDigit (c : ascii) : bool := (48 <=? byte c) && (byte c <=? 57).
Definition isHexDigit (c : ascii) : bool :=
  isDigit c || ((65 <=? byte c) && (byte c <=? 70)) || ((97 <=? byte c) && (byte c <=? 102)).

Fixpoint allChars (p : ascii -> bool) (s : string) : bool :=
  match s with
  | EmptyString => true
  | String c rest => p c && allChars p rest
  end.

Definition notSeparator (c : ascii) : bool := negb (filepath.IsPathSeparator c).

(** A file name: not empty, without a separator, and not starting with a
    dot. *)
Definition isFileName (name : string) : bool :=
  match name with
  | EmptyString => false
  | String c rest => negb (Ascii.eqb c ".") && allChars notSeparator name
  end.

(** The first character of the text, if any, is of the class. *)
Definition startsWith (p : ascii -> bool) (s : string) : bool :=
  match s with
  | String c _ => p c
  | EmptyString => false
  end.

Definition isSign (c : ascii) : bool := Ascii.eqb c "+" || Ascii.eqb c "-".

Definition notColon (c : ascii) : bool := negb (Ascii.eqb c ":").

(** A non-empty run of characters of one class. *)
Definition isRun (p : ascii -> bool) (s : string) : Prop :=
  s <> "" /\ allChars p s = true.

(** The text matches [[A-Z]+[0-9]+]: a non-empty run of upper-case letters
    followed by a non-empty run of decimal digits, and nothing else. *)
Definition matchesCell (cell : string) : Prop :=
  exists letters digits, cell = letters +:+ digits /\ isRun isUpper letters /\ isRun isDigit digits.

(** The letter run read as a base-26 number with the digits 1..26
    (A is 1, Z is 26, AA is 27), most significant letter first. *)
Fixpoint specColumnNumber (letters : string) : Z :=
  match letters with
  | EmptyString => 0
  | String c rest => (byte c - 64) * 26 ^ Z.of_nat (String.length rest) + specColumnNumber rest
  end.

(** The digit run read as an ordinary base-10 number. *)
Fixpoint specRowNumber (digits : string) : Z :=
  match digits with
  | EmptyString => 0
  | String c rest => (byte c - 48) * 10 ^ Z.of_nat (String.length rest) + specRowNumber rest
  end.

(** Modelled from the spec: the inverse column encoding, which the A1
    notation codec of the specification has and the sources do not. It writes
    a zero-indexed column as its letters: 0 is A, 25 is Z, 26 is AA. The
    argument [n] is the one-indexed column, [fuel] bounds the number of
    letters. *)
Fixpoint columnLettersFrom (fuel : nat) (n : Z) : string :=
  match fuel with
  | O => ""
  | S fuel' =>
      if n <=? 0 then ""
      else columnLettersFrom fuel' ((n - 1) / 26)
             +:+ String (ascii_of_N (Z.to_N (65 + (n - 1) mod 26))) ""
  end.

(** Modelled from the spec: the letters of the zero-indexed column [col]. *)
Definition GridToColumn (col : Z) : string :=
  columnLettersFrom (Z.to_nat (col + 1)) (col + 1).

(** The value of a hexadecimal digit, and of a two-digit channel read as a
    base-16 byte. *)
Definition hexValue (c : ascii) : Z :=
  if byte c <=? 57 then byte c - 48
  else if byte c <=? 70 then byte c - 55
  else byte c - 87.

Definition specChannelByte (c1 c2 : ascii) : Z := 16 * hexValue c1 + hexValue c2.

(** A channel byte divided by 255, as a binary64 number. *)
Definition specChannel (c1 c2 : ascii) : float :=
  PrimFloat.div (helpers.float64 (specChannelByte c1 c2)) 255%float.

(** The binary64 number lies in the closed interval from 0 to 1. *)
Definition inUnitInterval (x : float) : bool :=
  PrimFloat.leb 0%float x && PrimFloat.leb x 1%float.

(** The text contains [needle] as a substring. *)
Fixpoint mentions (needle text : string) : bool :=
  String.prefix needle text ||
  match text with
  | EmptyString => false
  | String _ rest => mentions needle rest
  end.

(** The network requests among the events. *)
Definition netCalls (es : list Event) : list NetCall :=
  omap (fun e => match e with EvNet call => Some call | _ => None end) es.

(** What the process wrote on standard error. *)
Definition stderrOf (es : list Event) : list string :=
  omap (fun e => match e with EvStderr text => Some text | _ => None end) es.

(** The format types that have a default pattern. *)
Definition knownFormatTypes : list string :=
  ["NUMBER"; "CURRENCY"; "DATE"; "PERCENT"; "TIME"].

(** The paths of the two files of the login. *)
Definition credPath (env : Env) : string :=
  filepath.Join (auth.getCredentialsPath env) auth.CredentialsFile.
Definition tokenPath (env : Env) : string :=
  filepath.Join (auth.getCredentialsPath env) auth.TokenFile.

(** The credentials file and the token file are there and readable, so that
    the service is built from them without the authorization flow. *)
Definition storedLogin (env : Env) (w : World) (token : Token) : Prop :=
  exists credentials config content,
    files w !! credPath env = Some credentials
    /\ ConfigFromJSON env credentials = Ok config
    /\ files w !! tokenPath env = Some content
    /\ decodeToken env content = Ok token
    /\ NewService env = Ok tt.

(** Whether the event log ends with the callback port bound: the last
    listen or close event decides. *)
Definition listening (es : list Event) : bool :=
  foldl (fun open e =>
           match e with
           | EvListen _ => true
           | EvClose _ => false
           | _ => open
           end) false es.

(** What holds of the callback server all along the authorization flow: a
    registered listener is open, belongs to a server that is not shutting
    down and is served by the listener goroutine; an open socket that is not
    registered is in the hands of the listener goroutine, between
    [net.Listen] and the registration of [Serve]; the listener goroutine is
    spawned by the first statement of the calling goroutine; the calling
    goroutine is past [server.Shutdown(ctx)] when it exchanges the code or
    has returned; and the event log tells whether the port is bound. *)
Definition shutdownInv (s : auth.State) : Prop :=
  (auth.tracked (auth.server s) = true ->
   auth.bound (auth.server s) = true /\ auth.inShutdown (auth.server s) = false
   /\ auth.lpc s = auth.LServing)
  /\ (auth.bound (auth.server s) = true -> auth.tracked (auth.server s) = false ->
      auth.lpc s = auth.LTrack)
  /\ (auth.lpc s = auth.LTrack -> auth.bound (auth.server s) = true)
  /\ (auth.pc s = auth.PcGo -> auth.lpc s = auth.LNotStarted)
  /\ match auth.pc s with
     | auth.PcExchange _ | auth.PcReturned _ => auth.inShutdown (auth.server s) = true
     | _ => True
     end
  /\ listening (auth.log s) = auth.bound (auth.server s).

(** Under [context.Background()] the wait ends through a channel only, and
    a channel is filled by a handler, which the registered listener serves,
    or by the listener goroutine on its way out: once something is in a
    channel, or the calling goroutine is past the [select], the listener
    goroutine is in its accept loop or has returned. *)
Definition backgroundInv (s : auth.State) : Prop :=
  auth.ctx s = auth.Background
  /\ match auth.pc s, auth.codeChan s, auth.errChan s with
     | (auth.PcGo | auth.PcPrompt | auth.PcSelect), None, None => True
     | _, _, _ => auth.lpc s = auth.LServing \/ auth.lpc s = auth.LExited
     end.

(** The states [requestTokenFromWeb] can be in, under any schedule. *)
Definition reachable (env : Env) (config : Config) (ctx : auth.Context) (s : auth.State) : Prop :=
  exists sched, s = auth.execAll env config sched (auth.init ctx).

(** The text is a decimal integer as [strconv.Atoi] reads one: an optional
    sign, then a non-empty run of decimal digits, with a value between the
    smallest and the largest [int]. *)
Definition isIntLiteral (s : string) : Prop :=
  exists digits : string,
    isRun isDigit digits
    /\ (((s = digits \/ s = String "+" digits) /\ specRowNumber digits <= intMax)
        \/ (s = String "-" digits /\ specRowNumber digits <= - intMin)).

(** A two-character channel that the base-16 parse of [ParseColor] accepts:
    two hexadecimal digits, or a sign and one hexadecimal digit. *)
Definition acceptedChannel (c1 c2 : ascii) : bool :=
  (isHexDigit c1 || isSign c1) && isHexDigit c2.

(** The value of an accepted channel: a sign and a digit, or a byte. *)
Definition channelValue (c1 c2 : ascii) : Z :=
  if Ascii.eqb c1 "+" then hexValue c2
  else if Ascii.eqb c1 "-" then - hexValue c2
  else specChannelByte c1 c2.

Definition isHash (c : ascii) : bool := Ascii.eqb c "#".

Definition notMinus (c : ascii) : bool := negb (Ascii.eqb c "-").

(** The three channels of a colour lie between 0 and 1. *)
Definition colorInUnitInterval (color : helpers.Color) : bool :=
  inUnitInterval (helpers.Red color) && inUnitInterval (helpers.Green color)
  && inUnitInterval (helpers.Blue color).

(** The upper-case form of a character. *)
Definition upperChar (c : ascii) : ascii :=
  if (97 <=? byte c) && (byte c <=? 122) then ascii_of_N (Z.to_N (byte c - 32)) else c.

Fixpoint upperString (s : string) : string :=
  match s with
  | EmptyString => EmptyString
  | String c rest => String (upperChar c) (upperString rest)
  end.

(** The action is a redirect of the browser to the callback URL. *)
Definition isCallback (a : Action) : bool :=
  match a with
  | Callback _ => true
  | _ => false
  end.

(** The authorization codes the browser delivers in the course of a
    schedule: the non-empty [code] parameters of its callbacks. *)
Definition callbackCodes (sched : list Action) : list string :=
  omap (fun a => match a with
                 | Callback code => if String.eqb code "" then None else Some code
                 | _ => None
                 end) sched.

(** While nothing has reached the channels, the calling goroutine of the
    authorization flow is at or before its [select]. *)
Definition waitingInv (s : auth.State) : Prop :=
  auth.codeChan s = None /\ auth.errChan s = None /\ auth.ctx s = auth.Background
  /\ (auth.pc s = auth.PcGo \/ auth.pc s = auth.PcPrompt \/ auth.pc s = auth.PcSelect).

(** Where an authorization code can be in the flow, and what has gone over
    the network: a code in the channel or in the hands of the calling
    goroutine is one of [codes], nothing is requested before the exchange,
    and a returned token is the answer to the one request made, for one of
    [codes]. *)
Definition provenanceInv (env : Env) (codes : list string) (s : auth.State) : Prop :=
  (forall code, auth.codeChan s = Some code -> code ∈ codes)
  /\ match auth.pc s with
     | auth.PcShutdown (auth.ThenExchange code) | auth.PcExchange code =>
         code ∈ codes /\ netCalls (auth.log s) = []
     | auth.PcReturned (Ok token) =>
         exists code, code ∈ codes /\ Exchange env code = Ok token
                      /\ netCalls (auth.log s) = [TokenExchange code]
     | auth.PcReturned (Err _) => True
     | _ => netCalls (auth.log s) = []
     end.

(** With the callback port taken, under [context.Background()]: nothing is
    ever bound or delivered, and the only error on its way is that of the
    listener. *)
Definition portTakenInv (e : string) (s : auth.State) : Prop :=
  auth.bound (auth.server s) = false
  /\ auth.tracked (auth.server s) = false
  /\ auth.lpc s <> auth.LTrack
  /\ auth.codeChan s = None
  /\ auth.ctx s = auth.Background
  /\ (auth.errChan s = None \/ auth.errChan s = Some ("failed to start server: " +:+ e))
  /\ listening (auth.log s) = false
  /\ match auth.pc s with
     | auth.PcGo | auth.PcPrompt | auth.PcSelect => True
     | auth.PcShutdown (auth.ThenReturn msg) | auth.PcReturned (Err msg) =>
         msg = "failed to start server: " +:+ e
     | _ => False
     end.

(** The titles of the sheets of a spreadsheet. *)
Definition titles (sheets : list (string * Z)) : list string := map fst sheets.

(** ** A sample environment

    The answers of the collaborators on the inputs of the examples below: a
    user with home directory [/home/user], a spreadsheet with one sheet, and
    the standard decoders on a handful of texts. *)

Module sample.

Definition envWith (listenErr : option string) (sched : list Action) : Env :=
  {| UserHomeDir := Ok "/home/user";
     ConfigFromJSON := fun text =>
       if String.eqb text "" then Err "unexpected end of JSON input" else Ok text;
     AuthCodeURL := fun config => "https://accounts.google.com/o/oauth2/auth?state=state-token";
     decodeToken := fun text => if String.eqb text "" then Err "EOF" else Ok text;
     encodeToken := fun token => token;
     writable := fun path => Ok tt;
     listenError := listenErr;
     schedule := sched;
     Exchange := fun code => Ok ("token-for-" +:+ code);
     NewService := Ok tt;
     spreadsheetsGet := fun spreadsheetID => Ok [("Sheet1", 0)];
     valuesUpdate := fun spreadsheetID range values option => Ok tt;
     batchUpdate := fun spreadsheetID requests => Ok tt;
     jsonUnmarshal := fun text =>
       if String.eqb text "[]" then Ok []
       else if String.eqb text "null" then Ok []
       else if String.eqb text "[[1]]" then Ok [[VNumber 1%float]]
       else Err "invalid character 'o' in literal null (expecting 'u')";
     csvReadAll := fun content =>
       if String.eqb content ("a,b" +:+ nl +:+ "c,d" +:+ nl)
       then Ok [["a"; "b"]; ["c"; "d"]]
       else Err "record on line 1: wrong number of fields" |}.

(** The callback port is free. *)
Definition env (sched : list Action) : Env := envWith None sched.

(** The callback port is taken by another process. *)
Definition envPortTaken (sched : list Action) : Env :=
  envWith (Some "listen tcp :8080: bind: address already in use") sched.


(** A spreadsheet with four sheets, two of them with the same title. *)
Definition envFourSheets (sched : list Action) : Env :=
  let e := env sched in
  mkEnv (UserHomeDir e) (ConfigFromJSON e) (AuthCodeURL e) (decodeToken e) (encodeToken e)
    (writable e) (listenError e) (schedule e) (Exchange e) (NewService e)
    (fun spreadsheetID => Ok [("Summary", 0); ("Data", 7); ("Notes", 3); ("Data", 9)])
    (valuesUpdate e) (batchUpdate e) (jsonUnmarshal e) (csvReadAll e).

(** A usage text of the shape cobra prints for [add-data]. *)
Definition usage : string :=
  "Usage:" +:+ nl
  +:+ "  spreadsheet-manager add-data <spreadsheet-id> <sheet-name> <range> <values-json> [flags]"
  +:+ nl +:+ nl
  +:+ "Flags:" +:+ nl
  +:+ "      --formula   Enable formula mode (USER_ENTERED) (default true)" +:+ nl
  +:+ "  -h, --help      help for add-data" +:+ nl.

(** A machine on which nobody has logged in yet. *)
Definition freshWorld : World := {| files := ∅; events := [] |}.

(** A machine with the credentials, and no token yet. *)
Definition credentialsWorld : World :=
  {| files := {[ "/home/user/.gdrive/credentials.json" := "{}" ]}; events := [] |}.

(** A machine with the credentials, the token of an earlier login, and a
    CSV file of two rows. *)
Definition loggedInWorld : World :=
  {| files := <[ "/home/user/.gdrive/credentials.json" := "{}" ]>
              (<[ "/home/user/.gdrive/token.json" := "stored-token" ]>
              {[ "data.csv" := "a,b" +:+ nl +:+ "c,d" +:+ nl ]});
     events := [] |}.

(** The three ways through the wait of the authorization flow; the
    listener goroutine takes three steps to serve (test, listen,
    register), and two to fail. *)
Definition codeReceived : list Action :=
  [Main; Listener; Listener; Listener; Main; Callback "4/abc"; SelectCode; Main; Main].
Definition callbackWithoutCode : list Action :=
  [Main; Listener; Listener; Listener; Main; Callback ""; SelectErr; Main].
Definition cancelled : list Action :=
  [Main; Listener; Listener; Listener; Main; Cancel; SelectDone; Main].
Definition listenerFailed : list Action :=
  [Main; Listener; Listener; Main; SelectErr; Main].


End sample.

(** ** Bytes, machine integers and strings *)

Lemma byte_range (c : ascii) : 0 <= byte c < 256.
Proof.
  unfold byte. pose proof (N_ascii_bounded c). lia.
Qed.

Lemma intWrap_small (z : Z) : intMin <= z <= intMax -> intWrap z = z.
Proof.
  unfold intWrap, intMin, intMax. intros Hz. rewrite Z.mod_small; lia.
Qed.

Lemma isUpper_digit (c : ascii) :
  isUpper c = true -> byteWrap (byte c - 65 + 1) = byte c - 64 /\ 1 <= byte c - 64 <= 26.
Proof.
  unfold isUpper, byteWrap. intros H. apply andb_true_iff in H as [H1 H2].
  apply Z.leb_le in H1, H2. rewrite Z.mod_small; lia.
Qed.

Lemma app_Empty (t : string) : "" +:+ t = t.
Proof. reflexivity. Qed.

Lemma app_String (c : ascii) (s t : string) : String c s +:+ t = String c (s +:+ t).
Proof. reflexivity. Qed.

Lemma append_nil_r (s : string) : s +:+ "" = s.
Proof. induction s as [|c s IH]; [reflexivity | rewrite app_String; now f_equal]. Qed.

Lemma append_assoc (a b c : string) : (a +:+ b) +:+ c = a +:+ (b +:+ c).
Proof.
  induction a as [|x a IH]; [reflexivity | rewrite !app_String; now f_equal].
Qed.

Lemma length_append (a b : string) :
  String.length (a +:+ b) = (String.length a + String.length b)%nat.
Proof.
  induction a as [|x a IH]; [reflexivity |].
  rewrite app_String. cbn [String.length]. now rewrite IH.
Qed.

Lemma allChars_append (p : ascii -> bool) (a b : string) :
  allChars p (a +:+ b) = allChars p a && allChars p b.
Proof.
  induction a as [|x a IH]; [reflexivity |].
  rewrite app_String. cbn [allChars]. rewrite IH. now rewrite andb_assoc.
Qed.

(** A non-empty string ends with a character. *)
Lemma string_snoc_inv (s : string) :
  s <> "" -> exists s' c, s = s' +:+ String c "".
Proof.
  induction s as [|x s IH]; intros Hne; [congruence |].
  destruct s as [|y s].
  - exists "", x. reflexivity.
  - destruct IH as (s' & c & Hs); [congruence |].
    exists (String x s'), c. rewrite app_String. now rewrite Hs.
Qed.

(** ** The column loop *)

Lemma specColumnNumber_nonneg (letters : string) :
  allChars isUpper letters = true -> 0 <= specColumnNumber letters.
Proof.
  induction letters as [|c s IH]; cbn [specColumnNumber allChars]; intros H; [lia |].
  apply andb_true_iff in H as [Hc Hs]. specialize (IH Hs).
  destruct (isUpper_digit c Hc) as [_ Hd].
  assert (0 < 26 ^ Z.of_nat (String.length s)) by (apply Z.pow_pos_nonneg; lia).
  nia.
Qed.

Lemma pow_length_cons (b : Z) (c : ascii) (s : string) :
  b ^ Z.of_nat (String.length (String c s)) = b * b ^ Z.of_nat (String.length s).
Proof.
  cbn [String.length]. rewrite Nat2Z.inj_succ, Z.pow_succ_r by lia. reflexivity.
Qed.

(** The loop reads exactly the leading letters and, as long as the column
    fits in an [int], computes their base-26 value. *)
Lemma scanColumn_letters (letters rest : string) (col : Z) :
  allChars isUpper letters = true ->
  startsWith isUpper rest = false ->
  0 <= col ->
  col * 26 ^ Z.of_nat (String.length letters) + specColumnNumber letters <= intMax ->
  helpers.scanColumn (letters +:+ rest) col
  = (col * 26 ^ Z.of_nat (String.length letters) + specColumnNumber letters, rest).
Proof.
  revert col. induction letters as [|c s IH]; intros col Hup Hrest Hcol Hmax.
  - rewrite app_Empty. cbn [String.length specColumnNumber].
    rewrite Z.pow_0_r, Z.mul_1_r, Z.add_0_r.
    destruct rest as [|r rest]; cbn [helpers.scanColumn]; [reflexivity |].
    cbn [startsWith] in Hrest. unfold isUpper in Hrest. now rewrite Hrest.
  - cbn [allChars] in Hup. apply andb_true_iff in Hup as [Hc Hs].
    destruct (isUpper_digit c Hc) as [Hb Hd].
    pose proof (specColumnNumber_nonneg s Hs) as Hnn.
    assert (Hp : 0 < 26 ^ Z.of_nat (String.length s)) by (apply Z.pow_pos_nonneg; lia).
    rewrite pow_length_cons in Hmax |- *. cbn [specColumnNumber] in Hmax |- *.
    rewrite app_String. cbn [helpers.scanColumn].
    unfold isUpper in Hc. rewrite Hc, Hb.
    rewrite intWrap_small by (unfold intMin, intMax in *; nia).
    rewrite IH; [f_equal; ring | assumption | assumption | lia | nia].
Qed.

(** Whatever the column value, the loop stops at the first character that is
    not an upper-case letter. *)
Lemma scanColumn_rest (letters rest : string) (col : Z) :
  allChars isUpper letters = true ->
  startsWith isUpper rest = false ->
  helpers.scanColumn (letters +:+ rest) col = (fst (helpers.scanColumn letters col), rest).
Proof.
  revert col. induction letters as [|c s IH]; intros col Hup Hrest.
  - rewrite app_Empty. cbn [helpers.scanColumn fst].
    destruct rest as [|r rest]; cbn [helpers.scanColumn]; [reflexivity |].
    cbn [startsWith] in Hrest. unfold isUpper in Hrest. now rewrite Hrest.
  - cbn [allChars] in Hup. apply andb_true_iff in Hup as [Hc Hs].
    rewrite app_String. cbn [helpers.scanColumn]. unfold isUpper in Hc. rewrite Hc.
    now apply IH.
Qed.

(** ** The decimal parse *)

Lemma isDigit_digitVal (c : ascii) :
  isDigit c = true -> strconv.digitVal c = Some (byte c - 48) /\ 0 <= byte c - 48 <= 9.
Proof.
  unfold isDigit, strconv.digitVal. intros H. cbv zeta. rewrite H.
  apply andb_true_iff in H as [H1 H2]. apply Z.leb_le in H1, H2. split; [reflexivity | lia].
Qed.

(** A character that is not a decimal digit is no digit in base 10. *)
Lemma not_isDigit_digitVal (c : ascii) :
  isDigit c = false ->
  match strconv.digitVal c with
  | Some d => d <? 10
  | None => false
  end = false.
Proof.
  unfold isDigit, strconv.digitVal. intros H. cbv zeta. rewrite H.
  destruct ((97 <=? strconv.lower (byte c)) && (strconv.lower (byte c) <=? 122)) eqn:E;
    [| reflexivity].
  apply andb_true_iff in E as [E1 E2]. apply Z.leb_le in E1, E2.
  apply Z.ltb_ge. lia.
Qed.

Lemma specRowNumber_nonneg (digits : string) :
  allChars isDigit digits = true -> 0 <= specRowNumber digits.
Proof.
  induction digits as [|c s IH]; cbn [specRowNumber allChars]; intros H; [lia |].
  apply andb_true_iff in H as [Hc Hs]. specialize (IH Hs).
  destruct (isDigit_digitVal c Hc) as [_ Hd].
  assert (0 < 10 ^ Z.of_nat (String.length s)) by (apply Z.pow_pos_nonneg; lia).
  nia.
Qed.

Lemma parseDigits_decimal (digits : string) (n : Z) :
  allChars isDigit digits = true ->
  strconv.parseDigits 10 digits n
  = Some (n * 10 ^ Z.of_nat (String.length digits) + specRowNumber digits).
Proof.
  revert n. induction digits as [|c s IH]; intros n H.
  - cbn [strconv.parseDigits String.length specRowNumber]. f_equal. rewrite Z.pow_0_r. lia.
  - cbn [allChars] in H. apply andb_true_iff in H as [Hc Hs].
    destruct (isDigit_digitVal c Hc) as [Hv Hd].
    cbn [strconv.parseDigits]. rewrite Hv.
    destruct (byte c - 48 <? 10) eqn:E; [| apply Z.ltb_ge in E; lia].
    rewrite IH by assumption. rewrite pow_length_cons. cbn [specRowNumber]. f_equal. ring.
Qed.

Lemma parseDigits_not_decimal (s : string) (n : Z) :
  allChars isDigit s = false -> strconv.parseDigits 10 s n = None.
Proof.
  revert n. induction s as [|c s IH]; intros n H; [discriminate |].
  cbn [allChars] in H. cbn [strconv.parseDigits].
  destruct (isDigit c) eqn:Ec.
  - destruct (isDigit_digitVal c Ec) as [Hv Hd]. rewrite Hv.
    destruct (byte c - 48 <? 10); [apply IH; exact H | reflexivity].
  - pose proof (not_isDigit_digitVal c Ec) as Hc.
    destruct (strconv.digitVal c) as [d|]; [rewrite Hc |]; reflexivity.
Qed.

(** A digit does not read as a sign. *)
Lemma isDigit_not_sign (c : ascii) :
  isDigit c = true -> Ascii.eqb c "+" = false /\ Ascii.eqb c "-" = false.
Proof.
  unfold isDigit. intros H. apply andb_true_iff in H as [H1 H2]. apply Z.leb_le in H1, H2.
  split; apply Ascii.eqb_neq; intros ->; cbv in H1; congruence.
Qed.

(** [Atoi] on a run of decimal digits: its base-10 value when that fits in
    an [int], an error otherwise. *)
Lemma Atoi_digits (digits : string) :
  isRun isDigit digits ->
  strconv.Atoi digits
  = if specRowNumber digits <=? intMax then Some (specRowNumber digits) else None.
Proof.
  intros [Hne Hall]. destruct digits as [|c s]; [congruence |].
  pose proof (specRowNumber_nonneg _ Hall) as Hnn.
  pose proof (parseDigits_decimal _ 0 Hall) as Hp. rewrite Z.mul_0_l, Z.add_0_l in Hp.
  assert (Hc : isDigit c = true) by (cbn [allChars] in Hall; now apply andb_true_iff in Hall).
  destruct (isDigit_not_sign c Hc) as [Hplus Hminus].
  unfold strconv.Atoi, strconv.ParseInt. rewrite Hplus, Hminus.
  unfold strconv.ParseUint. rewrite Hp. cbn [mbind option_bind].
  change (2 ^ 64) with 18446744073709551616. change (2 ^ (64 - 1)) with 9223372036854775808.
  unfold intMax in *.
  destruct (specRowNumber (String c s) <? 18446744073709551616) eqn:E1;
    cbn [mbind option_bind negb andb];
    [apply Z.ltb_lt in E1 | apply Z.ltb_ge in E1];
    destruct (specRowNumber (String c s) <=? 9223372036854775807) eqn:E3;
    try (apply Z.leb_le in E3); try (apply Z.leb_gt in E3);
    try (destruct (9223372036854775808 <=? specRowNumber (String c s)) eqn:E2;
         [apply Z.leb_le in E2 | apply Z.leb_gt in E2]);
    first [reflexivity | lia].
Qed.

(** [Atoi] rejects a text that does not begin with a sign and contains a
    character that is not a decimal digit. *)
Lemma Atoi_not_digits (c : ascii) (s : string) :
  Ascii.eqb c "+" = false -> Ascii.eqb c "-" = false ->
  allChars isDigit (String c s) = false ->
  strconv.Atoi (String c s) = None.
Proof.
  intros Hplus Hminus Hall.
  unfold strconv.Atoi, strconv.ParseInt. rewrite Hplus, Hminus.
  unfold strconv.ParseUint. now rewrite parseDigits_not_decimal.
Qed.

(** ** A1ToGrid *)

(** The bound behind "the column fits in an [int]": the value of [n]
    letters is below [26^(n+1) / 25]. *)
Lemma specColumnNumber_bound (letters : string) :
  allChars isUpper letters = true ->
  25 * specColumnNumber letters + 26 <= 26 ^ Z.of_nat (S (String.length letters)).
Proof.
  induction letters as [|c s IH]; intros H.
  - cbn [specColumnNumber String.length]. change (26 ^ Z.of_nat 1) with 26. lia.
  - cbn [allChars] in H. apply andb_true_iff in H as [Hc Hs]. specialize (IH Hs).
    destruct (isUpper_digit c Hc) as [_ Hd].
    cbn [specColumnNumber].
    assert (Hp : 0 < 26 ^ Z.of_nat (String.length s)) by (apply Z.pow_pos_nonneg; lia).
    replace (26 ^ Z.of_nat (S (String.length (String c s))))
      with (26 * 26 ^ Z.of_nat (S (String.length s)))
      by (cbn [String.length]; rewrite (Nat2Z.inj_succ (S _)), Z.pow_succ_r by lia; reflexivity).
    rewrite Nat2Z.inj_succ, Z.pow_succ_r in IH |- * by lia. nia.
Qed.

Lemma specColumnNumber_short (letters : string) :
  allChars isUpper letters = true -> (String.length letters <= 13)%nat ->
  specColumnNumber letters <= intMax.
Proof.
  intros H Hlen. pose proof (specColumnNumber_bound letters H) as Hb.
  assert (26 ^ Z.of_nat (S (String.length letters)) <= 26 ^ 14)
    by (apply Z.pow_le_mono_r; lia).
  change (26 ^ 14) with 64509974703297150976 in *. unfold intMax. lia.
Qed.

(** [A1ToGrid] on a run of letters followed by a run of digits, with the
    machine bounds made explicit. *)
Lemma A1ToGrid_letters_digits (letters digits : string) :
  isRun isUpper letters -> isRun isDigit digits ->
  specColumnNumber letters <= intMax ->
  helpers.A1ToGrid (letters +:+ digits)
  = if specRowNumber digits <=? intMax
    then Ok (specColumnNumber letters - 1, specRowNumber digits - 1)
    else Err ("invalid cell reference: " +:+ letters +:+ digits).
Proof.
  intros [Hlne Hl] [Hdne Hd] Hcol.
  pose proof (specColumnNumber_nonneg _ Hl) as Hcnn.
  pose proof (specRowNumber_nonneg _ Hd) as Hrnn.
  unfold helpers.A1ToGrid.
  rewrite (scanColumn_letters letters digits 0); [| assumption | | lia | lia].
  2:{ destruct digits as [|d ds]; [reflexivity |].
      cbn [allChars] in Hd. cbn [startsWith]. apply andb_true_iff in Hd as [Hd _].
      unfold isDigit in Hd. unfold isUpper.
      apply andb_true_iff in Hd as [H1 H2]. apply Z.leb_le in H1, H2.
      apply andb_false_iff. left. apply Z.leb_gt. lia. }
  rewrite Z.mul_0_l, Z.add_0_l.
  destruct digits as [|d ds]; [congruence |].
  rewrite Atoi_digits by (split; assumption).
  change ((0 <? String.length (String d ds))%nat) with true. cbv iota.
  destruct (specRowNumber (String d ds) <=? intMax) eqn:E; [| reflexivity].
  apply Z.leb_le in E. cbn [mbind result_bind].
  rewrite !intWrap_small by (unfold intMin, intMax in *; lia). reflexivity.
Qed.

(** [A1ToGrid] on letters alone: the column, and row -1. *)
Lemma A1ToGrid_letters (letters : string) :
  allChars isUpper letters = true ->
  specColumnNumber letters <= intMax ->
  helpers.A1ToGrid letters = Ok (specColumnNumber letters - 1, -1).
Proof.
  intros Hl Hcol. pose proof (specColumnNumber_nonneg _ Hl) as Hcnn.
  unfold helpers.A1ToGrid. rewrite <- (append_nil_r letters) at 1.
  rewrite (scanColumn_letters letters "" 0); [| assumption | reflexivity | lia | lia].
  rewrite Z.mul_0_l, Z.add_0_l. cbn [String.length Nat.ltb Nat.leb mbind result_bind].
  rewrite !intWrap_small by (unfold intMin, intMax in *; lia). reflexivity.
Qed.

(** [intWrap] only depends on the value modulo [2^64]. *)
Lemma intWrap_absorb (a k d : Z) : intWrap (intWrap a * k + d) = intWrap (a * k + d).
Proof.
  unfold intWrap. f_equal.
  pose proof (Z.div_mod (a + 9223372036854775808) 18446744073709551616 ltac:(lia)) as Hdiv.
  replace (((a + 9223372036854775808) mod 18446744073709551616 - 9223372036854775808) * k + d
           + 9223372036854775808)
    with (a * k + d + 9223372036854775808
          + (- ((a + 9223372036854775808) / 18446744073709551616) * k) * 18446744073709551616)
    by lia.
  apply Z.mod_add. lia.
Qed.

Lemma intWrap_idem (z : Z) : intWrap (intWrap z) = intWrap z.
Proof.
  pose proof (intWrap_absorb z 1 0) as H. now rewrite !Z.mul_1_r, !Z.add_0_r in H.
Qed.

(** Without a bound on the letters, the loop computes their base-26 value
    modulo [2^64]. *)
Lemma scanColumn_letters_wrap (letters rest : string) (col : Z) :
  allChars isUpper letters = true ->
  startsWith isUpper rest = false ->
  helpers.scanColumn (letters +:+ rest) (intWrap col)
  = (intWrap (col * 26 ^ Z.of_nat (String.length letters) + specColumnNumber letters), rest).
Proof.
  revert col. induction letters as [|c s IH]; intros col Hup Hrest.
  - rewrite app_Empty. cbn [String.length specColumnNumber].
    rewrite Z.pow_0_r, Z.mul_1_r, Z.add_0_r.
    destruct rest as [|r rest]; cbn [helpers.scanColumn]; [reflexivity |].
    cbn [startsWith] in Hrest. unfold isUpper in Hrest. now rewrite Hrest.
  - cbn [allChars] in Hup. apply andb_true_iff in Hup as [Hc Hs].
    destruct (isUpper_digit c Hc) as [Hb Hd].
    rewrite app_String. cbn [helpers.scanColumn].
    unfold isUpper in Hc. rewrite Hc, Hb.
    rewrite intWrap_absorb, IH by assumption.
    rewrite pow_length_cons. cbn [specColumnNumber]. do 2 f_equal. ring.
Qed.

(** [A1ToGrid] on every text that matches [[A-Z]+[0-9]+]: an error when the
    row number exceeds the largest [int], and otherwise the row number minus
    1 with the column number minus 1 modulo [2^64]. *)
Lemma A1ToGrid_letters_digits_wrap (letters digits : string) :
  isRun isUpper letters -> isRun isDigit digits ->
  helpers.A1ToGrid (letters +:+ digits)
  = if specRowNumber digits <=? intMax
    then Ok (intWrap (specColumnNumber letters - 1), specRowNumber digits - 1)
    else Err ("invalid cell reference: " +:+ letters +:+ digits).
Proof.
  intros [Hlne Hl] [Hdne Hd].
  pose proof (specRowNumber_nonneg _ Hd) as Hrnn.
  unfold helpers.A1ToGrid.
  change 0 with (intWrap 0) at 1.
  rewrite (scanColumn_letters_wrap letters digits 0); [| assumption |].
  2:{ destruct digits as [|d ds]; [reflexivity |].
      cbn [allChars] in Hd. cbn [startsWith].
      apply andb_true_iff in Hd as [Hd _].
      unfold isDigit in Hd. unfold isUpper.
      apply andb_true_iff in Hd as [H1 H2]. apply Z.leb_le in H1, H2.
      apply andb_false_iff. left. apply Z.leb_gt. lia. }
  rewrite Z.mul_0_l, Z.add_0_l.
  destruct digits as [|d ds]; [congruence |].
  rewrite Atoi_digits by (split; assumption).
  change ((0 <? String.length (String d ds))%nat) with true. cbv iota.
  destruct (specRowNumber (String d ds) <=? intMax) eqn:E; [| reflexivity].
  apply Z.leb_le in E. cbn [mbind result_bind].
  pose proof (intWrap_absorb (specColumnNumber letters) 1 (-1)) as Hw.
  rewrite !Z.mul_1_r in Hw. change (?x + -1) with (x - 1) in Hw. rewrite Hw.
  rewrite (intWrap_small (specRowNumber (String d ds) - 1))
    by (unfold intMin, intMax in *; lia).
  reflexivity.
Qed.

(** C1 (as amended): for every text made of a run of upper-case letters
    followed by a run of decimal digits, whose base-26 column number and
    base-10 row number both fit in a 64-bit [int], [A1ToGrid] succeeds and
    returns the column number minus 1 and the row number minus 1; in
    particular "B5" gives (1,4), "A1" gives (0,0) and "AA10" gives (26,9). *)
Theorem A1ToGrid_matching :
  (forall letters digits : string,
      isRun isUpper letters -> isRun isDigit digits ->
      specColumnNumber letters <= intMax -> specRowNumber digits <= intMax ->
      helpers.A1ToGrid (letters +:+ digits)
      = Ok (specColumnNumber letters - 1, specRowNumber digits - 1))
  /\ helpers.A1ToGrid "B5" = Ok (1, 4)
  /\ helpers.A1ToGrid "A1" = Ok (0, 0)
  /\ helpers.A1ToGrid "AA10" = Ok (26, 9).
Proof.
  split; [| repeat split; reflexivity].
  intros letters digits Hl Hd Hcol Hrow.
  rewrite A1ToGrid_letters_digits by assumption.
  apply Z.leb_le in Hrow. now rewrite Hrow.
Qed.

Lemma A1ToGrid_matching_witness :
  helpers.A1ToGrid ("AA" +:+ "10") = Ok (specColumnNumber "AA" - 1, specRowNumber "10" - 1).
Proof.
  apply (proj1 A1ToGrid_matching "AA" "10").
  - split; [discriminate | reflexivity].
  - split; [discriminate | reflexivity].
  - vm_compute. discriminate.
  - vm_compute. discriminate.
Defined.

(** C1 as stated fails on the machine bounds: a row number above the largest
    [int] is rejected, and a column number above it wraps around. *)
Lemma A1ToGrid_matching_overflow :
  (matchesCell "A9223372036854775808"
   /\ helpers.A1ToGrid "A9223372036854775808"
      = Err "invalid cell reference: A9223372036854775808")
  /\ (matchesCell "ZZZZZZZZZZZZZZ1"
      /\ helpers.A1ToGrid "ZZZZZZZZZZZZZZ1" = Ok (-6696602603409169451, 0)
      /\ specColumnNumber "ZZZZZZZZZZZZZZ" - 1 = 67090373691429037013).
Proof.
  split; [split | split; [| split]].
  - exists "A", "9223372036854775808". repeat split; (discriminate || reflexivity).
  - vm_compute. reflexivity.
  - exists "ZZZZZZZZZZZZZZ", "1". repeat split; (discriminate || reflexivity).
  - vm_compute. reflexivity.
  - vm_compute. reflexivity.
Qed.

(** [A1ToGrid] returns an error exactly when something follows the leading
    letters and [Atoi] rejects it. *)
Lemma A1ToGrid_err_iff (letters rest : string) :
  allChars isUpper letters = true -> startsWith isUpper rest = false ->
  is_err (helpers.A1ToGrid (letters +:+ rest)) = true
  <-> rest <> "" /\ strconv.Atoi rest = None.
Proof.
  intros Hl Hrest. unfold helpers.A1ToGrid.
  rewrite (scanColumn_rest letters rest 0) by assumption.
  destruct rest as [|c s].
  - cbn [String.length Nat.ltb Nat.leb mbind result_bind is_err].
    split; [discriminate | intros [H _]; congruence].
  - change ((0 <? String.length (String c s))%nat) with true. cbv iota.
    destruct (strconv.Atoi (String c s)) as [n|]; cbn [mbind result_bind is_err].
    + split; [discriminate | intros [_ H]; discriminate].
    + split; [intros _; split; [discriminate | reflexivity] | reflexivity].
Qed.

Lemma not_matchesCell_empty : ~ matchesCell "".
Proof.
  intros (letters & digits & Heq & [Hne _] & _).
  destruct letters; [congruence | discriminate].
Qed.

(** C2 (as amended): with [rest] the text that follows the leading run of
    upper-case letters of the input, [A1ToGrid] returns no error when [rest]
    is empty (the empty text and a text of letters only are accepted), and
    returns the error "invalid cell reference: <input>" when [rest] is not
    empty, does not begin with a sign and has a character that is not a
    decimal digit; in particular "5B" fails. *)
Theorem A1ToGrid_rejects :
  (forall letters rest : string,
      allChars isUpper letters = true -> startsWith isUpper rest = false ->
      (rest = "" -> is_err (helpers.A1ToGrid (letters +:+ rest)) = false)
      /\ (rest <> "" -> startsWith isSign rest = false -> allChars isDigit rest = false ->
          helpers.A1ToGrid (letters +:+ rest)
          = Err ("invalid cell reference: " +:+ letters +:+ rest)))
  /\ helpers.A1ToGrid "5B" = Err "invalid cell reference: 5B".
Proof.
  split; [| reflexivity].
  intros letters rest Hl Hrest. split.
  - intros ->. destruct (is_err (helpers.A1ToGrid (letters +:+ ""))) eqn:E; [| reflexivity].
    apply A1ToGrid_err_iff in E as [E _]; [congruence | assumption | reflexivity].
  - intros Hne Hsign Hdig. unfold helpers.A1ToGrid.
    rewrite (scanColumn_rest letters rest 0) by assumption.
    destruct rest as [|c s]; [congruence |].
    cbn [startsWith] in Hsign. unfold isSign in Hsign.
    apply orb_false_iff in Hsign as [Hplus Hminus].
    rewrite (Atoi_not_digits c s Hplus Hminus Hdig).
    reflexivity.
Qed.

Lemma A1ToGrid_rejects_witness :
  is_err (helpers.A1ToGrid ("AB" +:+ "")) = false
  /\ helpers.A1ToGrid ("A" +:+ "1x") = Err ("invalid cell reference: " +:+ "A" +:+ "1x").
Proof.
  split.
  - apply (proj1 A1ToGrid_rejects "AB" ""); reflexivity.
  - apply (proj1 A1ToGrid_rejects "A" "1x"); (reflexivity || discriminate).
Defined.

(** C2 as stated fails: the empty text does not match the pattern and is
    accepted, as are a text of letters only and a text of digits only. *)
Lemma A1ToGrid_accepts_empty :
  ~ matchesCell "" /\ helpers.A1ToGrid "" = Ok (-1, -1).
Proof.
  split; [exact not_matchesCell_empty | reflexivity].
Qed.

Example A1ToGrid_accepts_letters : helpers.A1ToGrid "A" = Ok (0, -1).
Proof. reflexivity. Qed.

Example A1ToGrid_accepts_digits : helpers.A1ToGrid "5" = Ok (-1, 4).
Proof. reflexivity. Qed.

Example A1ToGrid_accepts_sign : helpers.A1ToGrid "A-5" = Ok (0, -6).
Proof. reflexivity. Qed.

(** ** The inverse column encoding *)

Lemma specColumnNumber_snoc (s : string) (c : ascii) :
  specColumnNumber (s +:+ String c "") = specColumnNumber s * 26 + (byte c - 64).
Proof.
  induction s as [|x s IH].
  - rewrite app_Empty. cbn [specColumnNumber String.length]. rewrite Z.pow_0_r. lia.
  - rewrite app_String. cbn [specColumnNumber]. rewrite IH.
    rewrite length_append. cbn [String.length]. rewrite Nat.add_1_r.
    rewrite Nat2Z.inj_succ, Z.pow_succ_r by lia. ring.
Qed.

Lemma columnLettersFrom_zero (fuel : nat) : columnLettersFrom fuel 0 = "".
Proof. destruct fuel; reflexivity. Qed.

(** Encoding the column number of a run of letters gives the letters back,
    whenever the fuel covers their number. *)
Lemma columnLettersFrom_spec (fuel : nat) (letters : string) :
  allChars isUpper letters = true -> (String.length letters <= fuel)%nat ->
  columnLettersFrom fuel (specColumnNumber letters) = letters.
Proof.
  revert letters. induction fuel as [|fuel IH]; intros letters Hl Hlen.
  - destruct letters; [reflexivity | cbn [String.length] in Hlen; lia].
  - destruct letters as [|x xs]; [reflexivity |].
    destruct (string_snoc_inv (String x xs)) as (s & c & Hs); [discriminate |].
    rewrite Hs in *. clear Hs x xs.
    rewrite allChars_append in Hl. apply andb_true_iff in Hl as [Hs Hc].
    cbn [allChars] in Hc. rewrite andb_true_r in Hc.
    destruct (isUpper_digit c Hc) as [_ Hd].
    pose proof (specColumnNumber_nonneg s Hs) as Hnn.
    rewrite length_append in Hlen. cbn [String.length] in Hlen.
    rewrite specColumnNumber_snoc. cbn [columnLettersFrom].
    destruct (specColumnNumber s * 26 + (byte c - 64) <=? 0) eqn:E;
      [apply Z.leb_le in E; lia |].
    replace (specColumnNumber s * 26 + (byte c - 64) - 1)
      with (byte c - 65 + specColumnNumber s * 26) by ring.
    rewrite Z.div_add, Z.mod_add by lia.
    rewrite Z.div_small, Z.mod_small, Z.add_0_l by lia.
    rewrite IH by (assumption || lia).
    replace (65 + (byte c - 65)) with (byte c) by ring.
    unfold byte. rewrite N2Z.id, ascii_N_embedding. reflexivity.
Qed.

Lemma specColumnNumber_length (letters : string) :
  allChars isUpper letters = true -> Z.of_nat (String.length letters) <= specColumnNumber letters.
Proof.
  induction letters as [|c s IH]; intros H; [cbn; lia |].
  cbn [allChars] in H. apply andb_true_iff in H as [Hc Hs]. specialize (IH Hs).
  destruct (isUpper_digit c Hc) as [_ Hd].
  assert (0 < 26 ^ Z.of_nat (String.length s)) by (apply Z.pow_pos_nonneg; lia).
  cbn [specColumnNumber String.length]. nia.
Qed.

Lemma GridToColumn_spec (letters : string) :
  allChars isUpper letters = true ->
  GridToColumn (specColumnNumber letters - 1) = letters.
Proof.
  intros Hl. unfold GridToColumn.
  replace (specColumnNumber letters - 1 + 1) with (specColumnNumber letters) by ring.
  apply columnLettersFrom_spec; [assumption |].
  pose proof (specColumnNumber_length letters Hl). lia.
Qed.

(** C6: for every text of one to three upper-case letters, [A1ToGrid] decodes
    it to a zero-indexed column (with row -1, there being no row number) and
    the inverse column encoding of that column is the original text; in
    particular "A" gives 0 and back "A", "Z" gives 25 and back "Z", "AA" gives
    26 and back "AA". *)
Theorem column_roundtrip :
  (forall letters : string,
      allChars isUpper letters = true ->
      (1 <= String.length letters <= 3)%nat ->
      exists col : Z,
        helpers.A1ToGrid letters = Ok (col, -1) /\ GridToColumn col = letters)
  /\ (helpers.A1ToGrid "A" = Ok (0, -1) /\ GridToColumn 0 = "A")
  /\ (helpers.A1ToGrid "Z" = Ok (25, -1) /\ GridToColumn 25 = "Z")
  /\ (helpers.A1ToGrid "AA" = Ok (26, -1) /\ GridToColumn 26 = "AA").
Proof.
  split; [| repeat split; reflexivity].
  intros letters Hl Hlen. exists (specColumnNumber letters - 1). split.
  - apply A1ToGrid_letters; [assumption |].
    apply specColumnNumber_short; [assumption | lia].
  - now apply GridToColumn_spec.
Qed.

Lemma column_roundtrip_witness :
  exists col : Z, helpers.A1ToGrid "ZZZ" = Ok (col, -1) /\ GridToColumn col = "ZZZ".
Proof.
  apply (proj1 column_roundtrip "ZZZ"); [reflexivity |].
  cbn [String.length]. lia.
Defined.

(** ** ParseRange *)

Lemma Split_no_sep (s : string) :
  allChars notColon s = true -> strings.Split s ":" = [s].
Proof.
  induction s as [|c s IH]; intros H; [reflexivity |].
  cbn [allChars] in H. apply andb_true_iff in H as [Hc Hs].
  unfold notColon in Hc. apply negb_true_iff in Hc.
  cbn [strings.Split]. rewrite Hc, IH by assumption. reflexivity.
Qed.

Lemma Split_sep (a rest : string) :
  allChars notColon a = true ->
  strings.Split (a +:+ String ":" rest) ":" = a :: strings.Split rest ":".
Proof.
  induction a as [|c a IH]; intros H.
  - rewrite app_Empty. reflexivity.
  - cbn [allChars] in H. apply andb_true_iff in H as [Hc Ha].
    unfold notColon in Hc. apply negb_true_iff in Hc.
    rewrite app_String. cbn [strings.Split]. rewrite Hc, IH by assumption. reflexivity.
Qed.

(** The first field of a text is its part before the first colon. *)
Lemma Split_head (b tail : string) :
  allChars notColon b = true -> startsWith notColon tail = false ->
  exists fields, strings.Split (b +:+ tail) ":" = b :: fields.
Proof.
  intros Hb Htail. destruct tail as [|c tail].
  - rewrite append_nil_r, Split_no_sep by assumption. now exists [].
  - cbn [startsWith] in Htail. unfold notColon in Htail. apply negb_false_iff in Htail.
    apply Ascii.eqb_eq in Htail as ->.
    rewrite Split_sep by assumption. now eexists.
Qed.

(** [parts[0]] is always there: [ParseRange] never panics. *)
Lemma ParseRange_no_panic (rangeA1 : string) : is_Some (helpers.ParseRange rangeA1).
Proof.
  unfold helpers.ParseRange.
  destruct (strings.Split rangeA1 ":") as [|p0 [|p1 ps]] eqn:E.
  - destruct rangeA1 as [|c s]; [discriminate |].
    cbn [strings.Split] in E. destruct (Ascii.eqb c ":"); [discriminate |].
    destruct (strings.Split s ":"); discriminate.
  - cbn. destruct (helpers.A1ToGrid p0) as [[c r]|e]; eauto.
  - cbn. destruct (helpers.A1ToGrid p0) as [[c r]|e]; [| eauto].
    destruct (helpers.A1ToGrid p1) as [[c' r']|e]; eauto.
Qed.

(** C3: [ParseRange] on a text without ":" returns the single cell
    [A1ToGrid] reads, with end equal to start, or its error; on a text
    with a separator it reads the part before the first ":" and the part
    after it (up to a further ":", if any) with [A1ToGrid], returns the two
    cells, and returns the error of the first part that fails; in particular
    "A1:B10" gives start (0,0) and end (1,9), and "C3" gives start and end
    (2,2). *)
Theorem ParseRange_halves :
  (forall cell : string,
      allChars notColon cell = true ->
      helpers.ParseRange cell
      = Some match helpers.A1ToGrid cell with
             | Ok (col, row) => Ok (col, row, col, row)
             | Err e => Err e
             end)
  /\ (forall first second tail : string,
         allChars notColon first = true ->
         allChars notColon second = true ->
         startsWith notColon tail = false ->
         helpers.ParseRange (first +:+ ":" +:+ second +:+ tail)
         = Some match helpers.A1ToGrid first, helpers.A1ToGrid second with
                | Ok (startCol, startRow), Ok (endCol, endRow) =>
                    Ok (startCol, startRow, endCol, endRow)
                | Err e, _ => Err e
                | Ok _, Err e => Err e
                end)
  /\ helpers.ParseRange "A1:B10" = Some (Ok (0, 0, 1, 9))
  /\ helpers.ParseRange "C3" = Some (Ok (2, 2, 2, 2)).
Proof.
  split; [| split; [| split; reflexivity]].
  - intros cell Hc. unfold helpers.ParseRange. rewrite Split_no_sep by assumption.
    cbn. destruct (helpers.A1ToGrid cell) as [[col row]|e]; reflexivity.
  - intros first second tail Hf Hs Ht. unfold helpers.ParseRange.
    change (":" +:+ second +:+ tail) with (String ":" (second +:+ tail)).
    rewrite Split_sep by assumption.
    destruct (Split_head second tail Hs Ht) as [fields ->].
    cbn. destruct (helpers.A1ToGrid first) as [[c1 r1]|e]; [| reflexivity].
    destruct (helpers.A1ToGrid second) as [[c2 r2]|e]; reflexivity.
Qed.

Example ParseRange_second_half_fails :
  helpers.ParseRange "A1:5B" = Some (Err "invalid cell reference: 5B").
Proof. reflexivity. Qed.

Example ParseRange_reversed : helpers.ParseRange "B10:A1" = Some (Ok (1, 9, 0, 0)).
Proof. reflexivity. Qed.

Lemma ParseRange_halves_witness :
  helpers.ParseRange "B2"
  = Some match helpers.A1ToGrid "B2" with
         | Ok (col, row) => Ok (col, row, col, row)
         | Err e => Err e
         end
  /\ helpers.ParseRange ("A1" +:+ ":" +:+ "5B" +:+ "")
     = Some match helpers.A1ToGrid "A1", helpers.A1ToGrid "5B" with
            | Ok (startCol, startRow), Ok (endCol, endRow) =>
                Ok (startCol, startRow, endCol, endRow)
            | Err e, _ => Err e
            | Ok _, Err e => Err e
            end.
Proof.
  split.
  - apply (proj1 ParseRange_halves "B2"). reflexivity.
  - apply (proj1 (proj2 ParseRange_halves) "A1" "5B" ""); reflexivity.
Defined.

(** ** ParseColor *)

Lemma isHexDigit_digitVal (c : ascii) :
  isHexDigit c = true ->
  strconv.digitVal c = Some (hexValue c) /\ 0 <= hexValue c <= 15
  /\ Ascii.eqb c "+" = false /\ Ascii.eqb c "-" = false /\ Ascii.eqb c "#" = false.
Proof.
  destruct c as [[] [] [] [] [] [] [] []]; intros H; try discriminate H;
    repeat split; try reflexivity; cbv; discriminate.
Qed.

(** Two hexadecimal digits parse as the byte they denote. *)
Lemma ParseInt_hex_pair (c1 c2 : ascii) :
  isHexDigit c1 = true -> isHexDigit c2 = true ->
  strconv.ParseInt (String c1 (String c2 "")) 16 64 = Some (specChannelByte c1 c2)
  /\ 0 <= specChannelByte c1 c2 <= 255.
Proof.
  intros H1 H2.
  destruct (isHexDigit_digitVal c1 H1) as (Hv1 & Hr1 & Hp1 & Hm1 & _).
  destruct (isHexDigit_digitVal c2 H2) as (Hv2 & Hr2 & _).
  assert (Hb : 0 <= specChannelByte c1 c2 <= 255) by (unfold specChannelByte; lia).
  split; [| exact Hb].
  unfold strconv.ParseInt. rewrite Hp1, Hm1.
  unfold strconv.ParseUint. cbn [strconv.parseDigits]. rewrite Hv1, Hv2.
  destruct (hexValue c1 <? 16) eqn:E1; [| apply Z.ltb_ge in E1; lia].
  destruct (hexValue c2 <? 16) eqn:E2; [| apply Z.ltb_ge in E2; lia].
  cbn [mbind option_bind].
  replace ((0 * 16 + hexValue c1) * 16 + hexValue c2) with (specChannelByte c1 c2)
    by (unfold specChannelByte; ring).
  change (2 ^ 64) with 18446744073709551616. change (2 ^ (64 - 1)) with 9223372036854775808.
  destruct (specChannelByte c1 c2 <? 18446744073709551616) eqn:E3;
    [| apply Z.ltb_ge in E3; lia].
  cbn [negb andb mbind option_bind].
  destruct (9223372036854775808 <=? specChannelByte c1 c2) eqn:E4;
    [apply Z.leb_le in E4; lia | reflexivity].
Qed.

(** Every byte divided by 255 lies between 0 and 1. *)
Lemma channel_inUnitInterval (n : Z) :
  0 <= n <= 255 ->
  inUnitInterval (PrimFloat.div (helpers.float64 n) helpers.RGBMaxValue) = true.
Proof.
  intros Hn.
  assert (Hall : forallb (fun k => inUnitInterval
                            (PrimFloat.div (helpers.float64 (Z.of_nat k)) helpers.RGBMaxValue))
                   (seq 0 256) = true) by (vm_compute; reflexivity).
  rewrite forallb_forall in Hall.
  specialize (Hall (Z.to_nat n)). rewrite Z2Nat.id in Hall by lia.
  apply Hall. apply in_seq. lia.
Qed.

(** On six hexadecimal digits, with or without the leading "#", [ParseColor]
    returns the three channel bytes divided by 255, each between 0 and 1. *)
Lemma ParseColor_hex_digits (hash : bool) (r1 r2 g1 g2 b1 b2 : ascii) :
  forallb isHexDigit [r1; r2; g1; g2; b1; b2] = true ->
  let digits := String r1 (String r2 (String g1 (String g2 (String b1 (String b2 ""))))) in
  helpers.ParseColor (if hash then String "#" digits else digits)
  = Some {| helpers.Red := specChannel r1 r2;
            helpers.Green := specChannel g1 g2;
            helpers.Blue := specChannel b1 b2 |}
  /\ inUnitInterval (specChannel r1 r2) = true
  /\ inUnitInterval (specChannel g1 g2) = true
  /\ inUnitInterval (specChannel b1 b2) = true.
Proof.
  cbn [forallb]. intros H.
  repeat (apply andb_true_iff in H as [?Hc H]).
  destruct (ParseInt_hex_pair r1 r2) as [Hr Hrb]; [assumption .. |].
  destruct (ParseInt_hex_pair g1 g2) as [Hg Hgb]; [assumption .. |].
  destruct (ParseInt_hex_pair b1 b2) as [Hb Hbb]; [assumption .. |].
  cbv zeta. split.
  - unfold helpers.ParseColor.
    assert (Htrim : strings.TrimPrefix
                      (if hash
                       then String "#" (String r1 (String r2 (String g1 (String g2
                              (String b1 (String b2 ""))))))
                       else String r1 (String r2 (String g1 (String g2
                              (String b1 (String b2 ""))))))
                      "#"
                    = String r1 (String r2 (String g1 (String g2 (String b1 (String b2 "")))))).
    { destruct hash; unfold strings.TrimPrefix; cbn [String.prefix].
      - destruct (ascii_dec "#" "#"); [reflexivity | congruence].
      - destruct (isHexDigit_digitVal r1 Hc) as (_ & _ & _ & _ & Hh).
        destruct (ascii_dec "#" r1) as [<-|]; [discriminate Hh | reflexivity]. }
    rewrite Htrim.
    change (slice (String r1 (String r2 (String g1 (String g2 (String b1 (String b2 "")))))) 0 2)
      with (String r1 (String r2 "")).
    change (slice (String r1 (String r2 (String g1 (String g2 (String b1 (String b2 "")))))) 2 4)
      with (String g1 (String g2 "")).
    change (slice (String r1 (String r2 (String g1 (String g2 (String b1 (String b2 "")))))) 4 6)
      with (String b1 (String b2 "")).
    rewrite Hr, Hg, Hb. reflexivity.
  - unfold specChannel. repeat split; now apply channel_inUnitInterval.
Qed.

(** Any other length than six, once the leading "#" is removed, is
    rejected. *)
Lemma ParseColor_wrong_length (hexColor : string) :
  String.length (strings.TrimPrefix hexColor "#") <> 6%nat ->
  helpers.ParseColor hexColor = None.
Proof.
  intros H. unfold helpers.ParseColor, helpers.HexColorLength.
  destruct (String.length (strings.TrimPrefix hexColor "#") =? 6)%nat eqn:E;
    [apply Nat.eqb_eq in E; congruence | reflexivity].
Qed.

Example ParseColor_red :
  helpers.ParseColor "#FF0000" = Some {| helpers.Red := 1; helpers.Green := 0; helpers.Blue := 0 |}.
Proof. vm_compute. reflexivity. Qed.

Example ParseColor_green :
  helpers.ParseColor "00ff00" = Some {| helpers.Red := 0; helpers.Green := 1; helpers.Blue := 0 |}.
Proof. vm_compute. reflexivity. Qed.

Example ParseColor_short : helpers.ParseColor "#ABC" = None.
Proof. reflexivity. Qed.

(** Only one leading "#" is removed. *)
Example ParseColor_two_hashes : helpers.ParseColor "##FF0000" = None.
Proof. reflexivity. Qed.

(** C4: [ParseColor] is meant to accept six hexadecimal digits and nothing
    else, but the signed parse of each channel accepts a sign in front of a
    single digit: "+1+2+3" has six characters, three of which are no
    hexadecimal digits, and is accepted as the colour (1/255, 2/255, 3/255). *)
Theorem ParseColor_accepts_signs :
  String.length (strings.TrimPrefix "+1+2+3" "#") = 6%nat
  /\ allChars isHexDigit (strings.TrimPrefix "+1+2+3" "#") = false
  /\ helpers.ParseColor "+1+2+3"
     = Some {| helpers.Red := PrimFloat.div (helpers.float64 1) 255;
               helpers.Green := PrimFloat.div (helpers.float64 2) 255;
               helpers.Blue := PrimFloat.div (helpers.float64 3) 255 |}.
Proof.
  repeat split; vm_compute; reflexivity.
Qed.

(** C5: [ParseColor] is documented to return values normalized to the range
    from 0.0 to 1.0, but on "#-F0000" it succeeds with a red value of -15/255,
    which is below 0 and is not the value of a channel byte. *)
Theorem ParseColor_negative_channel :
  exists color : helpers.Color,
    helpers.ParseColor "#-F0000" = Some color
    /\ helpers.Red color = PrimFloat.div (helpers.float64 (-15)) 255
    /\ PrimFloat.ltb (helpers.Red color) 0 = true
    /\ inUnitInterval (helpers.Red color) = false.
Proof.
  eexists. split; [vm_compute; reflexivity |].
  repeat split; vm_compute; reflexivity.
Qed.

(** ** The command monad *)

Lemma bind_Ret {A B} (m : M A) (f : A -> M B) (w w' : World) (a : A) :
  m w = (Ret a, w') -> (m ≫= f) w = f a w'.
Proof. intros H. unfold mbind, M_bind. now rewrite H. Qed.

Lemma bind_Fail {A B} (m : M A) (f : A -> M B) (w w' : World) (e : string) :
  m w = (Fail e, w') -> (m ≫= f) w = (Fail e, w').
Proof. intros H. unfold mbind, M_bind. now rewrite H. Qed.

Lemma readFile_Some (path content : string) (w : World) :
  files w !! path = Some content -> readFile path w = (Ret content, w).
Proof. intros H. unfold readFile. now rewrite H. Qed.

(** With the stored credentials and token the client is built without
    touching the world. *)
Lemma GetClient_stored (env : Env) (ctx : auth.Context) (w : World) (token : Token) :
  storedLogin env w token -> auth.GetClient env ctx w = (Ret token, w).
Proof.
  intros (credentials & config & content & Hcred & Hconfig & Htok & Hdec & Hnew).
  unfold auth.GetClient. fold (credPath env). fold (tokenPath env).
  erewrite bind_Ret; [| unfold mapErr; rewrite (readFile_Some _ _ _ Hcred); reflexivity].
  erewrite bind_Ret; [| unfold wrapErr, mapErr, lift; rewrite Hconfig; reflexivity].
  erewrite bind_Ret.
  2:{ unfold try, auth.loadToken. erewrite bind_Ret; [| apply readFile_Some, Htok].
      unfold lift. rewrite Hdec. reflexivity. }
  reflexivity.
Qed.

Lemma GetSheetsService_stored (env : Env) (ctx : auth.Context) (w : World) (token : Token) :
  storedLogin env w token -> auth.GetSheetsService env ctx w = (Ret token, w).
Proof.
  intros Hlogin. unfold auth.GetSheetsService.
  erewrite bind_Ret by (apply GetClient_stored, Hlogin).
  destruct Hlogin as (credentials & config & content & _ & _ & _ & _ & Hnew).
  unfold wrapErr, mapErr, lift, mbind, M_bind. rewrite Hnew. reflexivity.
Qed.

(** ** GetDefaultFormatPattern and the format request *)

Lemma GetDefaultFormatPattern_other (formatType : string) :
  formatType ∉ knownFormatTypes -> helpers.GetDefaultFormatPattern formatType = "".
Proof.
  unfold knownFormatTypes. intros H.
  rewrite !not_elem_of_cons in H. destruct H as (H1 & H2 & H3 & H4 & H5 & _).
  unfold helpers.GetDefaultFormatPattern, helpers.defaultFormatPatterns,
    helpers.FormatTypeNumber, helpers.FormatTypeCurrency, helpers.FormatTypeDate,
    helpers.FormatTypePercent, helpers.FormatTypeTime.
  rewrite !lookup_insert_ne by congruence. now rewrite lookup_empty.
Qed.

(** C10: for every format type other than NUMBER, CURRENCY, DATE, PERCENT
    and TIME, and so for TEXT, [GetDefaultFormatPattern] returns the empty
    string; with no custom pattern the number format of the request is then
    the given type with an empty pattern, and [runFormatCells], once it has
    the service, the sheet and the range, sends that request instead of
    returning an error. *)
Theorem GetDefaultFormatPattern_unknown :
  (forall formatType : string,
      formatType ∉ knownFormatTypes -> helpers.GetDefaultFormatPattern formatType = "")
  /\ helpers.GetDefaultFormatPattern "TEXT" = ""
  /\ (forall (formatType : string) (sheetID : Z) (rng : Z * Z * Z * Z),
         formatType ∉ knownFormatTypes ->
         CellNumberFormat (cli.formatRequest "" formatType sheetID rng)
         = {| Type_ := formatType; Pattern := "" |})
  /\ (forall (env : Env) (w w1 w2 : World) (service : Token)
             (spreadsheetID sheetName rangeA1 formatType : string)
             (sheetID : Z) (rng : Z * Z * Z * Z),
         formatType ∉ knownFormatTypes ->
         auth.GetSheetsService env auth.Background w = (Ret service, w1) ->
         helpers.GetSheetID env spreadsheetID sheetName w1 = (Ret sheetID, w2) ->
         helpers.ParseRange rangeA1 = Some (Ok rng) ->
         let req := cli.formatRequest "" formatType sheetID rng in
         let sent := events w2 ++ [EvNet (BatchUpdate spreadsheetID [req])] in
         cli.runFormatCells env "" spreadsheetID sheetName rangeA1 formatType w
         = match batchUpdate env spreadsheetID [req] with
           | Ok _ =>
               (Ret tt,
                {| files := files w2;
                   events := sent ++ [EvPrintJSON [("status", VString "success");
                                                   ("format", VString formatType)]] |})
           | Err e =>
               (Fail ("unable to format cells: " +:+ e), {| files := files w2; events := sent |})
           end).
Proof.
  split; [exact GetDefaultFormatPattern_other |].
  split; [reflexivity |].
  split.
  - intros formatType sheetID [[[startCol startRow] endCol] endRow] H.
    unfold cli.formatRequest. cbn [String.eqb CellNumberFormat].
    now rewrite GetDefaultFormatPattern_other.
  - intros env w w1 w2 service spreadsheetID sheetName rangeA1 formatType sheetID rng
      H Hservice Hsheet Hrange req sent.
    unfold cli.runFormatCells.
    erewrite bind_Ret by exact Hservice.
    erewrite bind_Ret by exact Hsheet.
    rewrite Hrange. subst req sent.
    unfold netCall, helpers.PrintJSON, wrapErr, mapErr, emit, lift, mbind, M_bind.
    cbn [files events].
    destruct (batchUpdate env spreadsheetID _) as [[]|e]; reflexivity.
Qed.

Lemma GetDefaultFormatPattern_unknown_witness :
  helpers.GetDefaultFormatPattern "SCIENTIFIC" = ""
  /\ CellNumberFormat (cli.formatRequest "" "TEXT" 0 (0, 0, 1, 1))
     = {| Type_ := "TEXT"; Pattern := "" |}
  /\ fst (cli.runFormatCells (sample.env []) "" "id" "Sheet1" "A1:B2" "TEXT"
            sample.loggedInWorld) = Ret tt.
Proof.
  assert (Hnew : forall formatType : string,
             (if decide (formatType ∈ knownFormatTypes) then false else true) = true ->
             formatType ∉ knownFormatTypes)
    by (intros formatType; destruct (decide (formatType ∈ knownFormatTypes)); [discriminate | trivial]).
  split; [| split].
  - apply (proj1 GetDefaultFormatPattern_unknown "SCIENTIFIC"). apply Hnew. vm_compute. reflexivity.
  - apply (proj1 (proj2 (proj2 GetDefaultFormatPattern_unknown)) "TEXT" 0 (0, 0, 1, 1)).
    apply Hnew. vm_compute. reflexivity.
  - rewrite (proj2 (proj2 (proj2 GetDefaultFormatPattern_unknown))
               (sample.env []) sample.loggedInWorld sample.loggedInWorld
               {| files := files sample.loggedInWorld;
                  events := [EvNet (SpreadsheetsGet "id")] |}
               "stored-token" "id" "Sheet1" "A1:B2" "TEXT" 0 (0, 0, 1, 1)).
    + reflexivity.
    + apply Hnew. vm_compute. reflexivity.
    + vm_compute. reflexivity.
    + vm_compute. reflexivity.
    + vm_compute. reflexivity.
Defined.

(** ** readCSV *)

(** A range loop that stores [f x] at the index of [x] fills a slice made
    for the purpose with the images of the elements, in order. *)
Lemma forRange_insert {A B : Type} (f : A -> B) (zero : B) (xs : list A) (pre : list B) :
  cli.forRange (fun i x st => <[i := f x]> st) (length pre) xs
    (pre ++ cli.make zero (length xs))
  = pre ++ map f xs.
Proof.
  revert pre. induction xs as [|x xs IH]; intros pre; [reflexivity |].
  cbn [cli.forRange length map]. unfold cli.make in *. cbn [replicate].
  rewrite insert_app_r_alt by lia. rewrite Nat.sub_diag.
  change (<[0%nat := f x]> (zero :: replicate (length xs) zero))
    with (f x :: replicate (length xs) zero).
  replace (pre ++ f x :: replicate (length xs) zero)
    with ((pre ++ [f x]) ++ replicate (length xs) zero) by (now rewrite <- app_assoc).
  replace (S (length pre)) with (length (pre ++ [f x])) by (rewrite length_app; cbn; lia).
  rewrite IH. now rewrite <- app_assoc.
Qed.

(** The conversion loop builds the matrix of the fields, row by row. *)
Lemma csvValues_map (records : list (list string)) :
  cli.csvValues records = map (map VString) records.
Proof.
  unfold cli.csvValues.
  rewrite (forRange_insert
             (fun record : list string =>
                cli.forRange (fun j v row => <[j := VString v]> row) 0 record
                  (cli.make VNil (length record)))
             [] records []).
  cbn [app]. apply map_ext. intros record.
  apply (forRange_insert VString VNil record []).
Qed.

(** C8: when the CSV file opens and its parse yields a list of records,
    [readCSV] returns a matrix with one row per record, in order, each row as
    long as its record and each cell the corresponding field. *)
Theorem readCSV_matrix (env : Env) (w : World) (path content : string)
    (records : list (list string)) :
  files w !! path = Some content ->
  csvReadAll env content = Ok records ->
  exists values : list (list iface),
    cli.readCSV env path w = (Ret values, w)
    /\ length values = length records
    /\ forall (i : nat) (record : list string),
         records !! i = Some record ->
         exists row : list iface,
           values !! i = Some row
           /\ length row = length record
           /\ forall (j : nat) (v : string),
                record !! j = Some v -> row !! j = Some (VString v).
Proof.
  intros Hfile Hparse. exists (cli.csvValues records). split; [| split].
  - unfold cli.readCSV.
    erewrite bind_Ret; [| unfold wrapErr, mapErr; rewrite (readFile_Some _ _ _ Hfile); reflexivity].
    erewrite bind_Ret; [| unfold wrapErr, mapErr, lift; rewrite Hparse; reflexivity].
    reflexivity.
  - rewrite csvValues_map. apply length_map.
  - intros i record Hi. rewrite csvValues_map. exists (map VString record).
    split; [| split].
    + change (map (map VString) records) with (map VString <$> records).
      rewrite list_lookup_fmap, Hi. reflexivity.
    + apply length_map.
    + intros j v Hj. change (map VString record) with (VString <$> record).
      rewrite list_lookup_fmap, Hj. reflexivity.
Qed.

Lemma readCSV_matrix_witness :
  exists values : list (list iface),
    cli.readCSV (sample.env []) "data.csv" sample.loggedInWorld
    = (Ret values, sample.loggedInWorld)
    /\ length values = length [["a"; "b"]; ["c"; "d"]]
    /\ forall (i : nat) (record : list string),
         [["a"; "b"]; ["c"; "d"]] !! i = Some record ->
         exists row : list iface,
           values !! i = Some row
           /\ length row = length record
           /\ forall (j : nat) (v : string),
                record !! j = Some v -> row !! j = Some (VString v).
Proof.
  apply (readCSV_matrix (sample.env []) sample.loggedInWorld "data.csv"
           ("a,b" +:+ nl +:+ "c,d" +:+ nl)).
  - vm_compute. reflexivity.
  - vm_compute. reflexivity.
Defined.

Example readCSV_two_rows :
  fst (cli.readCSV (sample.env []) "data.csv" sample.loggedInWorld)
  = Ret [[VString "a"; VString "b"]; [VString "c"; VString "d"]].
Proof. vm_compute. reflexivity. Qed.

(** ** The add-data command *)

Lemma netCalls_app (es es' : list Event) : netCalls (es ++ es') = netCalls es ++ netCalls es'.
Proof. apply omap_app. Qed.

(** C7 (as amended): [runAddData] builds the service first. When the
    credentials and the token are stored, so that this step succeeds without
    the authorization flow, a values argument that [json.Unmarshal] rejects
    makes the command end with exit status 1; standard error receives the
    line of cobra, "Error: invalid JSON values: ...", the usage text of the
    command, and the line of [main], "invalid JSON values: ..."; the error
    message mentions "JSON", and no network request has been made. *)
Theorem runAddData_invalid_JSON (env : Env) (w : World) (token : Token) (formula : bool)
    (usage spreadsheetID sheetName rangeA1 valuesJSON e : string) :
  storedLogin env w token ->
  jsonUnmarshal env valuesJSON = Err e ->
  let message := "invalid JSON values: " +:+ e in
  let printed := [EvStderr ("Error: " +:+ message +:+ nl); EvStderr (usage +:+ nl);
                  EvStderr (message +:+ nl)] in
  cli.main usage (cli.runAddData env formula spreadsheetID sheetName rangeA1 valuesJSON) w
  = (Some 1, {| files := files w; events := events w ++ printed |})
  /\ mentions "JSON" message = true
  /\ netCalls (events w ++ printed) = netCalls (events w).
Proof.
  intros Hlogin Hjson message printed. split; [| split].
  - unfold cli.main, cli.Execute, cli.runAddData.
    erewrite bind_Ret by (apply GetSheetsService_stored, Hlogin).
    erewrite bind_Fail; [| unfold wrapErr, mapErr, lift; rewrite Hjson; reflexivity].
    cbn [files events]. unfold printed. now rewrite <- app_assoc.
  - reflexivity.
  - rewrite netCalls_app. cbn. apply app_nil_r.
Qed.

Lemma runAddData_invalid_JSON_witness :
  let message := "invalid JSON values: "
                 +:+ "invalid character 'o' in literal null (expecting 'u')" in
  let printed := [EvStderr ("Error: " +:+ message +:+ nl); EvStderr (sample.usage +:+ nl);
                  EvStderr (message +:+ nl)] in
  cli.main sample.usage (cli.runAddData (sample.env []) true "id" "Sheet1" "A1" "not json")
    sample.loggedInWorld
  = (Some 1, {| files := files sample.loggedInWorld;
                events := events sample.loggedInWorld ++ printed |})
  /\ mentions "JSON" message = true
  /\ netCalls (events sample.loggedInWorld ++ printed) = netCalls (events sample.loggedInWorld).
Proof.
  apply (runAddData_invalid_JSON (sample.env []) sample.loggedInWorld "stored-token" true
           sample.usage "id" "Sheet1" "A1" "not json").
  - exists "{}", "{}", "stored-token". repeat split; vm_compute; reflexivity.
  - reflexivity.
Defined.

(** C7 as stated fails, because the service is built before the JSON is
    looked at: on a machine without the credentials file the command ends
    with an error about the credentials, which does not mention "JSON"; and
    on a machine with credentials and no token, where the browser hands back
    a code, the token is requested over the network before the JSON error is
    reported.  It also fails on the literal [null], which is no 2-D array:
    the decoder, here as in encoding/json, accepts it without an error, and
    the command sends the update. *)
Lemma runAddData_auth_before_JSON :
  jsonUnmarshal (sample.env sample.codeReceived) "not json"
  = Err "invalid character 'o' in literal null (expecting 'u')"
  /\ (exists message : string,
         cli.main sample.usage
           (cli.runAddData (sample.env sample.codeReceived) true "id" "Sheet1" "A1" "not json")
           sample.freshWorld
         = (Some 1, {| files := ∅;
                       events := [EvStderr ("Error: " +:+ message +:+ nl);
                                  EvStderr (sample.usage +:+ nl);
                                  EvStderr (message +:+ nl)] |})
         /\ mentions "JSON" message = false)
  /\ (let '(status, w) :=
        cli.main sample.usage
          (cli.runAddData (sample.env sample.codeReceived) true "id" "Sheet1" "A1" "not json")
          sample.credentialsWorld in
      status = Some 1
      /\ netCalls (events w) = [TokenExchange "4/abc"]
      /\ stderrOf (events w)
         = ["Saving credentials to: /home/user/.gdrive/token.json" +:+ nl;
            "Error: invalid JSON values: invalid character 'o' in literal null (expecting 'u')"
            +:+ nl;
            sample.usage +:+ nl;
            "invalid JSON values: invalid character 'o' in literal null (expecting 'u')"
            +:+ nl])
  /\ jsonUnmarshal (sample.env []) "null" = Ok []
  /\ cli.main sample.usage (cli.runAddData (sample.env []) true "id" "Sheet1" "A1" "null")
       sample.loggedInWorld
     = (Some 0,
        {| files := files sample.loggedInWorld;
           events := [EvNet (ValuesUpdate "id" "Sheet1!A1" [] "USER_ENTERED");
                      EvPrintJSON [("status", VString "success");
                                   ("range", VString "Sheet1!A1")]] |}).
Proof.
  split; [reflexivity | split; [| split; [| split]]].
  - exists ("unable to read credentials file /home/user/.gdrive/credentials.json: "
            +:+ "open /home/user/.gdrive/credentials.json: no such file or directory"
            +:+ nl +:+ "See README.md for setup instructions").
    split; vm_compute; reflexivity.
  - vm_compute. repeat split; reflexivity.
  - reflexivity.
  - vm_compute. reflexivity.
Qed.

(** ** The authorization flow *)

Lemma listening_snoc (es : list Event) (e : Event) :
  listening (es ++ [e])
  = match e with
    | EvListen _ => true
    | EvClose _ => false
    | _ => listening es
    end.
Proof. unfold listening. rewrite foldl_snoc. reflexivity. Qed.

Lemma listening_app2 (es : list Event) (e1 e2 : Event) :
  listening (es ++ [e1; e2]) = listening ((es ++ [e1]) ++ [e2]).
Proof. now rewrite <- app_assoc. Qed.

Lemma shutdownInv_init (ctx : auth.Context) : shutdownInv (auth.init ctx).
Proof. unfold shutdownInv. cbn. repeat split; try discriminate; reflexivity. Qed.

Lemma backgroundInv_init : backgroundInv (auth.init auth.Background).
Proof. split; [reflexivity | exact I]. Qed.

(** Case analysis on what a transition tests. *)
Ltac step_cases H :=
  repeat match type of H with
         | context [match ?x with _ => _ end] => destruct x eqn:?
         end;
  try discriminate H;
  injection H as <-.

(** The fields of a state after a transition. *)
Ltac state_fields :=
  cbn [auth.pc auth.lpc auth.server auth.codeChan auth.errChan auth.ctx auth.log
       auth.bound auth.tracked auth.inShutdown].

Ltac unfold_step H :=
  cbn [auth.step] in H;
  unfold auth.stepMain, auth.stepSelect, auth.stepListener, auth.stepCallback,
    auth.stepCancel, auth.Shutdown, mbind, option_bind in H;
  cbn [auth.pc auth.lpc auth.server auth.codeChan auth.errChan auth.ctx auth.log
       auth.bound auth.tracked auth.inShutdown] in H.

Section AuthorizationFlow.

Context (env : Env) (config : Config).

(** Every transition keeps the invariant of the server. *)
Lemma shutdownInv_step (a : Action) (s s' : auth.State) :
  auth.step env config a s = Some s' -> shutdownInv s -> shutdownInv s'.
Proof.
  destruct s as [pc lpc [bound tracked inShutdown] codeChan errChan ctx log].
  unfold shutdownInv. state_fields.
  intros Hstep (Htracked & Hbound & Htrack & Hgo & Hpc & Hlog).
  destruct a; unfold_step Hstep; step_cases Hstep; state_fields;
    rewrite ?app_nil_r, ?listening_app2, ?listening_snoc;
    destruct tracked, bound, inShutdown;
    repeat match goal with
           | H : true = true -> _ |- _ => specialize (H eq_refl)
           | H : ?x = ?x -> _ |- _ => specialize (H eq_refl)
           | H : _ /\ _ |- _ => destruct H
           end;
    try discriminate; try congruence;
    repeat split; intros; subst; auto; try congruence;
    repeat match goal with
           | H : ?x = ?x -> _ |- _ => specialize (H eq_refl)
           end;
    try discriminate; congruence.
Qed.

Lemma shutdownInv_exec (s : auth.State) (a : Action) :
  shutdownInv s -> shutdownInv (auth.exec env config s a).
Proof.
  intros H. unfold auth.exec.
  destruct (auth.step env config a s) as [s'|] eqn:E; cbn [default]; [| exact H].
  exact (shutdownInv_step a s s' E H).
Qed.

Lemma shutdownInv_execAll (sched : list Action) (s : auth.State) :
  shutdownInv s -> shutdownInv (auth.execAll env config sched s).
Proof.
  revert s. induction sched as [|a sched IH]; intros s H; [exact H |].
  unfold auth.execAll. cbn [foldl]. apply IH. now apply shutdownInv_exec.
Qed.

Lemma shutdownInv_reachable (ctx : auth.Context) (s : auth.State) :
  reachable env config ctx s -> shutdownInv s.
Proof. intros [sched ->]. apply shutdownInv_execAll, shutdownInv_init. Qed.

(** Once the calling goroutine has returned it stays returned, with the
    same result. *)
Lemma returned_exec (s : auth.State) (a : Action) (r : result Token) :
  auth.pc s = auth.PcReturned r -> auth.pc (auth.exec env config s a) = auth.PcReturned r.
Proof.
  destruct s as [pc lpc [bound tracked inShutdown] codeChan errChan ctx log].
  cbn [auth.pc]. intros ->. unfold auth.exec.
  destruct a; cbn [auth.step];
    unfold auth.stepMain, auth.stepSelect, auth.stepListener, auth.stepCallback, auth.stepCancel;
    state_fields;
    repeat case_match; reflexivity.
Qed.

(** Whichever way the wait ends and however the goroutines interleave,
    when [requestTokenFromWeb] has returned, [server.Shutdown] has been
    called and no listener is registered any more; if the port is bound all
    the same, the socket is in the hands of the listener goroutine, which
    closes it at its next step: no socket is left open for good. *)
Lemma requestTokenFromWeb_no_leak (ctx : auth.Context) (sched : list Action)
    (r : result Token) :
  let s := auth.execAll env config sched (auth.init ctx) in
  auth.pc s = auth.PcReturned r ->
  auth.inShutdown (auth.server s) = true
  /\ auth.tracked (auth.server s) = false
  /\ (auth.bound (auth.server s) = true ->
      auth.lpc s = auth.LTrack
      /\ auth.bound (auth.server (auth.exec env config s Listener)) = false
      /\ listening (auth.log (auth.exec env config s Listener)) = false).
Proof.
  intros s Hret.
  destruct (shutdownInv_execAll sched (auth.init ctx) (shutdownInv_init ctx))
    as (Htracked & Hbound & _ & _ & Hpc & _).
  fold s in Htracked, Hbound, Hpc. rewrite Hret in Hpc.
  assert (Hnot : auth.tracked (auth.server s) = false).
  { destruct (auth.tracked (auth.server s)); [| reflexivity].
    destruct (Htracked eq_refl) as (_ & Hno & _). congruence. }
  split; [exact Hpc | split; [exact Hnot |]].
  intros Hb. pose proof (Hbound Hb Hnot) as Hl. split; [exact Hl |].
  unfold auth.exec. cbn [auth.step]. unfold auth.stepListener.
  rewrite Hl, Hpc. cbn [default]. unfold id. state_fields.
  split; [reflexivity | apply listening_snoc].
Qed.

(** Every transition keeps what holds under [context.Background()]. *)
Lemma backgroundInv_step (a : Action) (s s' : auth.State) :
  auth.step env config a s = Some s' ->
  shutdownInv s -> backgroundInv s -> backgroundInv s'.
Proof.
  destruct s as [pc lpc [bound tracked inShutdown] codeChan errChan ctx log].
  unfold shutdownInv, backgroundInv. state_fields.
  intros Hstep (Htracked & _ & _ & Hgo & _ & _) [-> Hserved].
  destruct a; unfold_step Hstep; cbn [auth.Done] in Hstep; step_cases Hstep; state_fields;
    (split; [reflexivity |]);
    repeat match goal with
           | H : true = true -> _ |- _ => specialize (H eq_refl)
           | H : ?x = ?x -> _ |- _ => specialize (H eq_refl)
           | H : _ /\ _ |- _ => destruct H
           end;
    subst; try discriminate; try congruence; auto;
    repeat case_match; subst; auto; try discriminate; try congruence;
    repeat match goal with
           | H : _ \/ _ |- _ => destruct H
           end;
    try discriminate; try congruence; auto.
Qed.

Lemma backgroundInv_execAll (sched : list Action) :
  backgroundInv (auth.execAll env config sched (auth.init auth.Background)).
Proof.
  induction sched as [|a sched IH] using rev_ind; [exact backgroundInv_init |].
  unfold auth.execAll. rewrite foldl_snoc.
  fold (auth.execAll env config sched (auth.init auth.Background)).
  pose proof (shutdownInv_execAll sched _ (shutdownInv_init auth.Background)) as Hinv.
  unfold auth.exec.
  destruct (auth.step env config a _) as [s'|] eqn:E; cbn [default]; [| exact IH].
  exact (backgroundInv_step a _ s' E Hinv IH).
Qed.

(** Under [context.Background()], the context of every command, the wait
    ends through a channel, the listener is registered by then, and
    [server.Shutdown] closes it: when [requestTokenFromWeb] has returned the
    callback port is not bound, and the event log ends with the listener
    closed, if it was ever opened. *)
Lemma requestTokenFromWeb_background_unbound (sched : list Action) (r : result Token) :
  let s := auth.execAll env config sched (auth.init auth.Background) in
  auth.pc s = auth.PcReturned r ->
  auth.inShutdown (auth.server s) = true
  /\ auth.bound (auth.server s) = false
  /\ listening (auth.log s) = false.
Proof.
  intros s Hret.
  destruct (requestTokenFromWeb_no_leak auth.Background sched r Hret) as (Hshut & Hnot & Hleak).
  destruct (backgroundInv_execAll sched) as [_ Hserved].
  destruct (shutdownInv_execAll sched _ (shutdownInv_init auth.Background))
    as (_ & _ & _ & _ & _ & Hlog).
  fold s in Hshut, Hnot, Hleak, Hserved, Hlog. rewrite Hret in Hserved.
  assert (Hb : auth.bound (auth.server s) = false).
  { destruct (auth.bound (auth.server s)); [| reflexivity].
    destruct (Hleak eq_refl) as (Hl & _).
    destruct Hserved as [H | H]; rewrite Hl in H; discriminate. }
  split; [exact Hshut | split; [exact Hb |]]. now rewrite Hlog.
Qed.

End AuthorizationFlow.

(** Inside a command, where the context is [context.Background()]: when
    [requestTokenFromWeb] comes back, with a token or with an error, what it
    added to the event log ends with the listener closed. *)
Lemma requestTokenFromWeb_returns (env : Env) (config : Config) (w w' : World)
    (r : run Token) :
  auth.requestTokenFromWeb env auth.Background config w = (r, w') ->
  r <> Hang ->
  exists added : list Event, events w' = events w ++ added /\ listening added = false.
Proof.
  unfold auth.requestTokenFromWeb. intros Hrun Hr.
  exists (auth.log (auth.execAll env config (schedule env) (auth.init auth.Background))).
  destruct (auth.pc (auth.execAll env config (schedule env) (auth.init auth.Background)))
    as [| | | | |res] eqn:Hpc;
    try (injection Hrun as <- _; congruence).
  destruct (requestTokenFromWeb_background_unbound env config (schedule env) res Hpc)
    as (_ & _ & Hlog).
  destruct res; injection Hrun as _ <-; split; first [reflexivity | exact Hlog].
Qed.

(** The three ways through the wait, each ending with the listener shut
    down. *)
Example flow_codeReceived :
  let s := auth.execAll (sample.env []) "{}" sample.codeReceived (auth.init auth.Background) in
  auth.pc s = auth.PcReturned (Ok "token-for-4/abc")
  /\ auth.server s = {| auth.bound := false; auth.tracked := false; auth.inShutdown := true |}.
Proof. split; reflexivity. Qed.

Example flow_callbackWithoutCode :
  let s := auth.execAll (sample.env []) "{}" sample.callbackWithoutCode
             (auth.init auth.Background) in
  auth.pc s = auth.PcReturned (Err "no authorization code in callback")
  /\ auth.server s = {| auth.bound := false; auth.tracked := false; auth.inShutdown := true |}.
Proof. split; reflexivity. Qed.

Example flow_listenerFailed :
  let s := auth.execAll (sample.envPortTaken []) "{}" sample.listenerFailed
             (auth.init auth.Background) in
  auth.pc s
  = auth.PcReturned
      (Err "failed to start server: listen tcp :8080: bind: address already in use")
  /\ auth.server s = {| auth.bound := false; auth.tracked := false; auth.inShutdown := true |}
  /\ auth.log s
     = [EvStdout ("Go to the following link in your browser:" +:+ nl
                  +:+ "https://accounts.google.com/o/oauth2/auth?state=state-token"
                  +:+ nl +:+ nl);
        EvStdout ("Waiting for authentication..." +:+ nl)].
Proof. repeat split; reflexivity. Qed.

Example flow_cancelled :
  let s := auth.execAll (sample.env []) "{}" sample.cancelled
             (auth.init (auth.WithCancel false)) in
  auth.pc s = auth.PcReturned (Err "authentication cancelled")
  /\ auth.server s = {| auth.bound := false; auth.tracked := false; auth.inShutdown := true |}.
Proof. split; reflexivity. Qed.


(** * Further properties of the code *)

(** ** A1ToGrid beyond the pattern *)

(** [ParseUint] in base 10 on a non-empty run of digits. *)
Lemma ParseUint_digits (digits : string) :
  isRun isDigit digits ->
  strconv.ParseUint digits 10 64
  = if specRowNumber digits <? 18446744073709551616 then Some (specRowNumber digits) else None.
Proof.
  intros [Hne Hall]. destruct digits as [|c s]; [congruence |].
  pose proof (parseDigits_decimal _ 0 Hall) as Hp. rewrite Z.mul_0_l, Z.add_0_l in Hp.
  unfold strconv.ParseUint. rewrite Hp. reflexivity.
Qed.

(** [ParseUint] in base 10 accepts nothing else. *)
Lemma ParseUint_Some_digits (body : string) (un : Z) :
  strconv.ParseUint body 10 64 = Some un -> isRun isDigit body /\ un = specRowNumber body.
Proof.
  intros H. destruct body as [|c s]; [discriminate |].
  destruct (allChars isDigit (String c s)) eqn:Hall.
  - assert (Hrun : isRun isDigit (String c s)) by (split; [discriminate | exact Hall]).
    split; [exact Hrun |]. rewrite (ParseUint_digits _ Hrun) in H.
    destruct (specRowNumber (String c s) <? 18446744073709551616); congruence.
  - unfold strconv.ParseUint in H. rewrite parseDigits_not_decimal in H by exact Hall.
    discriminate.
Qed.

(** [Atoi] on a signed run of digits. *)
Lemma Atoi_signed (digits : string) :
  isRun isDigit digits ->
  strconv.Atoi (String "+" digits)
  = (if specRowNumber digits <=? intMax then Some (specRowNumber digits) else None)
  /\ strconv.Atoi (String "-" digits)
     = (if specRowNumber digits <=? - intMin then Some (- specRowNumber digits) else None).
Proof.
  intros Hrun. pose proof (specRowNumber_nonneg _ (proj2 Hrun)) as Hnn.
  unfold strconv.Atoi, strconv.ParseInt.
  change (Ascii.eqb "+" "+") with true. change (Ascii.eqb "-" "+") with false.
  change (Ascii.eqb "-" "-") with true. cbv iota.
  rewrite (ParseUint_digits _ Hrun).
  change (2 ^ (64 - 1)) with 9223372036854775808. unfold intMax, intMin.
  split.
  - destruct (specRowNumber digits <? 18446744073709551616) eqn:E1;
      cbn [mbind option_bind negb andb];
      [apply Z.ltb_lt in E1 | apply Z.ltb_ge in E1];
      destruct (specRowNumber digits <=? 9223372036854775807) eqn:E3;
      try (apply Z.leb_le in E3); try (apply Z.leb_gt in E3);
      try (destruct (9223372036854775808 <=? specRowNumber digits) eqn:E2;
           [apply Z.leb_le in E2 | apply Z.leb_gt in E2]);
      first [reflexivity | lia].
  - destruct (specRowNumber digits <? 18446744073709551616) eqn:E1;
      cbn [mbind option_bind negb andb];
      [apply Z.ltb_lt in E1 | apply Z.ltb_ge in E1];
      destruct (specRowNumber digits <=? - -9223372036854775808) eqn:E3;
      try (apply Z.leb_le in E3); try (apply Z.leb_gt in E3);
      try (destruct (9223372036854775808 <? specRowNumber digits) eqn:E2;
           [apply Z.ltb_lt in E2 | apply Z.ltb_ge in E2]);
      first [reflexivity | lia].
Qed.

(** What [Atoi] accepts is a decimal integer literal in the range of
    [int]. *)
Lemma Atoi_Some_literal (s : string) (n : Z) : strconv.Atoi s = Some n -> isIntLiteral s.
Proof.
  unfold strconv.Atoi, strconv.ParseInt. destruct s as [|c s]; [discriminate |].
  change (2 ^ (64 - 1)) with 9223372036854775808.
  destruct (Ascii.eqb c "+") eqn:Hplus; [| destruct (Ascii.eqb c "-") eqn:Hminus].
  - apply Ascii.eqb_eq in Hplus as ->.
    destruct (strconv.ParseUint s 10 64) as [un|] eqn:Hun; [| discriminate].
    apply ParseUint_Some_digits in Hun as [Hrun ->].
    cbn [mbind option_bind negb andb]. intros H. exists s. split; [exact Hrun |]. left.
    split; [now right |]. unfold intMax.
    destruct (9223372036854775808 <=? specRowNumber s) eqn:E; [discriminate |].
    apply Z.leb_gt in E. lia.
  - apply Ascii.eqb_eq in Hminus as ->.
    destruct (strconv.ParseUint s 10 64) as [un|] eqn:Hun; [| discriminate].
    apply ParseUint_Some_digits in Hun as [Hrun ->].
    cbn [mbind option_bind negb andb]. intros H. exists s. split; [exact Hrun |]. right.
    split; [reflexivity |]. unfold intMin.
    destruct (9223372036854775808 <? specRowNumber s) eqn:E; [discriminate |].
    apply Z.ltb_ge in E. lia.
  - destruct (strconv.ParseUint (String c s) 10 64) as [un|] eqn:Hun; [| discriminate].
    apply ParseUint_Some_digits in Hun as [Hrun ->].
    cbn [mbind option_bind negb andb]. intros H. exists (String c s).
    split; [exact Hrun |]. left. split; [now left |]. unfold intMax.
    destruct (9223372036854775808 <=? specRowNumber (String c s)) eqn:E; [discriminate |].
    apply Z.leb_gt in E. lia.
Qed.

Lemma Atoi_literal_Some (s : string) : isIntLiteral s -> strconv.Atoi s <> None.
Proof.
  intros (digits & Hrun & [[[-> | ->] Hb] | [-> Hb]]).
  - rewrite (Atoi_digits _ Hrun). apply Z.leb_le in Hb. now rewrite Hb.
  - rewrite (proj1 (Atoi_signed _ Hrun)). apply Z.leb_le in Hb. now rewrite Hb.
  - rewrite (proj2 (Atoi_signed _ Hrun)). apply Z.leb_le in Hb. now rewrite Hb.
Qed.

(** X1: [A1ToGrid] returns an error exactly when some text follows the
    leading run of upper-case letters and that text is not a decimal integer
    (an optional sign and digits, in the range of [int]). *)
Theorem A1ToGrid_error_exactly (letters rest : string) :
  allChars isUpper letters = true -> startsWith isUpper rest = false ->
  is_err (helpers.A1ToGrid (letters +:+ rest)) = true
  <-> rest <> "" /\ ~ isIntLiteral rest.
Proof.
  intros Hl Hrest. rewrite (A1ToGrid_err_iff letters rest Hl Hrest).
  split; intros [Hne H]; (split; [exact Hne |]).
  - intros Hlit. now apply (Atoi_literal_Some rest Hlit).
  - destruct (strconv.Atoi rest) as [n|] eqn:E; [| reflexivity].
    exfalso. apply H. exact (Atoi_Some_literal rest n E).
Qed.

Lemma A1ToGrid_error_exactly_witness :
  is_err (helpers.A1ToGrid ("AB" +:+ "1:C2")) = true
  <-> "1:C2" <> "" /\ ~ isIntLiteral "1:C2".
Proof.
  apply (A1ToGrid_error_exactly "AB" "1:C2"); reflexivity.
Defined.

(** X2: [A1ToGrid] accepts a signed row number: after the letters, "-" and
    a run of digits give the row minus the number minus 1, a negative index,
    and "+" and a run of digits give the row of the digits alone. *)
Theorem A1ToGrid_signed_row (letters digits : string) :
  allChars isUpper letters = true -> specColumnNumber letters <= intMax ->
  isRun isDigit digits -> specRowNumber digits <= intMax ->
  helpers.A1ToGrid (letters +:+ String "-" digits)
  = Ok (specColumnNumber letters - 1, - specRowNumber digits - 1)
  /\ helpers.A1ToGrid (letters +:+ String "+" digits)
     = Ok (specColumnNumber letters - 1, specRowNumber digits - 1).
Proof.
  intros Hl Hcol Hrun Hrow.
  pose proof (specColumnNumber_nonneg _ Hl) as Hcnn.
  pose proof (specRowNumber_nonneg _ (proj2 Hrun)) as Hrnn.
  destruct (Atoi_signed digits Hrun) as [Hplus Hminus].
  assert (E1 : (specRowNumber digits <=? intMax) = true) by now apply Z.leb_le.
  assert (E2 : (specRowNumber digits <=? - intMin) = true)
    by (apply Z.leb_le; unfold intMin, intMax in *; lia).
  rewrite E1 in Hplus. rewrite E2 in Hminus.
  unfold helpers.A1ToGrid. split.
  - rewrite (scanColumn_letters letters (String "-" digits) 0);
      [| assumption | reflexivity | lia | lia].
    rewrite Z.mul_0_l, Z.add_0_l.
    change ((0 <? String.length (String "-" digits))%nat) with true. cbv iota.
    rewrite Hminus. cbn [mbind result_bind].
    rewrite !intWrap_small by (unfold intMin, intMax in *; lia). reflexivity.
  - rewrite (scanColumn_letters letters (String "+" digits) 0);
      [| assumption | reflexivity | lia | lia].
    rewrite Z.mul_0_l, Z.add_0_l.
    change ((0 <? String.length (String "+" digits))%nat) with true. cbv iota.
    rewrite Hplus. cbn [mbind result_bind].
    rewrite !intWrap_small by (unfold intMin, intMax in *; lia). reflexivity.
Qed.

Lemma A1ToGrid_signed_row_witness :
  helpers.A1ToGrid ("C" +:+ String "-" "12")
  = Ok (specColumnNumber "C" - 1, - specRowNumber "12" - 1)
  /\ helpers.A1ToGrid ("C" +:+ String "+" "12")
     = Ok (specColumnNumber "C" - 1, specRowNumber "12" - 1).
Proof.
  apply (A1ToGrid_signed_row "C" "12").
  - reflexivity.
  - vm_compute. discriminate.
  - split; [discriminate | reflexivity].
  - vm_compute. discriminate.
Defined.

(** X3: two texts of the form letters-then-digits, within the bounds of
    [int], are read by [A1ToGrid] as the same cell only when they have the
    same letters and the same row number: no two column names share a
    column. *)
Theorem A1ToGrid_injective (letters1 digits1 letters2 digits2 : string) :
  isRun isUpper letters1 -> isRun isDigit digits1 ->
  isRun isUpper letters2 -> isRun isDigit digits2 ->
  specColumnNumber letters1 <= intMax -> specRowNumber digits1 <= intMax ->
  specColumnNumber letters2 <= intMax -> specRowNumber digits2 <= intMax ->
  helpers.A1ToGrid (letters1 +:+ digits1) = helpers.A1ToGrid (letters2 +:+ digits2) ->
  letters1 = letters2 /\ specRowNumber digits1 = specRowNumber digits2.
Proof.
  intros Hl1 Hd1 Hl2 Hd2 Hc1 Hr1 Hc2 Hr2 Heq.
  rewrite !A1ToGrid_letters_digits in Heq by assumption.
  apply Z.leb_le in Hr1, Hr2. rewrite Hr1, Hr2 in Heq.
  injection Heq as Hcol Hrow. split; [| lia].
  rewrite <- (GridToColumn_spec letters1 (proj2 Hl1)).
  rewrite <- (GridToColumn_spec letters2 (proj2 Hl2)).
  now rewrite Hcol.
Qed.

Lemma A1ToGrid_injective_witness :
  "AB" = "AB" /\ specRowNumber "07" = specRowNumber "7".
Proof.
  apply (A1ToGrid_injective "AB" "07" "AB" "7");
    try (split; [discriminate | reflexivity]);
    try (vm_compute; discriminate).
  reflexivity.
Defined.

(** ** ParseRange beyond two cells *)

Lemma Split_cons (s : string) : exists field fields, strings.Split s ":" = field :: fields.
Proof.
  destruct s as [|c s]; [now exists "", [] |].
  cbn [strings.Split]. destruct (Ascii.eqb c ":"); [now eexists _, _ |].
  destruct (strings.Split s ":"); now eexists _, _.
Qed.

(** The result of [ParseRange] only depends on the first two fields. *)
Lemma ParseRange_fields (rangeA1 first second : string) (fields : list string) :
  strings.Split rangeA1 ":" = first :: second :: fields ->
  helpers.ParseRange rangeA1
  = Some match helpers.A1ToGrid first, helpers.A1ToGrid second with
         | Ok (startCol, startRow), Ok (endCol, endRow) =>
             Ok (startCol, startRow, endCol, endRow)
         | Err e, _ => Err e
         | Ok _, Err e => Err e
         end.
Proof.
  intros H. unfold helpers.ParseRange. rewrite H. cbn.
  destruct (helpers.A1ToGrid first) as [[c1 r1]|e]; [| reflexivity].
  destruct (helpers.A1ToGrid second) as [[c2 r2]|e]; reflexivity.
Qed.

(** X4: [ParseRange] never stops in an index-out-of-range panic: whatever
    the text, [strings.Split] gives it a first field, and the second field is
    read only when there is one. *)
Theorem ParseRange_never_panics (rangeA1 : string) :
  exists r : result (Z * Z * Z * Z), helpers.ParseRange rangeA1 = Some r.
Proof.
  unfold helpers.ParseRange.
  destruct (Split_cons rangeA1) as (p0 & ps & ->). cbn [lookup list_lookup mbind option_bind].
  destruct (helpers.A1ToGrid p0) as [[c r]|e]; [| eauto].
  destruct ps as [|p1 ps]; cbn; [eauto |].
  destruct (helpers.A1ToGrid p1) as [[c' r']|e]; eauto.
Qed.

(** X5: [ParseRange] reads the first two fields only: whatever follows a
    second ":" is ignored, so that "A1:B2:anything" is read as "A1:B2". *)
Theorem ParseRange_ignores_rest (first second rest : string) :
  allChars notColon first = true -> allChars notColon second = true ->
  helpers.ParseRange (first +:+ ":" +:+ second +:+ ":" +:+ rest)
  = helpers.ParseRange (first +:+ ":" +:+ second).
Proof.
  intros Hf Hs.
  destruct (Split_cons rest) as (r0 & rs & Hrest).
  rewrite (ParseRange_fields _ first second (strings.Split rest ":")).
  - rewrite (ParseRange_fields _ first second []); [reflexivity |].
    change (":" +:+ second) with (String ":" second).
    rewrite Split_sep by assumption. now rewrite Split_no_sep.
  - change (":" +:+ second +:+ ":" +:+ rest) with (String ":" (second +:+ String ":" rest)).
    rewrite Split_sep by assumption. now rewrite Split_sep.
Qed.

Lemma ParseRange_ignores_rest_witness :
  helpers.ParseRange ("A1" +:+ ":" +:+ "B2" +:+ ":" +:+ "not a cell:5B")
  = helpers.ParseRange ("A1" +:+ ":" +:+ "B2").
Proof.
  apply (ParseRange_ignores_rest "A1" "B2" "not a cell:5B"); reflexivity.
Defined.

(** X6: [ParseRange] does not order the two cells: when "first:second" is
    read as a range, "second:first" is read as the range with start and end
    exchanged, so a reversed range passes through unchanged. *)
Theorem ParseRange_reversed_range (first second : string)
    (startCol startRow endCol endRow : Z) :
  allChars notColon first = true -> allChars notColon second = true ->
  helpers.ParseRange (first +:+ ":" +:+ second)
  = Some (Ok (startCol, startRow, endCol, endRow)) ->
  helpers.ParseRange (second +:+ ":" +:+ first)
  = Some (Ok (endCol, endRow, startCol, startRow)).
Proof.
  intros Hf Hs.
  rewrite (ParseRange_fields _ first second []).
  2:{ change (":" +:+ second) with (String ":" second).
      rewrite Split_sep by assumption. now rewrite Split_no_sep. }
  rewrite (ParseRange_fields _ second first []).
  2:{ change (":" +:+ first) with (String ":" first).
      rewrite Split_sep by assumption. now rewrite Split_no_sep. }
  destruct (helpers.A1ToGrid first) as [[c1 r1]|e1];
    destruct (helpers.A1ToGrid second) as [[c2 r2]|e2]; intros H; try discriminate H.
  injection H as -> -> -> ->. reflexivity.
Qed.

Lemma ParseRange_reversed_range_witness :
  helpers.ParseRange ("B10" +:+ ":" +:+ "A1") = Some (Ok (1, 9, 0, 0)).
Proof.
  apply (ParseRange_reversed_range "A1" "B10" 0 0 1 9); reflexivity.
Defined.

(** ** ParseColor: what it accepts *)

Lemma substring_all (s : string) : String.substring 0 (String.length s) s = s.
Proof. induction s as [|c s IH]; cbn; [reflexivity | now rewrite IH]. Qed.

Lemma prefix_empty (s : string) : String.prefix "" s = true.
Proof. destruct s; reflexivity. Qed.

Lemma TrimPrefix_hash (s : string) : strings.TrimPrefix (String "#" s) "#" = s.
Proof.
  unfold strings.TrimPrefix. cbn [String.prefix].
  destruct (ascii_dec "#" "#") as [_|]; [| congruence].
  rewrite prefix_empty.
  change (String.substring (String.length "#") (String.length (String "#" s) - String.length "#")
            (String "#" s))
    with (String.substring 0 (S (String.length s) - 1) s).
  rewrite Nat.sub_succ, Nat.sub_0_r. apply substring_all.
Qed.

Lemma TrimPrefix_no_hash (s : string) :
  startsWith isHash s = false -> strings.TrimPrefix s "#" = s.
Proof.
  intros H. unfold strings.TrimPrefix. destruct s as [|c s]; [reflexivity |].
  cbn [startsWith] in H. unfold isHash in H. apply Ascii.eqb_neq in H.
  cbn [String.prefix]. destruct (ascii_dec "#" c) as [<-|]; [congruence | reflexivity].
Qed.

(** X7: the leading "#" is optional and only one is removed: for a text
    that does not itself begin with "#", [ParseColor] gives the same result
    with and without a "#" in front. *)
Theorem ParseColor_hash_optional (hexColor : string) :
  startsWith isHash hexColor = false ->
  helpers.ParseColor (String "#" hexColor) = helpers.ParseColor hexColor.
Proof.
  intros H. unfold helpers.ParseColor.
  now rewrite TrimPrefix_hash, TrimPrefix_no_hash.
Qed.

Lemma ParseColor_hash_optional_witness :
  helpers.ParseColor (String "#" "4285f4") = helpers.ParseColor "4285f4".
Proof.
  apply (ParseColor_hash_optional "4285f4"). reflexivity.
Defined.

(** The digit of [ParseUint] in base 16. *)
Lemma digitVal_hex (c : ascii) :
  match strconv.digitVal c with
  | Some d => if d <? 16 then Some d else None
  | None => None
  end
  = if isHexDigit c then Some (hexValue c) else None.
Proof. destruct c as [[] [] [] [] [] [] [] []]; reflexivity. Qed.

Lemma hexValue_range (c : ascii) : isHexDigit c = true -> 0 <= hexValue c <= 15.
Proof. intros H. now destruct (isHexDigit_digitVal c H) as (_ & Hr & _). Qed.

(** [ParseUint] in base 16 on one and on two characters. *)
Lemma ParseUint_hex1 (c : ascii) :
  strconv.ParseUint (String c "") 16 64 = if isHexDigit c then Some (hexValue c) else None.
Proof.
  unfold strconv.ParseUint. cbn [strconv.parseDigits].
  pose proof (digitVal_hex c) as H. destruct (strconv.digitVal c) as [d|].
  - destruct (d <? 16) eqn:E.
    + destruct (isHexDigit c) eqn:Hc; [| discriminate]. injection H as ->.
      pose proof (hexValue_range c Hc). cbn [mbind option_bind].
      rewrite Z.mul_0_l, Z.add_0_l.
      change (2 ^ 64) with 18446744073709551616.
      destruct (hexValue c <? 18446744073709551616) eqn:E2;
        [reflexivity | apply Z.ltb_ge in E2; lia].
    + destruct (isHexDigit c); [discriminate | reflexivity].
  - destruct (isHexDigit c); [discriminate | reflexivity].
Qed.

Lemma ParseUint_hex2 (c1 c2 : ascii) :
  strconv.ParseUint (String c1 (String c2 "")) 16 64
  = if isHexDigit c1 && isHexDigit c2 then Some (specChannelByte c1 c2) else None.
Proof.
  unfold strconv.ParseUint. cbn [strconv.parseDigits].
  pose proof (digitVal_hex c1) as H1. pose proof (digitVal_hex c2) as H2.
  destruct (strconv.digitVal c1) as [d1|].
  - destruct (d1 <? 16) eqn:E1.
    + destruct (isHexDigit c1) eqn:Hc1; [| discriminate]. injection H1 as ->.
      destruct (strconv.digitVal c2) as [d2|].
      * destruct (d2 <? 16) eqn:E2.
        -- destruct (isHexDigit c2) eqn:Hc2; [| discriminate]. injection H2 as ->.
           pose proof (hexValue_range c1 Hc1). pose proof (hexValue_range c2 Hc2).
           cbn [mbind option_bind andb].
           replace ((0 * 16 + hexValue c1) * 16 + hexValue c2) with (specChannelByte c1 c2)
             by (unfold specChannelByte; ring).
           change (2 ^ 64) with 18446744073709551616.
           destruct (specChannelByte c1 c2 <? 18446744073709551616) eqn:E3;
             [reflexivity | apply Z.ltb_ge in E3; unfold specChannelByte in E3; lia].
        -- destruct (isHexDigit c2); [discriminate | reflexivity].
      * destruct (isHexDigit c2); [discriminate | reflexivity].
    + destruct (isHexDigit c1); [discriminate | reflexivity].
  - destruct (isHexDigit c1); [discriminate | reflexivity].
Qed.

Lemma ParseInt_channel (c1 c2 : ascii) :
  strconv.ParseInt (String c1 (String c2 "")) 16 64
  = if acceptedChannel c1 c2 then Some (channelValue c1 c2) else None.
Proof.
  unfold strconv.ParseInt, acceptedChannel, isSign, channelValue.
  change (2 ^ (64 - 1)) with 9223372036854775808.
  destruct (Ascii.eqb c1 "+") eqn:Hplus; [| destruct (Ascii.eqb c1 "-") eqn:Hminus].
  - rewrite ParseUint_hex1. rewrite orb_true_r. cbn [andb].
    destruct (isHexDigit c2) eqn:Hc2; [| reflexivity].
    pose proof (hexValue_range c2 Hc2). cbn [mbind option_bind negb andb].
    destruct (9223372036854775808 <=? hexValue c2) eqn:E;
      [apply Z.leb_le in E; lia | reflexivity].
  - rewrite ParseUint_hex1. rewrite !orb_true_r. cbn [andb].
    destruct (isHexDigit c2) eqn:Hc2; [| reflexivity].
    pose proof (hexValue_range c2 Hc2). cbn [mbind option_bind negb andb].
    destruct (9223372036854775808 <? hexValue c2) eqn:E;
      [apply Z.ltb_lt in E; lia | reflexivity].
  - rewrite ParseUint_hex2. rewrite !orb_false_r.
    destruct (isHexDigit c1) eqn:Hc1; cbn [andb]; [| reflexivity].
    destruct (isHexDigit c2) eqn:Hc2; [| reflexivity].
    pose proof (hexValue_range c1 Hc1). pose proof (hexValue_range c2 Hc2).
    cbn [mbind option_bind negb andb].
    destruct (9223372036854775808 <=? specChannelByte c1 c2) eqn:E;
      [apply Z.leb_le in E; unfold specChannelByte in E; lia | reflexivity].
Qed.

Lemma string_length6 (s : string) :
  String.length s = 6%nat ->
  exists r1 r2 g1 g2 b1 b2,
    s = String r1 (String r2 (String g1 (String g2 (String b1 (String b2 ""))))).
Proof.
  intros H.
  destruct s as [|r1 [|r2 [|g1 [|g2 [|b1 [|b2 [|x s]]]]]]]; try discriminate H.
  now exists r1, r2, g1, g2, b1, b2.
Qed.

(** [ParseColor] on six characters, channel by channel. *)
Lemma ParseColor_six (hexColor : string) (r1 r2 g1 g2 b1 b2 : ascii) :
  strings.TrimPrefix hexColor "#"
  = String r1 (String r2 (String g1 (String g2 (String b1 (String b2 ""))))) ->
  helpers.ParseColor hexColor
  = if acceptedChannel r1 r2 && acceptedChannel g1 g2 && acceptedChannel b1 b2
    then Some {| helpers.Red := PrimFloat.div (helpers.float64 (channelValue r1 r2))
                                  helpers.RGBMaxValue;
                 helpers.Green := PrimFloat.div (helpers.float64 (channelValue g1 g2))
                                    helpers.RGBMaxValue;
                 helpers.Blue := PrimFloat.div (helpers.float64 (channelValue b1 b2))
                                   helpers.RGBMaxValue |}
    else None.
Proof.
  intros Htrim. unfold helpers.ParseColor. rewrite Htrim.
  change (slice (String r1 (String r2 (String g1 (String g2 (String b1 (String b2 "")))))) 0 2)
    with (String r1 (String r2 "")).
  change (slice (String r1 (String r2 (String g1 (String g2 (String b1 (String b2 "")))))) 2 4)
    with (String g1 (String g2 "")).
  change (slice (String r1 (String r2 (String g1 (String g2 (String b1 (String b2 "")))))) 4 6)
    with (String b1 (String b2 "")).
  rewrite !ParseInt_channel.
  change (negb (String.length
                  (String r1 (String r2 (String g1 (String g2 (String b1 (String b2 ""))))))
                =? helpers.HexColorLength)%nat) with false. cbv iota.
  destruct (acceptedChannel r1 r2), (acceptedChannel g1 g2), (acceptedChannel b1 b2);
    reflexivity.
Qed.

(** X8: [ParseColor] returns a colour exactly when, once one leading "#" is
    removed, six characters are left and each of the three pairs is two
    hexadecimal digits or a sign followed by one hexadecimal digit. *)
Theorem ParseColor_accepts_exactly (hexColor : string) :
  is_Some (helpers.ParseColor hexColor)
  <-> exists r1 r2 g1 g2 b1 b2 : ascii,
        strings.TrimPrefix hexColor "#"
        = String r1 (String r2 (String g1 (String g2 (String b1 (String b2 "")))))
        /\ acceptedChannel r1 r2 = true
        /\ acceptedChannel g1 g2 = true
        /\ acceptedChannel b1 b2 = true.
Proof.
  split.
  - intros [color Hc].
    destruct (Nat.eq_dec (String.length (strings.TrimPrefix hexColor "#")) 6%nat) as [Hlen|Hlen];
      [| rewrite ParseColor_wrong_length in Hc by exact Hlen; discriminate].
    destruct (string_length6 _ Hlen) as (r1 & r2 & g1 & g2 & b1 & b2 & Htrim).
    exists r1, r2, g1, g2, b1, b2. split; [exact Htrim |].
    rewrite (ParseColor_six _ _ _ _ _ _ _ Htrim) in Hc.
    destruct (acceptedChannel r1 r2), (acceptedChannel g1 g2), (acceptedChannel b1 b2);
      try discriminate Hc; repeat split.
  - intros (r1 & r2 & g1 & g2 & b1 & b2 & Htrim & Hr & Hg & Hb).
    rewrite (ParseColor_six _ _ _ _ _ _ _ Htrim), Hr, Hg, Hb. eauto.
Qed.

(** The value of an accepted channel without a minus sign is a byte or a
    single digit. *)
Lemma channelValue_range (c1 c2 : ascii) :
  acceptedChannel c1 c2 = true -> notMinus c1 = true -> 0 <= channelValue c1 c2 <= 255.
Proof.
  unfold acceptedChannel, notMinus, channelValue, isSign. intros Hacc Hm.
  apply negb_true_iff in Hm. rewrite Hm in *.
  apply andb_true_iff in Hacc as [H1 H2]. pose proof (hexValue_range c2 H2).
  destruct (Ascii.eqb c1 "+"); [lia |].
  rewrite !orb_false_r in H1. pose proof (hexValue_range c1 H1).
  unfold specChannelByte. lia.
Qed.

(** X9: a negative channel needs a minus sign: when the text holds no "-",
    every colour [ParseColor] returns has its three channels between 0.0 and
    1.0. *)
Theorem ParseColor_unit_interval (hexColor : string) (color : helpers.Color) :
  allChars notMinus hexColor = true ->
  helpers.ParseColor hexColor = Some color ->
  colorInUnitInterval color = true.
Proof.
  intros Hm Hc.
  assert (Htm : allChars notMinus (strings.TrimPrefix hexColor "#") = true).
  { destruct hexColor as [|c s]; [exact Hm |].
    destruct (Ascii.eqb c "#") eqn:E.
    - apply Ascii.eqb_eq in E as ->. rewrite TrimPrefix_hash.
      cbn [allChars] in Hm. now apply andb_true_iff in Hm.
    - rewrite TrimPrefix_no_hash; [exact Hm | exact E]. }
  destruct (Nat.eq_dec (String.length (strings.TrimPrefix hexColor "#")) 6%nat) as [Hlen|Hlen];
    [| rewrite ParseColor_wrong_length in Hc by exact Hlen; discriminate].
  destruct (string_length6 _ Hlen) as (r1 & r2 & g1 & g2 & b1 & b2 & Htrim).
  rewrite (ParseColor_six _ _ _ _ _ _ _ Htrim) in Hc. rewrite Htrim in Htm.
  cbn [allChars] in Htm.
  repeat (apply andb_true_iff in Htm as [?Hn Htm]).
  destruct (acceptedChannel r1 r2) eqn:Hr; [| discriminate Hc].
  destruct (acceptedChannel g1 g2) eqn:Hg; [| discriminate Hc].
  destruct (acceptedChannel b1 b2) eqn:Hb; [| discriminate Hc].
  injection Hc as <-. unfold colorInUnitInterval. cbn [helpers.Red helpers.Green helpers.Blue].
  rewrite !channel_inUnitInterval by (apply channelValue_range; assumption).
  reflexivity.
Qed.

Lemma ParseColor_unit_interval_witness :
  colorInUnitInterval
    {| helpers.Red := PrimFloat.div (helpers.float64 1) 255;
       helpers.Green := PrimFloat.div (helpers.float64 2) 255;
       helpers.Blue := PrimFloat.div (helpers.float64 3) 255 |} = true.
Proof.
  apply (ParseColor_unit_interval "+1+2+3"); vm_compute; reflexivity.
Defined.

(** ** ParseColor and the case of the digits *)

Lemma upperChar_classes (c : ascii) :
  isHexDigit (upperChar c) = isHexDigit c
  /\ isSign (upperChar c) = isSign c
  /\ isHash (upperChar c) = isHash c
  /\ Ascii.eqb (upperChar c) "+" = Ascii.eqb c "+"
  /\ Ascii.eqb (upperChar c) "-" = Ascii.eqb c "-".
Proof. destruct c as [[] [] [] [] [] [] [] []]; repeat split. Qed.

Lemma upperChar_hexValue (c : ascii) :
  isHexDigit c = true -> hexValue (upperChar c) = hexValue c.
Proof. destruct c as [[] [] [] [] [] [] [] []]; intros H; try discriminate H; reflexivity. Qed.

Lemma upperString_length (s : string) : String.length (upperString s) = String.length s.
Proof. induction s as [|c s IH]; cbn; [reflexivity | now rewrite IH]. Qed.

Lemma TrimPrefix_upper (s : string) :
  strings.TrimPrefix (upperString s) "#" = upperString (strings.TrimPrefix s "#").
Proof.
  destruct s as [|c s]; [reflexivity |].
  destruct (upperChar_classes c) as (_ & _ & Hh & _).
  destruct (isHash c) eqn:E.
  - unfold isHash in E. apply Ascii.eqb_eq in E as ->.
    change (upperString (String "#" s)) with (String "#" (upperString s)).
    now rewrite !TrimPrefix_hash.
  - rewrite (TrimPrefix_no_hash (String c s)) by exact E.
    apply TrimPrefix_no_hash. cbn [upperString startsWith]. now rewrite Hh.
Qed.

Lemma acceptedChannel_upper (c1 c2 : ascii) :
  acceptedChannel (upperChar c1) (upperChar c2) = acceptedChannel c1 c2.
Proof.
  unfold acceptedChannel.
  destruct (upperChar_classes c1) as (-> & -> & _).
  destruct (upperChar_classes c2) as (-> & _). reflexivity.
Qed.

Lemma channelValue_upper (c1 c2 : ascii) :
  acceptedChannel c1 c2 = true ->
  channelValue (upperChar c1) (upperChar c2) = channelValue c1 c2.
Proof.
  unfold acceptedChannel, channelValue, isSign. intros H.
  apply andb_true_iff in H as [H1 H2].
  destruct (upperChar_classes c1) as (_ & _ & _ & -> & ->).
  rewrite (upperChar_hexValue c2 H2).
  destruct (Ascii.eqb c1 "+"); [reflexivity |].
  destruct (Ascii.eqb c1 "-"); [reflexivity |].
  rewrite !orb_false_r in H1. unfold specChannelByte.
  now rewrite (upperChar_hexValue c1 H1), (upperChar_hexValue c2 H2).
Qed.

(** X10: [ParseColor] does not depend on the case of the letters: a text
    and its upper-case form give the same result, a colour or [nil]. *)
Theorem ParseColor_case_insensitive (hexColor : string) :
  helpers.ParseColor (upperString hexColor) = helpers.ParseColor hexColor.
Proof.
  destruct (Nat.eq_dec (String.length (strings.TrimPrefix hexColor "#")) 6%nat) as [Hlen|Hlen].
  - destruct (string_length6 _ Hlen) as (r1 & r2 & g1 & g2 & b1 & b2 & Htrim).
    rewrite (ParseColor_six hexColor _ _ _ _ _ _ Htrim).
    rewrite (ParseColor_six (upperString hexColor) (upperChar r1) (upperChar r2)
               (upperChar g1) (upperChar g2) (upperChar b1) (upperChar b2))
      by (rewrite TrimPrefix_upper, Htrim; reflexivity).
    rewrite !acceptedChannel_upper.
    destruct (acceptedChannel r1 r2) eqn:Hr; [| reflexivity].
    destruct (acceptedChannel g1 g2) eqn:Hg; [| reflexivity].
    destruct (acceptedChannel b1 b2) eqn:Hb; [| reflexivity].
    cbn [andb]. now rewrite !channelValue_upper.
  - rewrite (ParseColor_wrong_length hexColor Hlen).
    apply ParseColor_wrong_length. now rewrite TrimPrefix_upper, upperString_length.
Qed.

(** ** The format patterns and the grid ranges of the requests *)

(** X11: [GetDefaultFormatPattern] returns a non-empty pattern exactly for
    the five format types NUMBER, CURRENCY, DATE, PERCENT and TIME. *)
Theorem GetDefaultFormatPattern_nonempty (formatType : string) :
  helpers.GetDefaultFormatPattern formatType <> "" <-> formatType ∈ knownFormatTypes.
Proof.
  split.
  - intros H. destruct (decide (formatType ∈ knownFormatTypes)) as [Hin|Hout]; [exact Hin |].
    exfalso. apply H. now apply GetDefaultFormatPattern_other.
  - unfold knownFormatTypes. rewrite !elem_of_cons, elem_of_nil.
    intros [-> | [-> | [-> | [-> | [-> | []]]]]]; vm_compute; discriminate.
Qed.

Lemma isUpper_notColon (s : string) : allChars isUpper s = true -> allChars notColon s = true.
Proof.
  induction s as [|c s IH]; [reflexivity |]. cbn [allChars]. intros H.
  apply andb_true_iff in H as [Hc Hs]. rewrite (IH Hs), andb_true_r.
  unfold isUpper in Hc. apply andb_true_iff in Hc as [H1 H2]. apply Z.leb_le in H1, H2.
  unfold notColon. apply negb_true_iff, Ascii.eqb_neq. intros ->. cbv in H1. congruence.
Qed.

Lemma isDigit_notColon (s : string) : allChars isDigit s = true -> allChars notColon s = true.
Proof.
  induction s as [|c s IH]; [reflexivity |]. cbn [allChars]. intros H.
  apply andb_true_iff in H as [Hc Hs]. rewrite (IH Hs), andb_true_r.
  unfold isDigit in Hc. apply andb_true_iff in Hc as [H1 H2]. apply Z.leb_le in H1, H2.
  unfold notColon. apply negb_true_iff, Ascii.eqb_neq. intros ->. cbv in H2. congruence.
Qed.

(** [ParseRange] on two cells written as letters and digits. *)
Lemma ParseRange_cells (letters1 digits1 letters2 digits2 : string) :
  isRun isUpper letters1 -> isRun isDigit digits1 ->
  isRun isUpper letters2 -> isRun isDigit digits2 ->
  specColumnNumber letters1 <= intMax -> specRowNumber digits1 <= intMax ->
  specColumnNumber letters2 <= intMax -> specRowNumber digits2 <= intMax ->
  helpers.ParseRange ((letters1 +:+ digits1) +:+ ":" +:+ (letters2 +:+ digits2))
  = Some (Ok (specColumnNumber letters1 - 1, specRowNumber digits1 - 1,
              specColumnNumber letters2 - 1, specRowNumber digits2 - 1)).
Proof.
  intros Hl1 Hd1 Hl2 Hd2 Hc1 Hr1 Hc2 Hr2.
  rewrite (ParseRange_fields _ (letters1 +:+ digits1) (letters2 +:+ digits2) []).
  - rewrite !A1ToGrid_letters_digits by assumption.
    apply Z.leb_le in Hr1, Hr2. now rewrite Hr1, Hr2.
  - change (":" +:+ letters2 +:+ digits2) with (String ":" (letters2 +:+ digits2)).
    rewrite Split_sep, Split_no_sep; [reflexivity | |];
      rewrite allChars_append, isUpper_notColon, isDigit_notColon;
      first [reflexivity | apply Hl1 | apply Hd1 | apply Hl2 | apply Hd2].
Qed.

(** X12: the range of the format and style requests is the half-open grid
    range of the two cells: for "L1D1:L2D2" within the bounds of [int], rows
    from D1 - 1 up to and excluding D2 and columns from L1 - 1 up to and
    excluding L2, so that both corner cells are covered. *)
Theorem request_range_half_open (letters1 digits1 letters2 digits2 : string)
    (pattern formatType : string) (flags : cli.StyleFlags) (sheetID : Z) :
  isRun isUpper letters1 -> isRun isDigit digits1 ->
  isRun isUpper letters2 -> isRun isDigit digits2 ->
  specColumnNumber letters1 <= intMax -> specRowNumber digits1 <= intMax ->
  specColumnNumber letters2 <= intMax -> specRowNumber digits2 <= intMax ->
  exists rng : Z * Z * Z * Z,
    helpers.ParseRange ((letters1 +:+ digits1) +:+ ":" +:+ (letters2 +:+ digits2))
    = Some (Ok rng)
    /\ Range (cli.formatRequest pattern formatType sheetID rng)
       = {| SheetId := sheetID;
            StartRowIndex := specRowNumber digits1 - 1;
            EndRowIndex := specRowNumber digits2;
            StartColumnIndex := specColumnNumber letters1 - 1;
            EndColumnIndex := specColumnNumber letters2 |}
    /\ cli.StyleRange (cli.styleRequest flags sheetID rng)
       = Range (cli.formatRequest pattern formatType sheetID rng).
Proof.
  intros Hl1 Hd1 Hl2 Hd2 Hc1 Hr1 Hc2 Hr2.
  pose proof (specColumnNumber_nonneg _ (proj2 Hl2)) as Hcnn.
  pose proof (specRowNumber_nonneg _ (proj2 Hd2)) as Hrnn.
  eexists. split; [now apply ParseRange_cells |]. split.
  - unfold cli.formatRequest. cbn [Range].
    rewrite !intWrap_small by (unfold intMin, intMax in *; lia).
    f_equal; lia.
  - unfold cli.styleRequest, cli.formatRequest.
    destruct (cli.buildCellFormat flags) as [cellFormat fields]. reflexivity.
Qed.

Lemma request_range_half_open_witness :
  exists rng : Z * Z * Z * Z,
    helpers.ParseRange (("A" +:+ "1") +:+ ":" +:+ ("B" +:+ "10")) = Some (Ok rng)
    /\ Range (cli.formatRequest "" "DATE" 7 rng)
       = {| SheetId := 7;
            StartRowIndex := specRowNumber "1" - 1;
            EndRowIndex := specRowNumber "10";
            StartColumnIndex := specColumnNumber "A" - 1;
            EndColumnIndex := specColumnNumber "B" |}
    /\ cli.StyleRange
         (cli.styleRequest (cli.mkStyleFlags "" "" 0 true false) 7 rng)
       = Range (cli.formatRequest "" "DATE" 7 rng).
Proof.
  apply (request_range_half_open "A" "1" "B" "10" "" "DATE"
           (cli.mkStyleFlags "" "" 0 true false) 7);
    try (split; [discriminate | reflexivity]); vm_compute; discriminate.
Defined.

(** X13: a reference to whole columns is not rejected: for two runs of
    letters, as in "A:C", [ParseRange] returns row -1 for both cells, and the
    request then carries the row window from -1 up to and excluding 0. *)
Theorem request_range_columns_only (letters1 letters2 : string)
    (pattern formatType : string) (sheetID : Z) :
  allChars isUpper letters1 = true -> allChars isUpper letters2 = true ->
  specColumnNumber letters1 <= intMax -> specColumnNumber letters2 <= intMax ->
  helpers.ParseRange (letters1 +:+ ":" +:+ letters2)
  = Some (Ok (specColumnNumber letters1 - 1, -1, specColumnNumber letters2 - 1, -1))
  /\ Range (cli.formatRequest pattern formatType sheetID
              (specColumnNumber letters1 - 1, -1, specColumnNumber letters2 - 1, -1))
     = {| SheetId := sheetID;
          StartRowIndex := -1;
          EndRowIndex := 0;
          StartColumnIndex := specColumnNumber letters1 - 1;
          EndColumnIndex := specColumnNumber letters2 |}.
Proof.
  intros Hl1 Hl2 Hc1 Hc2.
  pose proof (specColumnNumber_nonneg _ Hl2) as Hcnn.
  split.
  - rewrite (ParseRange_fields _ letters1 letters2 []).
    + now rewrite !A1ToGrid_letters.
    + change (":" +:+ letters2) with (String ":" letters2).
      rewrite Split_sep, Split_no_sep; [reflexivity | |]; now apply isUpper_notColon.
  - unfold cli.formatRequest. cbn [Range].
    rewrite (intWrap_small (specColumnNumber letters2 - 1 + 1))
      by (unfold intMin, intMax in *; lia).
    change (intWrap (-1 + 1)) with 0. f_equal. lia.
Qed.

Lemma request_range_columns_only_witness :
  helpers.ParseRange ("A" +:+ ":" +:+ "C")
  = Some (Ok (specColumnNumber "A" - 1, -1, specColumnNumber "C" - 1, -1))
  /\ Range (cli.formatRequest "" "NUMBER" 0
              (specColumnNumber "A" - 1, -1, specColumnNumber "C" - 1, -1))
     = {| SheetId := 0;
          StartRowIndex := -1;
          EndRowIndex := 0;
          StartColumnIndex := specColumnNumber "A" - 1;
          EndColumnIndex := specColumnNumber "C" |}.
Proof.
  apply (request_range_columns_only "A" "C" "" "NUMBER" 0);
    try reflexivity; vm_compute; discriminate.
Defined.

(** X14: the note command takes one cell, not a range: for a cell written
    as letters and digits within the bounds of [int] the range of its
    request is that single cell, and the same text followed by ":" and
    anything is refused as an invalid cell reference. *)
Theorem noteRange_single_cell (letters digits rest : string) (sheetID : Z) :
  isRun isUpper letters -> isRun isDigit digits ->
  specColumnNumber letters <= intMax -> specRowNumber digits <= intMax ->
  cli.noteRange sheetID (letters +:+ digits)
  = Ok {| SheetId := sheetID;
          StartRowIndex := specRowNumber digits - 1;
          EndRowIndex := specRowNumber digits;
          StartColumnIndex := specColumnNumber letters - 1;
          EndColumnIndex := specColumnNumber letters |}
  /\ cli.noteRange sheetID (letters +:+ digits +:+ ":" +:+ rest)
     = Err ("invalid cell reference: " +:+ letters +:+ digits +:+ ":" +:+ rest).
Proof.
  intros Hl Hd Hcol Hrow.
  pose proof (specColumnNumber_nonneg _ (proj2 Hl)) as Hcnn.
  pose proof (specRowNumber_nonneg _ (proj2 Hd)) as Hrnn.
  unfold cli.noteRange. split.
  - rewrite A1ToGrid_letters_digits by assumption.
    apply Z.leb_le in Hrow. rewrite Hrow.
    apply Z.leb_le in Hrow.
    rewrite !intWrap_small by (unfold intMin, intMax in *; lia).
    do 2 f_equal; lia.
  - destruct Hd as [Hdne Hd]. destruct digits as [|d ds]; [congruence |].
    assert (Hd0 : isDigit d = true) by (cbn [allChars] in Hd; now apply andb_true_iff in Hd).
    destruct (isDigit_not_sign d Hd0) as [Hplus Hminus].
    unfold helpers.A1ToGrid.
    rewrite (scanColumn_rest letters (String d ds +:+ ":" +:+ rest) 0).
    + rewrite app_String.
      change ((0 <? String.length (String d (ds +:+ ":" +:+ rest)))%nat) with true. cbv iota.
      rewrite (Atoi_not_digits d (ds +:+ ":" +:+ rest) Hplus Hminus); [reflexivity |].
      cbn [allChars]. rewrite allChars_append.
      change (allChars isDigit (":" +:+ rest)) with (isDigit ":" && allChars isDigit rest).
      change (isDigit ":") with false. now rewrite andb_false_r, andb_false_r.
    + exact (proj2 Hl).
    + rewrite app_String. cbn [startsWith].
      unfold isDigit in Hd0. unfold isUpper.
      apply andb_true_iff in Hd0 as [H1 H2]. apply Z.leb_le in H1, H2.
      apply andb_false_iff. left. apply Z.leb_gt. lia.
Qed.

Lemma noteRange_single_cell_witness :
  cli.noteRange 3 ("B" +:+ "5")
  = Ok {| SheetId := 3;
          StartRowIndex := specRowNumber "5" - 1;
          EndRowIndex := specRowNumber "5";
          StartColumnIndex := specColumnNumber "B" - 1;
          EndColumnIndex := specColumnNumber "B" |}
  /\ cli.noteRange 3 ("B" +:+ "5" +:+ ":" +:+ "C6")
     = Err ("invalid cell reference: " +:+ "B" +:+ "5" +:+ ":" +:+ "C6").
Proof.
  apply (noteRange_single_cell "B" "5" "C6" 3);
    try (split; [discriminate | reflexivity]); vm_compute; discriminate.
Defined.

(** ** GetSheetID *)

Lemma find_first_title (sheetName : string) (sheetID : Z) (before after : list (string * Z)) :
  sheetName ∉ titles before ->
  List.find (fun sheet => String.eqb (fst sheet) sheetName)
    (before ++ (sheetName, sheetID) :: after)
  = Some (sheetName, sheetID).
Proof.
  induction before as [|[title id] before IH]; intros Hout.
  - cbn. now rewrite String.eqb_refl.
  - cbn [titles map fst] in Hout. apply not_elem_of_cons in Hout as [Hne Hout].
    cbn [app List.find fst].
    destruct (String.eqb title sheetName) eqn:E;
      [apply String.eqb_eq in E; congruence | now apply IH].
Qed.

Lemma find_no_title (sheetName : string) (sheets : list (string * Z)) :
  sheetName ∉ titles sheets ->
  List.find (fun sheet => String.eqb (fst sheet) sheetName) sheets = None.
Proof.
  induction sheets as [|[title id] sheets IH]; intros Hout; [reflexivity |].
  cbn [titles map fst] in Hout. apply not_elem_of_cons in Hout as [Hne Hout].
  cbn [List.find fst].
  destruct (String.eqb title sheetName) eqn:E;
    [apply String.eqb_eq in E; congruence | now apply IH].
Qed.

(** X15: [GetSheetID] asks the service for the spreadsheet once and returns
    the id of the first sheet that has the given title, also when a later
    sheet has the same title. *)
Theorem GetSheetID_first_match (env : Env) (w : World) (spreadsheetID sheetName : string)
    (sheetID : Z) (before after : list (string * Z)) :
  spreadsheetsGet env spreadsheetID = Ok (before ++ (sheetName, sheetID) :: after) ->
  sheetName ∉ titles before ->
  helpers.GetSheetID env spreadsheetID sheetName w
  = (Ret sheetID,
     {| files := files w; events := events w ++ [EvNet (SpreadsheetsGet spreadsheetID)] |}).
Proof.
  intros Hget Hout. unfold helpers.GetSheetID.
  erewrite bind_Ret.
  2:{ unfold wrapErr, mapErr, netCall, emit, lift, mbind, M_bind. rewrite Hget. reflexivity. }
  now rewrite find_first_title.
Qed.

Lemma GetSheetID_first_match_witness :
  spreadsheetsGet (sample.envFourSheets []) "id"
  = Ok ([("Summary", 0)] ++ ("Data", 7) :: [("Notes", 3); ("Data", 9)])
  /\ ("Data" ∉ titles [("Summary", 0)])
  /\ helpers.GetSheetID (sample.envFourSheets []) "id" "Data" sample.loggedInWorld
     = (Ret 7,
        {| files := files sample.loggedInWorld;
           events := events sample.loggedInWorld ++ [EvNet (SpreadsheetsGet "id")] |}).
Proof.
  assert (Hout : "Data" ∉ titles [("Summary", 0)]).
  { cbn. apply not_elem_of_cons. split; [discriminate | apply not_elem_of_nil]. }
  split; [reflexivity |]. split; [exact Hout |].
  exact (GetSheetID_first_match (sample.envFourSheets []) sample.loggedInWorld "id" "Data" 7
           [("Summary", 0)] [("Notes", 3); ("Data", 9)] eq_refl Hout).
Defined.

(** X16: when no sheet of the spreadsheet has the given title, [GetSheetID]
    returns the error "sheet '<name>' not found", after the one request for
    the spreadsheet. *)
Theorem GetSheetID_not_found (env : Env) (w : World) (spreadsheetID sheetName : string)
    (sheets : list (string * Z)) :
  spreadsheetsGet env spreadsheetID = Ok sheets ->
  sheetName ∉ titles sheets ->
  helpers.GetSheetID env spreadsheetID sheetName w
  = (Fail ("sheet '" +:+ sheetName +:+ "' not found"),
     {| files := files w; events := events w ++ [EvNet (SpreadsheetsGet spreadsheetID)] |}).
Proof.
  intros Hget Hout. unfold helpers.GetSheetID.
  erewrite bind_Ret.
  2:{ unfold wrapErr, mapErr, netCall, emit, lift, mbind, M_bind. rewrite Hget. reflexivity. }
  now rewrite find_no_title.
Qed.

Lemma GetSheetID_not_found_witness :
  helpers.GetSheetID (sample.env []) "id" "Sheet2" sample.loggedInWorld
  = (Fail ("sheet '" +:+ "Sheet2" +:+ "' not found"),
     {| files := files sample.loggedInWorld;
        events := events sample.loggedInWorld ++ [EvNet (SpreadsheetsGet "id")] |}).
Proof.
  apply (GetSheetID_not_found (sample.env []) sample.loggedInWorld "id" "Sheet2"
           [("Sheet1", 0)]).
  - reflexivity.
  - intros H. apply list_elem_of_singleton in H. discriminate H.
Defined.

(** ** Credentials and tokens *)

(** X17: without the credentials file nothing else is tried: [GetSheetsService]
    returns the error that names the file and points to the README, whether
    or not a token is stored, and leaves the files and the event log as
    they were (no listener, no request). *)
Theorem GetSheetsService_no_credentials (env : Env) (ctx : auth.Context) (w : World) :
  files w !! credPath env = None ->
  auth.GetSheetsService env ctx w
  = (Fail ("unable to read credentials file " +:+ credPath env +:+ ": open "
           +:+ credPath env +:+ ": no such file or directory" +:+ nl
           +:+ "See README.md for setup instructions"),
     w).
Proof.
  intros H. unfold auth.GetSheetsService, auth.GetClient. fold (credPath env).
  erewrite bind_Fail; [reflexivity |].
  erewrite bind_Fail; [reflexivity |].
  unfold mapErr, readFile. rewrite H.
  rewrite !append_assoc. reflexivity.
Qed.

Lemma GetSheetsService_no_credentials_witness :
  auth.GetSheetsService (sample.env sample.codeReceived) auth.Background sample.freshWorld
  = (Fail ("unable to read credentials file " +:+ credPath (sample.env sample.codeReceived)
           +:+ ": open " +:+ credPath (sample.env sample.codeReceived)
           +:+ ": no such file or directory" +:+ nl
           +:+ "See README.md for setup instructions"),
     sample.freshWorld).
Proof.
  apply (GetSheetsService_no_credentials (sample.env sample.codeReceived) auth.Background
           sample.freshWorld).
  reflexivity.
Defined.

Lemma append_inj_l (a b c : string) : a +:+ b = a +:+ c -> b = c.
Proof.
  induction a as [|x a IH]; [trivial |]. rewrite !app_String. intros H.
  injection H as H. now apply IH.
Qed.

(** ** filepath.Join *)

Lemma element_name (name : string) :
  allChars notSeparator name = true -> filepath.element name = (name, EmptyString).
Proof.
  induction name as [|c name IH]; [reflexivity |]. cbn [allChars filepath.element].
  unfold notSeparator at 1. intros H. apply andb_true_iff in H as [Hc Hname].
  apply negb_true_iff in Hc. rewrite Hc, (IH Hname). reflexivity.
Qed.

Lemma element_append (p q : string) :
  filepath.element (p +:+ String "/" q)
  = (fst (filepath.element p), snd (filepath.element p) +:+ String "/" q).
Proof.
  induction p as [|c p IH]; [reflexivity |].
  rewrite app_String. cbn [filepath.element].
  destruct (filepath.IsPathSeparator c); [reflexivity |].
  rewrite IH. destruct (filepath.element p) as [copied rest]. reflexivity.
Qed.

Lemma element_rest_length (p : string) :
  (String.length (snd (filepath.element p)) <= String.length p)%nat.
Proof.
  induction p as [|c p IH]; [reflexivity |]. cbn [filepath.element].
  destruct (filepath.IsPathSeparator c); [reflexivity |].
  destruct (filepath.element p) as [copied rest]. cbn in *. lia.
Qed.

Lemma endsElement_append (p q : string) :
  filepath.endsElement (p +:+ String "/" q) = filepath.endsElement p.
Proof. destruct p; reflexivity. Qed.

(** [len(path)] turns are enough for the loop of [Clean]: more turns give
    the same result. *)
Lemma cleanLoop_turns (rooted : bool) (turns turns' : nat) :
  forall path out dotdot,
    (String.length path <= turns)%nat -> (String.length path <= turns')%nat ->
    filepath.cleanLoop turns rooted path out dotdot
    = filepath.cleanLoop turns' rooted path out dotdot.
Proof.
  revert turns'. induction turns as [|turns IH]; intros turns' path out dotdot H H'.
  - destruct path; [| cbn in H; lia]. destruct turns'; reflexivity.
  - destruct path as [|c rest]; [destruct turns'; reflexivity |].
    destruct turns' as [|turns']; [cbn in H'; lia |].
    cbn [String.length] in H, H'. cbn [filepath.cleanLoop].
    pose proof (element_rest_length rest) as Hrest.
    assert (Htail : (String.length match rest with
                                   | String _ rest' => rest'
                                   | EmptyString => EmptyString
                                   end <= String.length rest)%nat)
      by (destruct rest; cbn; lia).
    destruct (filepath.IsPathSeparator c) eqn:Hsep; [apply IH; lia |].
    destruct (Ascii.eqb c "." && filepath.endsElement rest); [apply IH; lia |].
    destruct (Ascii.eqb c "." && _).
    + destruct (dotdot <? String.length out)%nat; [apply IH; lia |].
      destruct (negb rooted); apply IH; lia.
    + cbn [filepath.element]. rewrite Hsep.
      destruct (filepath.element rest) as [copied rest']. cbn [snd] in Hrest.
      apply IH; lia.
Qed.

(** The loop of [Clean] on a path that ends with a separator and a file
    name: whatever comes before, the name is written last and as it is. *)
Lemma cleanLoop_name (rooted : bool) (k : nat) :
  forall p out dotdot, (String.length p <= k)%nat ->
  exists out' : string, forall name turns,
    isFileName name = true ->
    (String.length (p +:+ String "/" name) <= turns)%nat ->
    filepath.cleanLoop turns rooted (p +:+ String "/" name) out dotdot = out' +:+ name.
Proof.
  induction k as [|k IH]; intros p out dotdot Hp.
  - destruct p as [|c p]; [| cbn in Hp; lia].
    exists (if rooted && negb (String.length out =? 1)%nat
               || negb rooted && negb (String.length out =? 0)%nat
            then out +:+ "/" else out).
    intros name turns Hname Hturns. rewrite app_Empty in *.
    destruct name as [|c name]; [discriminate |].
    cbn [isFileName] in Hname. apply andb_true_iff in Hname as [Hdot Hall].
    apply negb_true_iff in Hdot.
    pose proof Hall as Hsep. cbn [allChars] in Hsep. apply andb_true_iff in Hsep as [Hsep _].
    apply negb_true_iff in Hsep.
    destruct turns as [|[|turns]]; [cbn in Hturns; lia | cbn in Hturns; lia |].
    cbn [filepath.cleanLoop]. change (filepath.IsPathSeparator "/") with true. cbv iota.
    rewrite Hsep, Hdot. cbn [andb]. cbv iota.
    rewrite (element_name _ Hall).
    destruct turns; reflexivity.
  - destruct p as [|c p]; [apply (IH EmptyString); cbn; lia |].
    cbn [String.length] in Hp.
    destruct (filepath.IsPathSeparator c) eqn:Hsep.
    { destruct (IH p out dotdot ltac:(lia)) as [out' Hout]. exists out'.
      intros name turns Hname Hturns. rewrite app_String in *.
      destruct turns as [|turns]; [cbn in Hturns; lia |].
      cbn [filepath.cleanLoop]. rewrite Hsep. apply Hout; [exact Hname |].
      cbn [String.length] in Hturns. lia. }
    destruct (Ascii.eqb c "." && filepath.endsElement p) eqn:Hdot.
    { destruct (IH p out dotdot ltac:(lia)) as [out' Hout]. exists out'.
      intros name turns Hname Hturns. rewrite app_String in *.
      destruct turns as [|turns]; [cbn in Hturns; lia |].
      cbn [filepath.cleanLoop]. rewrite Hsep, endsElement_append, Hdot.
      apply Hout; [exact Hname |]. cbn [String.length] in Hturns. lia. }
    destruct (Ascii.eqb c "."
              && match p with
                 | String c' rest' => Ascii.eqb c' "." && filepath.endsElement rest'
                 | EmptyString => false
                 end) eqn:Hdotdot.
    { destruct p as [|c' p]; [now rewrite andb_false_r in Hdotdot |].
      cbn [String.length] in Hp.
      set (out1 := String.substring 0
                     (filepath.backtrack out dotdot (String.length out - 1)) out).
      set (out2 := (if (0 <? String.length out)%nat then out +:+ "/" else out) +:+ "..").
      destruct (IH p out1 dotdot ltac:(lia)) as [out1' Hout1].
      destruct (IH p out2 (String.length out2) ltac:(lia)) as [out2' Hout2].
      destruct (IH p out dotdot ltac:(lia)) as [out3' Hout3].
      exists (if (dotdot <? String.length out)%nat then out1'
              else if negb rooted then out2' else out3').
      intros name turns Hname Hturns. rewrite !app_String in *.
      destruct turns as [|turns]; [cbn in Hturns; lia |].
      cbn [String.length] in Hturns.
      cbn [filepath.cleanLoop]. rewrite Hsep.
      cbn [filepath.endsElement] in Hdot |- *. rewrite Hdot.
      rewrite endsElement_append, Hdotdot.
      destruct (dotdot <? String.length out)%nat; [apply Hout1; [exact Hname | lia] |].
      destruct rooted; cbn [negb];
        [apply Hout3; [exact Hname | lia] | apply Hout2; [exact Hname | lia]]. }
    set (out1 := if rooted && negb (String.length out =? 1)%nat
                    || negb rooted && negb (String.length out =? 0)%nat
                 then out +:+ "/" else out).
    pose proof (element_rest_length p) as Hrest.
    destruct (IH (snd (filepath.element (String c p)))
                (out1 +:+ fst (filepath.element (String c p))) dotdot) as [out' Hout].
    { cbn [filepath.element]. rewrite Hsep.
      destruct (filepath.element p) as [copied rest]. cbn in *. lia. }
    exists out'. intros name turns Hname Hturns.
    destruct turns as [|turns]; [rewrite app_String in Hturns; cbn in Hturns; lia |].
    rewrite app_String. cbn [filepath.cleanLoop]. rewrite Hsep.
    rewrite <- app_String.
    replace (Ascii.eqb c "." && filepath.endsElement (p +:+ String "/" name))
      with false by (rewrite endsElement_append; symmetry; exact Hdot).
    replace (Ascii.eqb c "."
             && match p +:+ String "/" name with
                | String c' rest' => Ascii.eqb c' "." && filepath.endsElement rest'
                | EmptyString => false
                end)
      with false.
    2:{ symmetry. destruct p as [|c' p].
        - rewrite app_Empty. change (Ascii.eqb "/" ".") with false.
          now rewrite andb_false_r.
        - rewrite app_String. cbv iota. rewrite endsElement_append. exact Hdotdot. }
    rewrite element_append. fold out1.
    apply Hout; [exact Hname |].
    rewrite app_String in Hturns. cbn [String.length] in Hturns.
    rewrite length_append in *. cbn [String.length] in *.
    cbn [filepath.element] in *. rewrite Hsep in *.
    destruct (filepath.element p) as [copied rest]. cbn [fst snd] in *. lia.
Qed.

(** [Join] keeps the file name apart: a directory and a file name give a
    path that ends with the name, after a prefix that the directory alone
    decides. *)
Lemma Join_name (dir : string) :
  exists prefix : string, forall name,
    isFileName name = true -> filepath.Join dir name = prefix +:+ name.
Proof.
  destruct dir as [|c dir].
  - exists EmptyString. intros name Hname. unfold filepath.Join. cbn [String.eqb negb].
    destruct name as [|c name]; [discriminate |]. cbn [String.eqb negb].
    cbn [isFileName] in Hname. apply andb_true_iff in Hname as [Hdot Hall].
    apply negb_true_iff in Hdot.
    pose proof Hall as Hsep. cbn [allChars] in Hsep. apply andb_true_iff in Hsep as [Hsep _].
    apply negb_true_iff in Hsep.
    unfold filepath.Clean. cbv beta iota zeta. rewrite Hsep.
    cbn [String.length filepath.cleanLoop].
    rewrite Hsep, Hdot. cbn [andb]. cbv iota. cbn [andb negb orb String.length Nat.eqb].
    rewrite (element_name _ Hall), app_Empty.
    destruct (String.length name); reflexivity.
  - destruct (filepath.IsPathSeparator c) eqn:Hsep.
    + destruct (cleanLoop_name true (String.length dir) dir "/" 1 ltac:(lia)) as [out' Hout].
      exists out'. intros name Hname. unfold filepath.Join. cbn [String.eqb negb].
      rewrite app_String. unfold filepath.Clean. cbv beta iota zeta. rewrite Hsep.
      change ("/" +:+ name) with (String "/" name).
      rewrite (Hout name _ Hname) by (cbn [String.length]; lia).
      destruct name as [|c' name]; [discriminate |].
      rewrite length_append. cbn [String.length].
      destruct (String.length out' + S (String.length name))%nat eqn:E; [lia | reflexivity].
    + destruct (cleanLoop_name false (String.length (String c dir)) (String c dir) "" 0
                  ltac:(lia)) as [out' Hout].
      exists out'. intros name Hname. unfold filepath.Join. cbn [String.eqb negb].
      rewrite app_String. unfold filepath.Clean. cbv beta iota zeta. rewrite Hsep.
      change ("/" +:+ name) with (String "/" name). rewrite <- app_String.
      rewrite (Hout name _ Hname) by (cbn [String.length]; lia).
      destruct name as [|c' name]; [discriminate |].
      rewrite length_append. cbn [String.length].
      destruct (String.length out' + S (String.length name))%nat eqn:E; [lia | reflexivity].
Qed.

(** The credentials and the token are two files. *)
Lemma credPath_tokenPath (env : Env) : credPath env <> tokenPath env.
Proof.
  unfold credPath, tokenPath, auth.CredentialsFile, auth.TokenFile.
  destruct (Join_name (auth.getCredentialsPath env)) as [prefix H].
  rewrite !H by reflexivity.
  intros E. apply append_inj_l in E. discriminate E.
Qed.

(** With the two files stored the client is built from them. *)
Lemma GetClient_files (env : Env) (ctx : auth.Context) (w : World)
    (credentials content : string) (config : Config) (token : Token) :
  files w !! credPath env = Some credentials ->
  ConfigFromJSON env credentials = Ok config ->
  files w !! tokenPath env = Some content ->
  decodeToken env content = Ok token ->
  auth.GetClient env ctx w = (Ret token, w).
Proof.
  intros Hcred Hconfig Htok Hdec.
  unfold auth.GetClient. fold (credPath env). fold (tokenPath env).
  erewrite bind_Ret; [| unfold mapErr; rewrite (readFile_Some _ _ _ Hcred); reflexivity].
  erewrite bind_Ret; [| unfold wrapErr, mapErr, lift; rewrite Hconfig; reflexivity].
  erewrite bind_Ret.
  2:{ unfold try, auth.loadToken. erewrite bind_Ret; [| apply readFile_Some, Htok].
      unfold lift. rewrite Hdec. reflexivity. }
  reflexivity.
Qed.

(** The first login: no token file, and the authorization flow returns a
    token; what is left of [GetClient] is the saving of the token. *)
Lemma GetClient_first_login (env : Env) (ctx : auth.Context) (w : World)
    (credentials : string) (config : Config) (token : Token) :
  files w !! credPath env = Some credentials ->
  ConfigFromJSON env credentials = Ok config ->
  files w !! tokenPath env = None ->
  auth.pc (auth.execAll env config (schedule env) (auth.init ctx))
  = auth.PcReturned (Ok token) ->
  auth.GetClient env ctx w
  = (try (auth.saveToken env (tokenPath env) token)
     ≫= fun saved =>
          match saved with
          | Ok _ => mret token
          | Err e =>
              emit (EvStderr ("Warning: unable to save token: " +:+ e +:+ nl));;
              mret token
          end)
      {| files := files w;
         events := events w
                   ++ auth.log (auth.execAll env config (schedule env) (auth.init ctx)) |}.
Proof.
  intros Hcred Hconfig Htok Hflow.
  unfold auth.GetClient. fold (credPath env). fold (tokenPath env).
  erewrite bind_Ret; [| unfold mapErr; rewrite (readFile_Some _ _ _ Hcred); reflexivity].
  erewrite bind_Ret; [| unfold wrapErr, mapErr, lift; rewrite Hconfig; reflexivity].
  erewrite bind_Ret.
  2:{ unfold try, auth.loadToken. erewrite bind_Fail; [reflexivity |].
      unfold readFile. rewrite Htok. reflexivity. }
  cbv iota beta.
  erewrite bind_Ret; [| unfold auth.requestTokenFromWeb; rewrite Hflow; reflexivity].
  reflexivity.
Qed.

(** X18: a login is kept: when the credentials are stored, no token file
    exists, the authorization flow returns a token and the token file can
    be written and read back, [GetClient] returns that token after writing
    it to the token file, and a second call, in the world the first one
    left, returns the same token from the file, without running the flow
    again and without any further event. *)
Theorem GetClient_saves_and_reuses (env : Env) (ctx : auth.Context) (w : World)
    (credentials : string) (config : Config) (token : Token) :
  files w !! credPath env = Some credentials ->
  ConfigFromJSON env credentials = Ok config ->
  files w !! tokenPath env = None ->
  auth.pc (auth.execAll env config (schedule env) (auth.init ctx))
  = auth.PcReturned (Ok token) ->
  writable env (tokenPath env) = Ok tt ->
  decodeToken env (encodeToken env token) = Ok token ->
  exists w' : World,
    auth.GetClient env ctx w = (Ret token, w')
    /\ files w' = <[tokenPath env := encodeToken env token]> (files w)
    /\ auth.GetClient env ctx w' = (Ret token, w').
Proof.
  intros Hcred Hconfig Htok Hflow Hwrite Hdec.
  rewrite (GetClient_first_login env ctx w credentials config token Hcred Hconfig Htok Hflow).
  unfold auth.saveToken, writeFile, try, emit, mbind, M_bind, mret, M_ret.
  cbn [files events]. rewrite Hwrite.
  eexists. split; [reflexivity |]. split; [reflexivity |].
  apply (GetClient_files env ctx _ credentials (encodeToken env token) config token).
  - cbn [files]. rewrite lookup_insert_ne by (apply not_eq_sym, credPath_tokenPath).
    exact Hcred.
  - exact Hconfig.
  - cbn [files]. apply lookup_insert_eq.
  - exact Hdec.
Qed.

Lemma GetClient_saves_and_reuses_witness :
  exists w' : World,
    auth.GetClient (sample.env sample.codeReceived) auth.Background sample.credentialsWorld
    = (Ret "token-for-4/abc", w')
    /\ files w'
       = <[tokenPath (sample.env sample.codeReceived)
           := encodeToken (sample.env sample.codeReceived) "token-for-4/abc"]>
         (files sample.credentialsWorld)
    /\ auth.GetClient (sample.env sample.codeReceived) auth.Background w'
       = (Ret "token-for-4/abc", w').
Proof.
  apply (GetClient_saves_and_reuses (sample.env sample.codeReceived) auth.Background
           sample.credentialsWorld "{}" "{}" "token-for-4/abc");
    vm_compute; reflexivity.
Defined.



(** ** The authorization flow: what it waits for and what it returns *)

Lemma execAll_snoc (env : Env) (config : Config) (sched : list Action) (a : Action)
    (s : auth.State) :
  auth.execAll env config (sched ++ [a]) s
  = auth.exec env config (auth.execAll env config sched s) a.
Proof. unfold auth.execAll. apply foldl_snoc. Qed.

Section FlowOutcomes.

Context (env : Env) (config : Config).

(** A step that is not a callback keeps the flow waiting, when the port is
    free and the context cannot be cancelled. *)
Lemma waitingInv_exec (s : auth.State) (a : Action) :
  listenError env = None -> isCallback a = false ->
  waitingInv s -> waitingInv (auth.exec env config s a).
Proof.
  intros Hport Ha. unfold auth.exec.
  destruct (auth.step env config a s) as [s'|] eqn:Hstep; cbn [default]; [| trivial].
  destruct s as [pc lpc [bound tracked inShutdown] codeChan errChan ctx log].
  unfold waitingInv. cbn [auth.pc auth.codeChan auth.errChan auth.ctx].
  intros (-> & -> & -> & Hpc).
  destruct a; try discriminate Ha; cbn [auth.step] in Hstep;
    unfold auth.stepMain, auth.stepSelect, auth.stepListener, auth.stepCancel,
      auth.Shutdown, mbind, option_bind in Hstep;
    cbn [auth.pc auth.lpc auth.server auth.codeChan auth.errChan auth.ctx auth.log
         auth.bound auth.tracked auth.inShutdown auth.Done] in Hstep;
    try rewrite Hport in Hstep;
    destruct Hpc as [-> | [-> | ->]];
    step_cases Hstep;
    unfold id; cbn [auth.pc auth.codeChan auth.errChan auth.ctx]; auto 6.
Qed.

Lemma waitingInv_execAll (sched : list Action) (s : auth.State) :
  listenError env = None -> forallb (fun a => negb (isCallback a)) sched = true ->
  waitingInv s -> waitingInv (auth.execAll env config sched s).
Proof.
  intros Hport. revert s. induction sched as [|a sched IH]; intros s Hsched H; [exact H |].
  cbn [forallb] in Hsched. apply andb_true_iff in Hsched as [Ha Hsched].
  unfold auth.execAll. cbn [foldl]. apply IH; [exact Hsched |].
  apply waitingInv_exec; [exact Hport | now apply negb_true_iff | exact H].
Qed.

(** X20: the authorization flow waits for the browser: under
    [context.Background()] and with the callback port free, as long as no
    request reaches the callback URL [requestTokenFromWeb] does not return,
    whatever else is scheduled. *)
Theorem requestTokenFromWeb_waits (sched : list Action) :
  listenError env = None ->
  forallb (fun a => negb (isCallback a)) sched = true ->
  forall r : result Token,
    auth.pc (auth.execAll env config sched (auth.init auth.Background)) <> auth.PcReturned r.
Proof.
  intros Hport Hsched r.
  destruct (waitingInv_execAll sched (auth.init auth.Background) Hport Hsched)
    as (_ & _ & _ & [H | [H | H]]);
    [repeat split; auto | | |]; rewrite H; discriminate.
Qed.

(** The provenance only depends on the position of the calling goroutine,
    on the code channel and on the requests made, and survives more
    codes. *)
Lemma provenanceInv_mono (codes codes' : list string) (s s' : auth.State) :
  (forall code, code ∈ codes -> code ∈ codes') ->
  auth.pc s' = auth.pc s ->
  netCalls (auth.log s') = netCalls (auth.log s) ->
  (forall code, auth.codeChan s' = Some code -> code ∈ codes') ->
  provenanceInv env codes s -> provenanceInv env codes' s'.
Proof.
  intros Hmono Hpc Hnet Hchan [_ H]. split; [exact Hchan |].
  rewrite Hpc, Hnet.
  destruct (auth.pc s) as [| | |[code|err]|code|[token|err]]; auto.
  - destruct H; auto.
  - destruct H; auto.
  - destruct H as (code & Hin & Hex & Hlog). exists code. auto.
Qed.

(** Every transition keeps the provenance of the code, the codes growing
    with the callbacks. *)
Lemma provenanceInv_exec (codes : list string) (s : auth.State) (a : Action) :
  provenanceInv env codes s ->
  provenanceInv env (codes ++ callbackCodes [a]) (auth.exec env config s a).
Proof.
  assert (Hmono : forall code, code ∈ codes -> code ∈ codes ++ callbackCodes [a])
    by (intros code H; apply elem_of_app; now left).
  intros Hinv. unfold auth.exec.
  destruct (auth.step env config a s) as [s'|] eqn:Hstep; cbn [default]; unfold id.
  2:{ apply (provenanceInv_mono codes _ s s Hmono); auto.
      intros code H. apply Hmono. now apply (proj1 Hinv). }
  destruct s as [pc lpc [bound tracked inShutdown] codeChan errChan ctx log].
  destruct a; cbn [auth.step] in Hstep.
  - (* Main *)
    destruct Hinv as [Hchan Hpc]. cbn [auth.pc auth.codeChan auth.log] in Hchan, Hpc.
    unfold auth.stepMain, auth.Shutdown in Hstep. cbn [auth.pc auth.lpc auth.server
      auth.codeChan auth.errChan auth.ctx auth.log auth.bound auth.tracked auth.inShutdown] in Hstep.
    destruct pc as [| | |[code|err]|code|r]; try discriminate Hstep;
      injection Hstep as <-; (split; [cbn [auth.codeChan]; intros c H; apply Hmono, Hchan, H |]);
      cbn [auth.pc auth.log]; rewrite ?netCalls_app.
    + exact Hpc.
    + rewrite Hpc. reflexivity.
    + destruct Hpc as [Hin Hnet]. split; [now apply Hmono |].
      rewrite Hnet. now destruct tracked.
    + exact I.
    + destruct Hpc as [Hin Hnet]. destruct (Exchange env code) as [token|e] eqn:Hex; [| exact I].
      exists code. split; [now apply Hmono |]. split; [exact Hex |]. now rewrite Hnet.
  - (* SelectCode *)
    destruct Hinv as [Hchan Hpc]. cbn [auth.pc auth.codeChan auth.log] in Hchan, Hpc.
    unfold auth.stepSelect in Hstep. cbn [auth.pc auth.lpc auth.server auth.codeChan
      auth.errChan auth.ctx auth.log] in Hstep.
    destruct pc; try discriminate Hstep.
    destruct codeChan as [code|]; [| discriminate Hstep]. injection Hstep as <-.
    split; [cbn [auth.codeChan]; discriminate |]. cbn [auth.pc auth.log].
    split; [now apply Hmono, Hchan | exact Hpc].
  - (* SelectErr *)
    destruct Hinv as [Hchan Hpc]. cbn [auth.pc auth.codeChan auth.log] in Hchan, Hpc.
    unfold auth.stepSelect in Hstep. cbn [auth.pc auth.lpc auth.server auth.codeChan
      auth.errChan auth.ctx auth.log] in Hstep.
    destruct pc; try discriminate Hstep.
    destruct errChan as [err|]; [| discriminate Hstep]. injection Hstep as <-.
    split; [cbn [auth.codeChan]; intros c H; apply Hmono, Hchan, H |].
    cbn [auth.pc auth.log]. exact Hpc.
  - (* SelectDone *)
    destruct Hinv as [Hchan Hpc]. cbn [auth.pc auth.codeChan auth.log] in Hchan, Hpc.
    unfold auth.stepSelect in Hstep. cbn [auth.pc auth.lpc auth.server auth.codeChan
      auth.errChan auth.ctx auth.log] in Hstep.
    destruct pc; try discriminate Hstep.
    destruct (auth.Done ctx); [| discriminate Hstep]. injection Hstep as <-.
    split; [cbn [auth.codeChan]; intros c H; apply Hmono, Hchan, H |].
    cbn [auth.pc auth.log]. exact Hpc.
  - (* Listener *)
    unfold auth.stepListener in Hstep. cbn [auth.pc auth.lpc auth.server auth.codeChan
      auth.errChan auth.ctx auth.log auth.bound auth.tracked auth.inShutdown] in Hstep.
    step_cases Hstep;
      (eapply (provenanceInv_mono codes); [exact Hmono | | | | exact Hinv]);
      cbn [auth.pc auth.log auth.codeChan]; rewrite ?netCalls_app; cbn [netCalls omap];
      rewrite ?app_nil_r; auto;
      intros c H; try apply Hmono; now apply (proj1 Hinv).
  - (* Callback *)
    unfold auth.stepCallback in Hstep. cbn [auth.pc auth.lpc auth.server auth.codeChan
      auth.errChan auth.ctx auth.log auth.bound auth.tracked auth.inShutdown] in Hstep.
    destruct tracked; [| discriminate Hstep].
    destruct (String.eqb code "") eqn:Hcode.
    + destruct errChan; [discriminate Hstep |]. injection Hstep as <-.
      eapply (provenanceInv_mono codes); [exact Hmono | | | | exact Hinv]; auto.
      cbn [auth.codeChan]. intros c H. apply Hmono. now apply (proj1 Hinv).
    + destruct codeChan; [discriminate Hstep |]. injection Hstep as <-.
      eapply (provenanceInv_mono codes); [exact Hmono | | | | exact Hinv]; auto.
      cbn [auth.codeChan]. intros c H. injection H as <-.
      apply elem_of_app. right. unfold callbackCodes. cbn. rewrite Hcode.
      apply list_elem_of_singleton. reflexivity.
  - (* Cancel *)
    unfold auth.stepCancel in Hstep. cbn [auth.ctx] in Hstep.
    destruct ctx; [discriminate Hstep |]. injection Hstep as <-.
    eapply (provenanceInv_mono codes); [exact Hmono | | | | exact Hinv]; auto.
    cbn [auth.codeChan]. intros c H. apply Hmono. now apply (proj1 Hinv).
Qed.

Lemma callbackCodes_app (sched sched' : list Action) :
  callbackCodes (sched ++ sched') = callbackCodes sched ++ callbackCodes sched'.
Proof. apply omap_app. Qed.

Lemma provenanceInv_execAll (ctx : auth.Context) (sched : list Action) :
  provenanceInv env (callbackCodes sched) (auth.execAll env config sched (auth.init ctx)).
Proof.
  induction sched as [|a sched IH] using rev_ind.
  - split; [discriminate | reflexivity].
  - rewrite execAll_snoc, callbackCodes_app. now apply provenanceInv_exec.
Qed.

Lemma callbackCodes_elem (sched : list Action) (code : string) :
  code ∈ callbackCodes sched -> code <> "" /\ Callback code ∈ sched.
Proof.
  unfold callbackCodes. rewrite list_elem_of_omap. intros (a & Hin & Ha).
  destruct a as [| | | | |c|]; try discriminate Ha.
  destruct (String.eqb c "") eqn:E; [discriminate Ha |]. injection Ha as ->.
  split; [now apply String.eqb_neq | exact Hin].
Qed.

(** X21: a token comes from a code of the browser: when [requestTokenFromWeb]
    returns a token, some callback of the schedule carried a non-empty code,
    the token is the answer of the token endpoint for that code, and that
    exchange is the one network request the flow has made. *)
Theorem requestTokenFromWeb_token_provenance (ctx : auth.Context) (sched : list Action)
    (token : Token) :
  auth.pc (auth.execAll env config sched (auth.init ctx)) = auth.PcReturned (Ok token) ->
  exists code : string,
    code <> "" /\ Callback code ∈ sched
    /\ Exchange env code = Ok token
    /\ netCalls (auth.log (auth.execAll env config sched (auth.init ctx)))
       = [TokenExchange code].
Proof.
  intros Hret. destruct (provenanceInv_execAll ctx sched) as [_ H].
  rewrite Hret in H. destruct H as (code & Hin & Hex & Hnet).
  destruct (callbackCodes_elem sched code Hin) as [Hne Hcb].
  exists code. auto.
Qed.

(** With the port taken, every transition keeps the flow on its way to the
    error of the listener. *)
Lemma portTakenInv_exec (e : string) (s : auth.State) (a : Action) :
  listenError env = Some e ->
  portTakenInv e s -> portTakenInv e (auth.exec env config s a).
Proof.
  intros Hport. unfold auth.exec.
  destruct (auth.step env config a s) as [s'|] eqn:Hstep; cbn [default]; [| trivial].
  destruct s as [pc lpc [bound tracked inShutdown] codeChan errChan ctx log].
  unfold portTakenInv. state_fields.
  intros (-> & -> & Hlpc & -> & -> & Herr & Hlog & Hpc).
  destruct a; unfold_step Hstep; cbn [auth.Done] in Hstep;
    try rewrite Hport in Hstep;
    step_cases Hstep;
    unfold id; state_fields;
    rewrite ?app_nil_r, ?listening_app2, ?listening_snoc;
    try (destruct Herr as [Herr | Herr]; [discriminate Herr | injection Herr as ->]);
    try contradiction; try congruence;
    repeat split; auto; try discriminate.
Qed.

Lemma portTakenInv_execAll (e : string) (sched : list Action) :
  listenError env = Some e ->
  portTakenInv e (auth.execAll env config sched (auth.init auth.Background)).
Proof.
  intros Hport. induction sched as [|a sched IH] using rev_ind.
  - unfold portTakenInv. cbn. auto 8.
  - rewrite execAll_snoc. now apply portTakenInv_exec.
Qed.

(** X22: with the callback port taken by another process, under
    [context.Background()], the only result [requestTokenFromWeb] can return
    is the error of [ListenAndServe] wrapped in [failed to start server], and
    the port is never bound, whatever requests and interleavings follow. *)
Theorem requestTokenFromWeb_port_taken (e : string) (sched : list Action)
    (r : result Token) :
  listenError env = Some e ->
  auth.pc (auth.execAll env config sched (auth.init auth.Background)) = auth.PcReturned r ->
  r = Err ("failed to start server: " +:+ e)
  /\ listening (auth.log (auth.execAll env config sched (auth.init auth.Background))) = false.
Proof.
  intros Hport Hret.
  destruct (portTakenInv_execAll e sched Hport) as (_ & _ & _ & _ & _ & _ & Hlog & Hpc).
  rewrite Hret in Hpc. split; [| exact Hlog].
  destruct r as [token | msg]; [contradiction | now rewrite Hpc].
Qed.

End FlowOutcomes.

Lemma requestTokenFromWeb_waits_witness :
  listenError (sample.env []) = None
  /\ forallb (fun a => negb (isCallback a)) sample.cancelled = true
  /\ forall r : result Token,
       auth.pc (auth.execAll (sample.env []) "{}" sample.cancelled
                  (auth.init auth.Background)) <> auth.PcReturned r.
Proof.
  split; [reflexivity |]. split; [reflexivity |].
  apply (requestTokenFromWeb_waits (sample.env []) "{}" sample.cancelled); reflexivity.
Defined.

Lemma requestTokenFromWeb_token_provenance_witness :
  auth.pc (auth.execAll (sample.env []) "{}" sample.codeReceived (auth.init auth.Background))
  = auth.PcReturned (Ok "token-for-4/abc")
  /\ exists code : string,
       code <> "" /\ Callback code ∈ sample.codeReceived
       /\ Exchange (sample.env []) code = Ok "token-for-4/abc"
       /\ netCalls (auth.log (auth.execAll (sample.env []) "{}" sample.codeReceived
                                (auth.init auth.Background)))
          = [TokenExchange code].
Proof.
  split; [reflexivity |].
  apply (requestTokenFromWeb_token_provenance (sample.env []) "{}" auth.Background
           sample.codeReceived "token-for-4/abc").
  reflexivity.
Defined.

Lemma requestTokenFromWeb_port_taken_witness :
  listenError (sample.envPortTaken []) = Some "listen tcp :8080: bind: address already in use"
  /\ auth.pc (auth.execAll (sample.envPortTaken []) "{}" sample.listenerFailed
                (auth.init auth.Background))
     = auth.PcReturned
         (Err "failed to start server: listen tcp :8080: bind: address already in use")
  /\ Err "failed to start server: listen tcp :8080: bind: address already in use"
     = Err ("failed to start server: " +:+ "listen tcp :8080: bind: address already in use")
       :> result Token
  /\ listening (auth.log (auth.execAll (sample.envPortTaken []) "{}" sample.listenerFailed
                             (auth.init auth.Background))) = false.
Proof.
  split; [reflexivity |]. split; [reflexivity |].
  apply (requestTokenFromWeb_port_taken (sample.envPortTaken []) "{}"
           "listen tcp :8080: bind: address already in use" sample.listenerFailed);
    reflexivity.
Defined.

(** ** The commands that write values *)

Lemma readCSV_no_file (env : Env) (w : World) (path : string) :
  files w !! path = None ->
  cli.readCSV env path w
  = (Fail ("unable to open CSV file: open " +:+ path +:+ ": no such file or directory"), w).
Proof.
  intros H. unfold cli.readCSV.
  erewrite bind_Fail; [reflexivity |].
  unfold wrapErr, mapErr, readFile. rewrite H. reflexivity.
Qed.

Lemma readCSV_parse_error (env : Env) (w : World) (path content e : string) :
  files w !! path = Some content -> csvReadAll env content = Err e ->
  cli.readCSV env path w = (Fail ("unable to read CSV: " +:+ e), w).
Proof.
  intros Hfile Hparse. unfold cli.readCSV.
  erewrite bind_Ret; [| unfold wrapErr, mapErr; rewrite (readFile_Some _ _ _ Hfile); reflexivity].
  erewrite bind_Fail; [reflexivity |].
  unfold wrapErr, mapErr, lift. rewrite Hparse. reflexivity.
Qed.

Lemma readCSV_records (env : Env) (w : World) (path content : string)
    (records : list (list string)) :
  files w !! path = Some content -> csvReadAll env content = Ok records ->
  cli.readCSV env path w = (Ret (map (map VString) records), w).
Proof.
  intros Hfile Hparse. unfold cli.readCSV.
  erewrite bind_Ret; [| unfold wrapErr, mapErr; rewrite (readFile_Some _ _ _ Hfile); reflexivity].
  erewrite bind_Ret; [| unfold wrapErr, mapErr, lift; rewrite Hparse; reflexivity].
  now rewrite csvValues_map.
Qed.

(** X23: the CSV import looks at the file before anything else: when the
    file does not exist, or its content is no CSV, [runImportCSV] returns
    the error of [readCSV] and has done nothing else, with or without a
    login: no credentials are read, no listener is started and no request
    is sent. *)
Theorem runImportCSV_unreadable_CSV (env : Env) (w : World)
    (startCell spreadsheetID sheetName csvPath msg : string) :
  (files w !! csvPath = None
   /\ msg = "unable to open CSV file: open " +:+ csvPath +:+ ": no such file or directory")
  \/ (exists content e : string,
         files w !! csvPath = Some content /\ csvReadAll env content = Err e
         /\ msg = "unable to read CSV: " +:+ e) ->
  cli.runImportCSV env startCell spreadsheetID sheetName csvPath w = (Fail msg, w).
Proof.
  intros H. unfold cli.runImportCSV.
  erewrite bind_Fail; [reflexivity |].
  destruct H as [[Hfile ->] | (content & e & Hfile & Hparse & ->)].
  - now apply readCSV_no_file.
  - now apply (readCSV_parse_error env w csvPath content e).
Qed.

Lemma runImportCSV_unreadable_CSV_witness :
  cli.runImportCSV (sample.env []) "A1" "id" "Sheet1" "data.csv" sample.freshWorld
  = (Fail ("unable to open CSV file: open " +:+ "data.csv" +:+ ": no such file or directory"),
     sample.freshWorld).
Proof.
  apply (runImportCSV_unreadable_CSV (sample.env []) sample.freshWorld "A1" "id" "Sheet1"
           "data.csv").
  left. split; reflexivity.
Defined.

(** X24: the CSV import sends the records as they are: with a stored login,
    a file that parses to [records] is sent in one values update to
    [<sheet>!<start cell>], every field as a string cell, always with the
    input option USER_ENTERED; on success [runImportCSV] prints the number
    of records as [rows], and an error of the service is returned as
    "unable to import CSV: ...", with nothing printed. *)
Theorem runImportCSV_sends_records (env : Env) (w : World) (token : Token)
    (startCell spreadsheetID sheetName csvPath content : string)
    (records : list (list string)) :
  storedLogin env w token ->
  files w !! csvPath = Some content ->
  csvReadAll env content = Ok records ->
  let target := sheetName +:+ "!" +:+ startCell in
  let values := map (map VString) records in
  let sent := events w ++ [EvNet (ValuesUpdate spreadsheetID target values "USER_ENTERED")] in
  cli.runImportCSV env startCell spreadsheetID sheetName csvPath w
  = match valuesUpdate env spreadsheetID target values "USER_ENTERED" with
    | Ok _ =>
        (Ret tt,
         {| files := files w;
            events := sent ++ [EvPrintJSON [("status", VString "success");
                                            ("rows", VInt (Z.of_nat (length records)))]] |})
    | Err e =>
        (Fail ("unable to import CSV: " +:+ e), {| files := files w; events := sent |})
    end.
Proof.
  intros Hlogin Hfile Hparse target values sent. unfold cli.runImportCSV.
  erewrite bind_Ret by (apply (readCSV_records env w csvPath content records); assumption).
  erewrite bind_Ret by (apply GetSheetsService_stored, Hlogin).
  fold target values. unfold cli.ValueInputModeFormula.
  unfold wrapErr, mapErr, netCall, emit, lift, helpers.PrintJSON, mbind, M_bind.
  cbn [files events].
  destruct (valuesUpdate env spreadsheetID target values "USER_ENTERED") as [[]|e];
    cbn [files events]; unfold values; rewrite ?length_map; reflexivity.
Qed.

Lemma runImportCSV_sends_records_witness :
  storedLogin (sample.env []) sample.loggedInWorld "stored-token"
  /\ files sample.loggedInWorld !! "data.csv" = Some ("a,b" +:+ nl +:+ "c,d" +:+ nl)
  /\ csvReadAll (sample.env []) ("a,b" +:+ nl +:+ "c,d" +:+ nl) = Ok [["a"; "b"]; ["c"; "d"]]
  /\ cli.runImportCSV (sample.env []) "A1" "id" "Sheet1" "data.csv" sample.loggedInWorld
     = (Ret tt,
        {| files := files sample.loggedInWorld;
           events := [EvNet (ValuesUpdate "id" "Sheet1!A1"
                               [[VString "a"; VString "b"]; [VString "c"; VString "d"]]
                               "USER_ENTERED");
                      EvPrintJSON [("status", VString "success"); ("rows", VInt 2)]] |}).
Proof.
  assert (Hlogin : storedLogin (sample.env []) sample.loggedInWorld "stored-token").
  { exists "{}", "{}", "stored-token". repeat split; reflexivity. }
  split; [exact Hlogin |]. split; [reflexivity |]. split; [reflexivity |].
  exact (runImportCSV_sends_records (sample.env []) sample.loggedInWorld "stored-token"
           "A1" "id" "Sheet1" "data.csv" ("a,b" +:+ nl +:+ "c,d" +:+ nl)
           [["a"; "b"]; ["c"; "d"]] Hlogin eq_refl eq_refl).
Defined.

(** X25: [runAddData] writes the decoded values as they are: with a stored
    login and a values argument that decodes to [values], it sends one
    values update to [<sheet>!<range>] with the input option USER_ENTERED
    when the formula flag is set and RAW otherwise; on success it prints the
    target range, and an error of the service is returned as
    "unable to update cells: ...", with nothing printed. *)
Theorem runAddData_writes (env : Env) (w : World) (token : Token) (formula : bool)
    (spreadsheetID sheetName rangeA1 valuesJSON : string) (values : list (list iface)) :
  storedLogin env w token ->
  jsonUnmarshal env valuesJSON = Ok values ->
  let target := sheetName +:+ "!" +:+ rangeA1 in
  let option := if formula then "USER_ENTERED" else "RAW" in
  let sent := events w ++ [EvNet (ValuesUpdate spreadsheetID target values option)] in
  cli.runAddData env formula spreadsheetID sheetName rangeA1 valuesJSON w
  = match valuesUpdate env spreadsheetID target values option with
    | Ok _ =>
        (Ret tt,
         {| files := files w;
            events := sent ++ [EvPrintJSON [("status", VString "success");
                                            ("range", VString target)]] |})
    | Err e =>
        (Fail ("unable to update cells: " +:+ e), {| files := files w; events := sent |})
    end.
Proof.
  intros Hlogin Hjson target option sent. unfold cli.runAddData.
  erewrite bind_Ret by (apply GetSheetsService_stored, Hlogin).
  erewrite bind_Ret by (unfold wrapErr, mapErr, lift; rewrite Hjson; reflexivity).
  fold target.
  replace (if negb formula then cli.ValueInputModeRaw else cli.ValueInputModeFormula)
    with option by (now destruct formula).
  unfold wrapErr, mapErr, netCall, emit, lift, helpers.PrintJSON, mbind, M_bind.
  cbn [files events].
  destruct (valuesUpdate env spreadsheetID target values option) as [[]|e];
    cbn [files events]; reflexivity.
Qed.

Lemma runAddData_writes_witness :
  storedLogin (sample.env []) sample.loggedInWorld "stored-token"
  /\ jsonUnmarshal (sample.env []) "[[1]]" = Ok [[VNumber 1%float]]
  /\ cli.runAddData (sample.env []) false "id" "Sheet1" "A1" "[[1]]" sample.loggedInWorld
     = (Ret tt,
        {| files := files sample.loggedInWorld;
           events := [EvNet (ValuesUpdate "id" "Sheet1!A1" [[VNumber 1%float]] "RAW");
                      EvPrintJSON [("status", VString "success");
                                   ("range", VString "Sheet1!A1")]] |}).
Proof.
  assert (Hlogin : storedLogin (sample.env []) sample.loggedInWorld "stored-token").
  { exists "{}", "{}", "stored-token". repeat split; reflexivity. }
  split; [exact Hlogin |]. split; [reflexivity |].
  exact (runAddData_writes (sample.env []) sample.loggedInWorld "stored-token" false
           "id" "Sheet1" "A1" "[[1]]" [[VNumber 1%float]] Hlogin eq_refl).
Defined.

(** X26: [runFormatCells] reads the range last: with a stored login and a
    sheet of the given name, a range that [ParseRange] refuses makes the
    handler return the error of the cell, unwrapped, after the spreadsheet
    has been requested and before any update is sent. *)
Theorem runFormatCells_invalid_range (env : Env) (w : World) (token : Token)
    (pattern spreadsheetID sheetName rangeA1 formatType e : string)
    (sheetID : Z) (before after : list (string * Z)) :
  storedLogin env w token ->
  spreadsheetsGet env spreadsheetID = Ok (before ++ (sheetName, sheetID) :: after) ->
  sheetName ∉ titles before ->
  helpers.ParseRange rangeA1 = Some (Err e) ->
  cli.runFormatCells env pattern spreadsheetID sheetName rangeA1 formatType w
  = (Fail e,
     {| files := files w; events := events w ++ [EvNet (SpreadsheetsGet spreadsheetID)] |}).
Proof.
  intros Hlogin Hget Hout Hrange. unfold cli.runFormatCells.
  erewrite bind_Ret by (apply GetSheetsService_stored, Hlogin).
  erewrite bind_Ret.
  2:{ unfold helpers.GetSheetID. erewrite bind_Ret.
      2:{ unfold wrapErr, mapErr, netCall, emit, lift, mbind, M_bind. rewrite Hget.
          reflexivity. }
      rewrite find_first_title by exact Hout. reflexivity. }
  rewrite Hrange. reflexivity.
Qed.

Lemma runFormatCells_invalid_range_witness :
  storedLogin (sample.envFourSheets []) sample.loggedInWorld "stored-token"
  /\ spreadsheetsGet (sample.envFourSheets []) "id"
     = Ok ([("Summary", 0)] ++ ("Data", 7) :: [("Notes", 3); ("Data", 9)])
  /\ ("Data" ∉ titles [("Summary", 0)])
  /\ helpers.ParseRange "A1:5B" = Some (Err "invalid cell reference: 5B")
  /\ cli.runFormatCells (sample.envFourSheets []) "" "id" "Data" "A1:5B" "NUMBER"
       sample.loggedInWorld
     = (Fail "invalid cell reference: 5B",
        {| files := files sample.loggedInWorld;
           events := events sample.loggedInWorld ++ [EvNet (SpreadsheetsGet "id")] |}).
Proof.
  assert (Hlogin : storedLogin (sample.envFourSheets []) sample.loggedInWorld "stored-token").
  { exists "{}", "{}", "stored-token". repeat split; reflexivity. }
  assert (Hout : "Data" ∉ titles [("Summary", 0)]).
  { cbn. apply not_elem_of_cons. split; [discriminate | apply not_elem_of_nil]. }
  split; [exact Hlogin |]. split; [reflexivity |]. split; [exact Hout |].
  split; [reflexivity |].
  exact (runFormatCells_invalid_range (sample.envFourSheets []) sample.loggedInWorld
           "stored-token" "" "id" "Data" "A1:5B" "NUMBER" "invalid cell reference: 5B" 7
           [("Summary", 0)] [("Notes", 3); ("Data", 9)] Hlogin eq_refl Hout eq_refl).
Defined.

(** ** The CSV conversions *)

Lemma forRange_snoc {A B : Type} (g : A -> B) (i : nat) (xs : list A) (pre : list B) :
  cli.forRange (fun _ x written => written ++ [g x]) i xs pre = pre ++ map g xs.
Proof.
  revert i pre. induction xs as [|x xs IH]; intros i pre.
  - cbn. now rewrite app_nil_r.
  - cbn [cli.forRange map]. rewrite IH. now rewrite <- app_assoc.
Qed.

(** The loop of [writeCSV] hands one record per row, a field per cell. *)
Lemma csvRecords_map (Sprintv : iface -> string) (values : list (list iface)) :
  cli.csvRecords Sprintv values = map (map Sprintv) values.
Proof.
  unfold cli.csvRecords.
  rewrite (forRange_snoc
             (fun row : list iface =>
                cli.forRange (fun i cell record => <[i := Sprintv cell]> record) 0 row
                  (cli.make EmptyString (length row)))
             0 values []).
  cbn [app]. apply map_ext. intros row.
  apply (forRange_insert Sprintv EmptyString row []).
Qed.

(** X27: what the import reads, the export writes back: for a formatting
    of cells that prints a string cell as its text, as [%v] does, the
    records [writeCSV] hands to the CSV writer for the matrix that [readCSV]
    builds from [records] are [records] again, ragged rows and empty
    fields included. *)
Theorem csvRecords_csvValues (Sprintv : iface -> string) (records : list (list string)) :
  (forall s : string, Sprintv (VString s) = s) ->
  cli.csvRecords Sprintv (cli.csvValues records) = records.
Proof.
  intros Hstring. rewrite csvRecords_map, csvValues_map, map_map.
  rewrite <- (map_id records) at 2. apply map_ext. intros record.
  rewrite map_map. rewrite <- (map_id record) at 2. apply map_ext. exact Hstring.
Qed.

Lemma csvRecords_csvValues_witness :
  let Sprintv := fun cell : iface => match cell with VString s => s | _ => "<nil>" end in
  (forall s : string, Sprintv (VString s) = s)
  /\ cli.csvRecords Sprintv (cli.csvValues [["a"; ""]; []; ["c"]]) = [["a"; ""]; []; ["c"]].
Proof.
  intros Sprintv. split; [reflexivity |].
  apply (csvRecords_csvValues Sprintv [["a"; ""]; []; ["c"]]). reflexivity.
Defined.

(** ** The style request *)

(** X28: an invalid colour is not reported: when the background flag is set
    to a text [ParseColor] refuses, [buildCellFormat] returns no error, the
    background colour of the format is nil, and the background field is
    still in the list of fields to update. *)
Theorem buildCellFormat_invalid_color (flags : cli.StyleFlags) :
  cli.styleCellsBgColor flags <> "" ->
  helpers.ParseColor (cli.styleCellsBgColor flags) = None ->
  cli.BackgroundColor (fst (cli.buildCellFormat flags)) = None
  /\ "userEnteredFormat.backgroundColor" ∈ snd (cli.buildCellFormat flags).
Proof.
  intros Hset Hcolor. apply String.eqb_neq in Hset.
  unfold cli.buildCellFormat. rewrite Hset, Hcolor. cbn [negb app].
  destruct (_ || _ || _ || _); cbn [fst snd cli.BackgroundColor app].
  - split; [reflexivity | apply elem_of_cons; now left].
  - split; [reflexivity | apply elem_of_cons; now left].
Qed.

Lemma buildCellFormat_invalid_color_witness :
  let flags := {| cli.styleCellsBgColor := "#ABC"; cli.styleCellsFontColor := "";
                  cli.styleCellsFontSize := 0; cli.styleCellsBold := false;
                  cli.styleCellsItalic := false |} in
  cli.styleCellsBgColor flags <> ""
  /\ helpers.ParseColor (cli.styleCellsBgColor flags) = None
  /\ cli.BackgroundColor (fst (cli.buildCellFormat flags)) = None
  /\ "userEnteredFormat.backgroundColor" ∈ snd (cli.buildCellFormat flags).
Proof.
  intros flags.
  assert (Hset : cli.styleCellsBgColor flags <> "") by discriminate.
  assert (Hcolor : helpers.ParseColor (cli.styleCellsBgColor flags) = None) by reflexivity.
  split; [exact Hset |]. split; [exact Hcolor |].
  exact (buildCellFormat_invalid_color flags Hset Hcolor).
Defined.

(** X29: the text format is sent whole: [buildCellFormat] sets a text
    format exactly when the font colour, a positive font size, bold or
    italic is asked for, and that text format then carries every text
    property: bold and italic as the flags are, so [false] for the one not
    given, the font size or 0, the parsed font colour or nil. *)
Theorem buildCellFormat_text_format (flags : cli.StyleFlags) :
  cli.CellTextFormat (fst (cli.buildCellFormat flags))
  = if negb (String.eqb (cli.styleCellsFontColor flags) "")
       || (0 <? cli.styleCellsFontSize flags)
       || cli.styleCellsBold flags || cli.styleCellsItalic flags
    then Some {| cli.ForegroundColor :=
                   if String.eqb (cli.styleCellsFontColor flags) "" then None
                   else helpers.ParseColor (cli.styleCellsFontColor flags);
                 cli.FontSize := Z.max 0 (cli.styleCellsFontSize flags);
                 cli.Bold := cli.styleCellsBold flags;
                 cli.Italic := cli.styleCellsItalic flags |}
    else None.
Proof.
  unfold cli.buildCellFormat.
  destruct flags as [bg font size bold italic].
  cbn [cli.styleCellsBgColor cli.styleCellsFontColor cli.styleCellsFontSize
       cli.styleCellsBold cli.styleCellsItalic].
  destruct (String.eqb bg ""), (String.eqb font ""), (0 <? size) eqn:Hsize, bold, italic;
    cbn [negb orb fst cli.CellTextFormat cli.ForegroundColor cli.FontSize cli.Bold cli.Italic];
    try reflexivity;
    f_equal; f_equal;
    first [apply Z.ltb_lt in Hsize | apply Z.ltb_ge in Hsize]; lia.
Qed.

(** X30: the field mask of the style request names the groups that are
    set, joined with a comma; with no flag at all the request is still
    built, with an empty mask and an empty format. *)
Theorem styleRequest_fields (flags : cli.StyleFlags) (sheetID : Z) (rng : Z * Z * Z * Z) :
  let background := negb (String.eqb (cli.styleCellsBgColor flags) "") in
  let text := negb (String.eqb (cli.styleCellsFontColor flags) "")
              || (0 <? cli.styleCellsFontSize flags)
              || cli.styleCellsBold flags || cli.styleCellsItalic flags in
  cli.StyleFields (cli.styleRequest flags sheetID rng)
  = match background, text with
    | true, true => "userEnteredFormat.backgroundColor,userEnteredFormat.textFormat"
    | true, false => "userEnteredFormat.backgroundColor"
    | false, true => "userEnteredFormat.textFormat"
    | false, false => ""
    end
  /\ (background = false -> text = false ->
      cli.UserEnteredFormat (cli.styleRequest flags sheetID rng)
      = {| cli.BackgroundColor := None; cli.CellTextFormat := None |}).
Proof.
  intros background text. subst background text.
  destruct rng as [[[startCol startRow] endCol] endRow].
  unfold cli.styleRequest, cli.buildCellFormat.
  destruct (negb (String.eqb (cli.styleCellsBgColor flags) ""));
    destruct (_ || _ || _ || _);
    cbn [cli.StyleFields cli.UserEnteredFormat app strings.Join];
    (split; [reflexivity | intros; first [discriminate | reflexivity]]).
Qed.
